(** * Distillation data augmentation (autogluon [distill_utils.py])

    A shallow embedding of
    [autogluon/utils/tabular/ml/augmentation/distill_utils.py]:
    the label transformer [format_distillation_labels], the dispatcher
    [augment_data], the post-processor [postprocess_augmented] and the two
    samplers [spunge_augment] and [munge_augment].

    Modelling conventions.
    - Python [float] values in frames and sampler arguments are rationals
      ([Q]); [np.inf] is the extra value [PInf] of [pyfloat].  Where a
      result turns on rounding, the arithmetic is IEEE 754 binary64 (module
      [Binary64]): the label rescaling of line 28, the sample count of line
      42, the perturbation bound of line 75, and an integer read as a
      float.  The statements about frames do not depend on the value of a
      float; where one compares the values of a batch with those of [X],
      it is stated for integers that are floats as they are (at most
      [2^53] in magnitude).
    - Python exceptions are values of [exn]; a call that raises returns
      [Raise e] together with the store as it was when the exception left
      the function (writes made before the [raise] stay visible).
    - pandas objects live in a store of frames addressed by references, so
      that copying ([.copy()], [pd.concat]) and in-place updates
      ([X[col] = ...], [X_aug.iloc[i] = ...]) are distinguished.
    - numpy's random generator, the tabular-NN vectoriser and scikit-learn's
      neighbour search are interfaces (type classes); theorems hold for every
      implementation of them. *)

From Stdlib Require Import ZArith QArith Qround Qabs String List Lia Lqa.
From Stdlib Require SpecFloat.
From stdpp Require Import gmap strings list fin_maps.

Open Scope Z_scope.
Open Scope Q_scope.
Open Scope string_scope.
Open Scope list_scope.

(* ===================================================================== *)
(** ** Python exceptions and results                                      *)
(* ===================================================================== *)

Inductive exn : Type :=
| ValueError (msg : string)
| TypeError (msg : string)
| KeyError (key : string)
| IndexError (msg : string)
| OverflowError (msg : string)
| InvalidRef (r : nat).
(** [InvalidRef] is not a Python exception: it is the model's answer to a
    reference that is absent from the store, which a Python program cannot
    hold. *)

Inductive result (A : Type) : Type :=
| Ok (a : A)
| Raise (e : exn).
Arguments Ok {A} a.
Arguments Raise {A} e.

Definition is_ok {A} (r : result A) : bool :=
  match r with Ok _ => true | Raise _ => false end.

Definition is_raise {A} (r : result A) : bool := negb (is_ok r).

(* ===================================================================== *)
(** ** Numbers                                                            *)
(* ===================================================================== *)

(** [x > y] on floats. *)
Definition Qgtb (x y : Q) : bool := negb (Qle_bool x y).

(** Python's [int(x)] on a finite float: truncation toward zero. *)
Definition py_int (x : Q) : Z := Z.quot (Qnum x) (Z.pos (Qden x)).

(** Python's [round(x)]: nearest integer, ties to the even one.  Used only
    to write down the specification's wording of the perturbation bound. *)
Definition py_round (x : Q) : Z :=
  let f := Qfloor x in
  let r := x - inject_Z f in
  match Qcompare r (1 # 2) with
  | Lt => f
  | Gt => (f + 1)%Z
  | Eq => if Z.even f then f else (f + 1)%Z
  end.

(* ===================================================================== *)
(** ** Label transformer: [format_distillation_labels]                    *)
(* ===================================================================== *)

(** The problem-type constants imported from [..constants]. *)
Definition BINARY : string := "binary".
Definition MULTICLASS : string := "multiclass".
Definition REGRESSION : string := "regression".
Definition SOFTCLASS : string := "softclass".

(** A label [pd.Series] with its dtype. *)
Inductive series : Type :=
| IntSeries (ys : list Z)
| FloatSeries (ys : list Q).

(** What the transformer hands back: a series, or the one-hot
    [pd.DataFrame] built in the multi-class branch. *)
Inductive labels : Type :=
| LSeries (s : series)
| LFrame (rows : list (list Q)).

Definition series_size (s : series) : nat :=
  match s with
  | IntSeries ys => length ys
  | FloatSeries ys => length ys
  end.

Definition series_floats (s : series) : list Q :=
  match s with
  | IntSeries ys => map inject_Z ys
  | FloatSeries ys => ys
  end.

(** [np.zeros((rows, cols))]; [cols] is [None] when [num_classes] was not
    given. *)
Definition np_zeros (rows : nat) (cols : option Z) : result (list (list Q)) :=
  match cols with
  | None => Raise (TypeError "'NoneType' object cannot be interpreted as an integer")
  | Some k =>
      if (k <? 0)%Z then Raise (ValueError "negative dimensions are not allowed")
      else Ok (repeat (repeat 0 (Z.to_nat k)) rows)
  end.

(** One position of the fancy-index assignment [y[np.arange(n), y_int] = 1]:
    numpy accepts column indices in [-width, width) and wraps negative
    ones. *)
Definition set_one (row : list Q) (j : Z) : result (list Q) :=
  let width := Z.of_nat (length row) in
  if ((- width <=? j) && (j <? width))%Z then
    Ok (<[Z.to_nat (j mod width) := 1]> row)
  else Raise (IndexError "index is out of bounds for axis 1").

Fixpoint set_ones (rows : list (list Q)) (js : list Z) : result (list (list Q)) :=
  match rows, js with
  | row :: rows', j :: js' =>
      match set_one row j with
      | Raise e => Raise e
      | Ok row1 =>
          match set_ones rows' js' with
          | Raise e => Raise e
          | Ok rest => Ok (row1 :: rest)
          end
      end
  | _, _ => Ok []
  end.

(** Lines 17-20 (and 21-24): one-hot expansion of one label series. *)
Definition one_hot (y : series) (num_classes : option Z) : result labels :=
  match np_zeros (series_size y) num_classes with
  | Raise e => Raise e
  | Ok zeros =>
      match y with
      | FloatSeries _ =>
          Raise (IndexError "arrays used as indices must be of integer (or boolean) type")
      | IntSeries y_int =>
          match set_ones zeros y_int with
          | Raise e => Raise e
          | Ok m => Ok (LFrame m)
          end
      end
  end.

Definition min_pred : Q := 0.
Definition max_pred : Q := 1.

(** Line 28 read over the rationals: the affine map applied to every
    binary label.  What the line computes in floats is
    [Binary64.smooth_label]; the two agree where no operation rounds, as
    at [eps_labelsmooth = 1/2]. *)
Definition smooth_label (eps_labelsmooth y : Q) : Q :=
  eps_labelsmooth
  + ((1 - 2 * eps_labelsmooth) / (max_pred - min_pred)) * (y - min_pred).

Definition smooth_series (eps_labelsmooth : Q) (y : series) : labels :=
  LSeries (FloatSeries (map (smooth_label eps_labelsmooth) (series_floats y))).

Definition eps_labelsmooth_default : Q := 1 # 100.

Definition format_distillation_labels (y_train y_test : series)
    (problem_type : string) (num_classes : option Z) (eps_labelsmooth : Q)
  : result (labels * labels) :=
  if String.eqb problem_type MULTICLASS then
    match one_hot y_train num_classes with
    | Raise e => Raise e
    | Ok y_train' =>
        match one_hot y_test num_classes with
        | Raise e => Raise e
        | Ok y_test' => Ok (y_train', y_test')
        end
    end
  else if String.eqb problem_type BINARY then
    Ok (smooth_series eps_labelsmooth y_train,
        smooth_series eps_labelsmooth y_test)
  else Ok (LSeries y_train, LSeries y_test).

(* ===================================================================== *)
(** ** pandas frames: the data                                            *)
(* ===================================================================== *)

Inductive dtype : Type := Int64 | Float64 | ObjectDtype.

Inductive cell : Type :=
| CInt (z : Z)
| CFloat (q : Q)
| CNaN
| CStr (s : string).

(** A [pd.DataFrame]: the ordered columns with their dtypes, and the rows,
    each carrying its index label.  Column labels are taken to be unique. *)
Record DataFrame : Type := mkDataFrame {
  df_columns : list (string * dtype);
  df_rows : list (Z * list cell)
}.

(** A row taken out of a frame ([X.iloc[i]]): labelled cells. *)
Definition Row : Type := list (string * cell).

Definition columns (X : DataFrame) : list string := map fst (df_columns X).
Definition dtypes (X : DataFrame) : list dtype := map snd (df_columns X).
Definition len (X : DataFrame) : nat := length (df_rows X).
Definition index (X : DataFrame) : list Z := map fst (df_rows X).

(* ===================================================================== *)
(** ** Binary64 arithmetic: lines 28, 42 and 75                           *)
(* ===================================================================== *)

(** The label rescaling (line 28), the product of line 42 and the
    perturbation bound (line 75) are straight-line float arithmetic.  Here
    they are written over IEEE 754 binary64 ([SpecFloat] at precision 53
    and exponent bound 1024), where every operation rounds to nearest, ties
    to even, as CPython and numpy do. *)
Module Binary64.

Definition float : Type := SpecFloat.spec_float.

Definition prec : Z := 53.
Definition emax : Z := 1024.

Definition add : float -> float -> float := SpecFloat.SFadd prec emax.
Definition sub : float -> float -> float := SpecFloat.SFsub prec emax.
Definition mul : float -> float -> float := SpecFloat.SFmul prec emax.
Definition div : float -> float -> float := SpecFloat.SFdiv prec emax.

(** [float(n)] for a Python [int]; exact up to [2^53]. *)
Definition of_int (n : Z) : float :=
  SpecFloat.binary_normalize prec emax n 0 false.

(** The decimal literal [m / 10^k], such as [decimal 5 2] for [0.05]: the
    float nearest to that fraction (numerator and power of ten are
    themselves floats for the literals used below). *)
Definition decimal (m : Z) (k : Z) : float := div (of_int m) (of_int (10 ^ k)).

(** An integer as numerator or denominator of a quotient. *)
Definition raw (z : Z) : float :=
  match z with
  | Z0 => SpecFloat.S754_zero false
  | Zpos p => SpecFloat.S754_finite false p 0
  | Zneg p => SpecFloat.S754_finite true p 0
  end.

(** The float nearest to a rational (ties to even, an infinity on
    overflow): the float a value of the model stands for, itself when it
    is one. *)
Definition of_Q (x : Q) : float := div (raw (Qnum x)) (raw (Z.pos (Qden x))).


(** The number a finite float stands for. *)
Definition to_Q (x : float) : option Q :=
  match x with
  | SpecFloat.S754_zero _ => Some 0
  | SpecFloat.S754_finite s m e =>
      let mag := if (0 <=? e)%Z then inject_Z (Z.pos m * 2 ^ e)
                 else Z.pos m # (2 ^ Z.to_pos (- e)) in
      Some (if s then - mag else mag)
  | _ => None
  end.

(** The value of [float(n)]: the float nearest to the integer, which is
    the integer itself up to [2^53] in magnitude (an [int64] never
    overflows). *)
Definition int_value (n : Z) : Q :=
  match to_Q (of_int n) with
  | Some q => Qred q
  | None => inject_Z n
  end.

(** Python's [int(x)]: the integer part, toward zero. *)
Definition py_int (x : float) : result Z :=
  match x with
  | SpecFloat.S754_zero _ => Ok 0%Z
  | SpecFloat.S754_finite s m e =>
      let mag := if (0 <=? e)%Z then Z.shiftl (Z.pos m) e
                 else Z.shiftr (Z.pos m) (- e) in
      Ok (if s then (- mag)%Z else mag)
  | SpecFloat.S754_infinity _ =>
      Raise (OverflowError "cannot convert float infinity to integer")
  | SpecFloat.S754_nan =>
      Raise (ValueError "cannot convert float NaN to integer")
  end.

Definition min_pred : float := of_int 0.
Definition max_pred : float := of_int 1.

(** Line 28, for one label. *)
Definition smooth_label (eps_labelsmooth y : float) : float :=
  add eps_labelsmooth
      (mul (div (sub (of_int 1) (mul (of_int 2) eps_labelsmooth))
                (sub max_pred min_pred))
           (sub y min_pred)).

(** Line 75. *)
Definition num_feature_perturb (frac_perturb : float) (X : DataFrame)
  : result Z :=
  match py_int (mul frac_perturb (of_int (Z.of_nat (length (columns X))))) with
  | Raise e => Raise e
  | Ok k => Ok (Z.max 1 k)
  end.


(** A frame of [n] columns, for the bound. *)
Definition wide (n : nat) : DataFrame :=
  {| df_columns := map (fun j => (String (Ascii.ascii_of_nat (65 + j)) "", Float64))
                       (seq 0 n);
     df_rows := [] |}.

End Binary64.

(* ===================================================================== *)
(** ** pandas frames: dtypes and operations                               *)
(* ===================================================================== *)

(** numpy's common dtype of two columns. *)
Definition common_dtype (a b : dtype) : dtype :=
  match a, b with
  | Int64, Int64 => Int64
  | ObjectDtype, _ | _, ObjectDtype => ObjectDtype
  | _, _ => Float64
  end.

(** The dtype a column takes once it must hold a missing value. *)
Definition na_dtype (a : dtype) : dtype :=
  match a with Int64 => Float64 | _ => a end.

Definition cell_dtype (c : cell) : dtype :=
  match c with
  | CInt _ => Int64
  | CFloat _ | CNaN => Float64
  | CStr _ => ObjectDtype
  end.

(** A cell read in a column of dtype [d]: in a float column an integer
    becomes the float nearest to it. *)
Definition cast_cell (d : dtype) (c : cell) : cell :=
  match d, c with
  | Float64, CInt z => CFloat (Binary64.int_value z)
  | _, _ => c
  end.

Fixpoint col_pos (cols : list string) (name : string) : option nat :=
  match cols with
  | [] => None
  | c :: cols' =>
      if String.eqb c name then Some O
      else option_map S (col_pos cols' name)
  end.

Definition col_dtype (X : DataFrame) (name : string) : option dtype :=
  match col_pos (columns X) name with
  | Some p => nth_error (dtypes X) p
  | None => None
  end.

Definition cell_at (cols : list string) (cells : list cell) (name : string)
  : option cell :=
  match col_pos cols name with
  | Some p => nth_error cells p
  | None => None
  end.

(** Column labels of [objs] in order of first appearance (outer join,
    unsorted). *)
Fixpoint union_columns (seen : list string) (names : list string) : list string :=
  match names with
  | [] => seen
  | c :: names' =>
      if existsb (String.eqb c) seen then union_columns seen names'
      else union_columns (seen ++ [c]) names'
  end.

Definition concat_columns (objs : list DataFrame) : list string :=
  fold_left (fun seen X => union_columns seen (columns X)) objs [].

(** Result dtype of one column of a concatenation: the common dtype of the
    frames that have it, widened for missing values when a frame lacks
    it. *)
Definition concat_dtype (objs : list DataFrame) (name : string) : dtype :=
  let step (acc : option dtype * bool) (X : DataFrame) :=
    match col_dtype X name with
    | Some d =>
        (Some (match fst acc with Some a => common_dtype a d | None => d end),
         snd acc)
    | None => (fst acc, true)
    end in
  match fold_left step objs (None, false) with
  | (Some d, true) => na_dtype d
  | (Some d, false) => d
  | (None, _) => ObjectDtype
  end.

Definition reindex_row (X : DataFrame) (schema : list (string * dtype))
    (r : Z * list cell) : Z * list cell :=
  (fst r,
   map (fun cd : string * dtype =>
          match cell_at (columns X) (snd r) (fst cd) with
          | Some c => cast_cell (snd cd) c
          | None => CNaN
          end) schema).

(** [pd.concat(objs)] along the rows. *)
Definition pd_concat (objs : list DataFrame) : result DataFrame :=
  match objs with
  | [] => Raise (ValueError "No objects to concatenate")
  | _ =>
      let schema :=
        map (fun c => (c, concat_dtype objs c)) (concat_columns objs) in
      Ok {| df_columns := schema;
            df_rows :=
              flat_map (fun X => map (reindex_row X schema) (df_rows X)) objs |}
  end.

(** [X.tail(n)]: pandas answers [X.iloc[0:0]] for [n = 0] and [X.iloc[-n:]]
    otherwise. *)
Definition df_tail (n : Z) (X : DataFrame) : DataFrame :=
  {| df_columns := df_columns X;
     df_rows :=
       if (n =? 0)%Z then []
       else if (0 <? n)%Z then skipn (len X - Z.to_nat n) (df_rows X)
       else skipn (Z.to_nat (- n)) (df_rows X) |}.

Fixpoint range_index (start : Z) (n : nat) : list Z :=
  match n with
  | O => []
  | S n' => start :: range_index (start + 1)%Z n'
  end.

(** [X.reset_index(drop=True)]. *)
Definition reset_index (X : DataFrame) : DataFrame :=
  {| df_columns := df_columns X;
     df_rows := combine (range_index 0 (len X)) (map snd (df_rows X)) |}.

(** [X.iloc[[0]]]: a one-row frame. *)
Definition iloc_first (X : DataFrame) : result DataFrame :=
  match df_rows X with
  | [] => Raise (IndexError "positional indexers are out-of-bounds")
  | r :: _ => Ok {| df_columns := df_columns X; df_rows := [r] |}
  end.

(** dtype of a row taken out of a frame: the common dtype of its
    columns. *)
Definition row_dtype (X : DataFrame) : dtype :=
  match dtypes X with
  | [] => ObjectDtype
  | d :: ds => fold_left common_dtype ds d
  end.

(** [X.iloc[i]] for a position [i]. *)
Definition iloc_row (X : DataFrame) (i : nat) : result Row :=
  match nth_error (df_rows X) i with
  | None => Raise (IndexError "single positional indexer is out-of-bounds")
  | Some r => Ok (combine (columns X) (map (cast_cell (row_dtype X)) (snd r)))
  end.

(** [row[name]]. *)
Fixpoint row_get (r : Row) (name : string) : result cell :=
  match r with
  | [] => Raise (KeyError name)
  | (c, v) :: r' => if String.eqb c name then Ok v else row_get r' name
  end.

(** [row[name] = v] on a row that has the label. *)
Fixpoint row_set (r : Row) (name : string) (v : cell) : Row :=
  match r with
  | [] => [(name, v)]
  | (c, w) :: r' =>
      if String.eqb c name then (c, v) :: r' else (c, w) :: row_set r' name v
  end.

(** [X[name]]: the values of one column. *)
Definition get_column (X : DataFrame) (name : string) : result (list cell) :=
  match col_pos (columns X) name with
  | None => Raise (KeyError name)
  | Some p => Ok (map (fun r => nth p (snd r) CNaN) (df_rows X))
  end.

Definition set_dtype_at (p : nat) (d : dtype) (cols : list (string * dtype))
  : list (string * dtype) :=
  match nth_error cols p with
  | Some (c, _) => <[p := (c, d)]> cols
  | None => cols
  end.

(** [X[name] = values] for an existing column and a series on the same
    index: the column takes the values and their dtype. *)
Definition set_column (X : DataFrame) (name : string) (d : dtype)
    (vals : list cell) : result DataFrame :=
  match col_pos (columns X) name with
  | None => Raise (KeyError name)
  | Some p =>
      Ok {| df_columns := set_dtype_at p d (df_columns X);
            df_rows :=
              map (fun rv : (Z * list cell) * cell =>
                     (fst (fst rv), <[p := snd rv]> (snd (fst rv))))
                  (combine (df_rows X) vals) |}
  end.

(** [series.astype(float)]. *)
Fixpoint astype_float (vals : list cell) : result (list cell) :=
  match vals with
  | [] => Ok []
  | c :: vals' =>
      match c with
      | CStr _ => Raise (ValueError "could not convert string to float")
      | _ =>
          match astype_float vals' with
          | Raise e => Raise e
          | Ok rest => Ok (cast_cell Float64 c :: rest)
          end
      end
  end.

(** [X.iloc[i] = row]: the cells of [row] are written by column label; a
    column widens to the common dtype when the new cell needs it.  An
    integer column that is handed a float widens to float, as pandas did
    when the code was written; later versions keep the integer dtype when
    the float is a whole number.  The statements below hold either way:
    none is about the dtype of a batch after this assignment, and a value
    of the batch is compared with the values of [X] as it is or as the
    equal float. *)
Definition set_row (X : DataFrame) (i : nat) (row : Row) : result DataFrame :=
  match nth_error (df_rows X) i with
  | None => Raise (IndexError "iloc cannot enlarge its target object")
  | Some (label, old) =>
      let cells :=
        map (fun cv : string * cell =>
               match row_get row (fst cv) with
               | Ok v => v
               | Raise _ => CNaN
               end) (combine (columns X) old) in
      let schema :=
        map (fun dc : (string * dtype) * cell =>
               (fst (fst dc), common_dtype (snd (fst dc)) (cell_dtype (snd dc))))
            (combine (df_columns X) cells) in
      Ok {| df_columns := schema;
            df_rows :=
              map (fun r : Z * list cell =>
                     (fst r,
                      map (fun dc : (string * dtype) * cell =>
                             cast_cell (snd (fst dc)) (snd dc))
                          (combine schema (snd r))))
                  (<[i := (label, cells)]> (df_rows X)) |}
  end.

(* ===================================================================== *)
(** ** The store, effects and external interfaces                         *)
(* ===================================================================== *)

(** A Python [float] that may be [np.inf]. *)
Inductive pyfloat : Type :=
| Fin (q : Q)
| PInf.

(** Values held by the [augment_args] dictionary. *)
Inductive argval : Type :=
| AInt (z : Z)
| AFloat (x : pyfloat).

(** What leaves the function besides its result: log records and calls to
    the external vectoriser and neighbour search. *)
Inductive event : Type :=
| EvLog (level : Z)
| EvVectorize (n_rows : nat)
| EvKneighbors (n_neighbors n_samples : nat).

(** References to frames and to dictionaries are natural numbers. *)
Record state (G : Type) : Type := mkState {
  frames : gmap nat DataFrame;
  dicts : gmap nat (gmap string argval);
  rng : G;
  trace : list event
}.
Arguments mkState {G} _ _ _ _.
Arguments frames {G} _.
Arguments dicts {G} _.
Arguments rng {G} _.
Arguments trace {G} _.

(** Computations: state passing with exceptions; the state that reaches the
    caller with an exception is the one at the [raise]. *)
Definition M (G A : Type) : Type := state G -> result A * state G.

Definition ret {G A} (a : A) : M G A := fun s => (Ok a, s).

Definition raise {G A} (e : exn) : M G A := fun s => (Raise e, s).

Definition bind {G A B} (c : M G A) (k : A -> M G B) : M G B :=
  fun s =>
    match c s with
    | (Ok a, s') => k a s'
    | (Raise e, s') => (Raise e, s')
    end.

Notation "'let*' x ':=' c 'in' k" := (bind c (fun x => k))
  (at level 10, x pattern, c at level 100, k at level 200).
Notation "c ';;' k" := (bind c (fun _ => k))
  (at level 100, k at level 200, right associativity).

Definition lift {G A} (r : result A) : M G A :=
  match r with Ok a => ret a | Raise e => raise e end.

Definition emit {G} (e : event) : M G unit :=
  fun s => (Ok tt, mkState (frames s) (dicts s) (rng s) (trace s ++ [e])).

(** [logger.log(level, ...)]. *)
Definition log {G} (level : Z) : M G unit := emit (EvLog level).

Definition get_frame {G} (r : nat) : M G DataFrame :=
  fun s =>
    match frames s !! r with
    | Some X => (Ok X, s)
    | None => (Raise (InvalidRef r), s)
    end.

(** A new frame object, at a reference that is not in use. *)
Definition alloc_frame {G} (X : DataFrame) : M G nat :=
  fun s =>
    let r := fresh (dom (frames s)) in
    (Ok r, mkState (<[r := X]> (frames s)) (dicts s) (rng s) (trace s)).

(** In-place update of the frame object at [r]. *)
Definition put_frame {G} (r : nat) (X : DataFrame) : M G unit :=
  fun s => (Ok tt, mkState (<[r := X]> (frames s)) (dicts s) (rng s) (trace s)).

Definition get_dict {G} (r : nat) : M G (gmap string argval) :=
  fun s =>
    match dicts s !! r with
    | Some d => (Ok d, s)
    | None => (Raise (InvalidRef r), s)
    end.

(** [d[key] = v] on the dictionary object at [r]. *)
Definition dict_set {G} (r : nat) (key : string) (v : argval) : M G unit :=
  fun s =>
    match dicts s !! r with
    | Some d =>
        (Ok tt,
         mkState (frames s) (<[r := <[key := v]> d]> (dicts s)) (rng s) (trace s))
    | None => (Raise (InvalidRef r), s)
    end.

(** [for x in xs: acc = body(acc, x)]. *)
Fixpoint fold_m {G A B} (body : B -> A -> M G B) (xs : list A) (acc : B)
  : M G B :=
  match xs with
  | [] => ret acc
  | x :: xs' => let* acc' := body acc x in fold_m body xs' acc'
  end.

(** [for x in xs: body(x)]. *)
Definition for_each {G A} (xs : list A) (body : A -> M G unit) : M G unit :=
  fold_m (fun _ x => body x) xs tt.

(** [range(n)] for a Python integer [n]. *)
Definition py_range (n : Z) : list nat := seq 0 (Z.to_nat n).

(** numpy's global random generator.  A draw hands back a value and the
    next generator state; the callers below reduce every draw into its
    legal range. *)
Class RandomState (G : Type) : Type := {
  rand_below : G -> nat -> nat * G;
  rand_normal : G -> Q -> Q * G;
  rand_binomial : G -> nat -> Q -> nat * G
}.

(** The tabular-NN preprocessing of lines 115-122: one numeric vector per
    row of the frame. *)
Class Vectorizer : Type := {
  vectorize : DataFrame -> result (list (list Q))
}.

(** [NearestNeighbors(n_neighbors=k).fit(data).kneighbors(query)]: the
    neighbour indices of every query row, nearest first. *)
Class NeighborSearch : Type := {
  kneighbors : nat -> list (list Q) -> list (list Q) -> result (list (list nat))
}.

(** [np.nanstd] of the non-missing values of a column. *)
Class Numeric : Type := {
  np_nanstd : list Q -> Q
}.

(* ===================================================================== *)
(** ** The augmentation functions                                          *)
(* ===================================================================== *)

(** [feature_types_metadata]: type category to feature names. *)
Definition continuous_types : list string := ["float"; "int"; "datetime"].

(** Lines 78-82 and 142-146. *)
Definition continuous_features (feature_types_metadata : gmap string (list string))
  : list string :=
  flat_map (fun contype => default [] (feature_types_metadata !! contype))
           continuous_types.

Definition mem_string (x : string) (xs : list string) : bool :=
  existsb (String.eqb x) xs.

(** Line 75 on the rational [frac_perturb] of the samplers.  The sampler
    uses the bound only as the range of a random draw; the float
    computation of the line is [Binary64.num_feature_perturb]. *)
Definition num_feature_perturb (frac_perturb : Q) (X : DataFrame) : Z :=
  Z.max 1 (py_int (frac_perturb * inject_Z (Z.of_nat (length (columns X))))).

(** A cell as a number: [None] is NaN. *)
Definition cell_num (c : cell) : result (option Q) :=
  match c with
  | CInt z => Ok (Some (Binary64.int_value z))
  | CFloat q => Ok (Some q)
  | CNaN => Ok None
  | CStr _ => Raise (TypeError "unsupported operand type(s): 'str' and 'float'")
  end.

Fixpoint cells_num (cs : list cell) : result (list (option Q)) :=
  match cs with
  | [] => Ok []
  | c :: cs' =>
      match cell_num c with
      | Raise e => Raise e
      | Ok x =>
          match cells_num cs' with
          | Raise e => Raise e
          | Ok xs => Ok (x :: xs)
          end
      end
  end.

Definition num_cell (x : option Q) : cell :=
  match x with Some q => CFloat q | None => CNaN end.

(** [aug_data + noise * mask], element by element. *)
Definition add_noise (aug_data : list (option Q)) (noise : list Q)
    (mask : list nat) : list cell :=
  map (fun t : option Q * (Q * nat) =>
         num_cell (option_map
                     (fun a => a + fst (snd t) * inject_Z (Z.of_nat (snd (snd t))))
                     (fst t)))
      (combine aug_data (combine noise mask)).

(** [neigh_ind[:, 1]]. *)
Fixpoint second_column (neigh : list (list nat)) : result (list nat) :=
  match neigh with
  | [] => Ok []
  | row :: neigh' =>
      match row with
      | _ :: j :: _ =>
          match second_column neigh' with
          | Raise e => Raise e
          | Ok js => Ok (j :: js)
          end
      | _ => Raise (IndexError "index 1 is out of bounds for axis 1")
      end
  end.

(** Numbers met while deriving [num_augmented_samples]: Python integers
    and floats, compared by value. *)
Inductive xnum : Type :=
| XFin (q : Q)
| XInf
| XNegInf
| XNaN.

(** A float as such a number. *)
Definition of_float (x : Binary64.float) : xnum :=
  match Binary64.to_Q x with
  | Some q => XFin (Qred q)
  | None =>
      match x with
      | SpecFloat.S754_infinity false => XInf
      | SpecFloat.S754_infinity true => XNegInf
      | _ => XNaN
      end
  end.

Definition arg_num (v : argval) : xnum :=
  match v with
  | AInt z => XFin (inject_Z z)
  | AFloat (Fin q) => of_float (Binary64.of_Q q)
  | AFloat PInf => XInf
  end.

(** [v * len(X_train)]: exact for an [int], the rounded float product for
    a [float] (the length is converted first). *)
Definition mul_len (v : argval) (n : nat) : xnum :=
  match v with
  | AInt z => XFin (inject_Z z * inject_Z (Z.of_nat n))
  | AFloat (Fin q) =>
      of_float (Binary64.mul (Binary64.of_Q q) (Binary64.of_int (Z.of_nat n)))
  | AFloat PInf => match n with O => XNaN | S _ => XInf end
  end.

(** [a < b]; every comparison with NaN is false. *)
Definition xlt (a b : xnum) : bool :=
  match a, b with
  | XFin x, XFin y => negb (Qle_bool y x)
  | XFin _, XInf => true
  | XNegInf, XFin _ => true
  | XNegInf, XInf => true
  | _, _ => false
  end.

(** Python's [min(a, b)]: [b] when [b < a], else [a]. *)
Definition py_min (a b : xnum) : xnum := if xlt b a then b else a.

(** Python's [int(x)]. *)
Definition py_int_x (x : xnum) : result Z :=
  match x with
  | XFin q => Ok (py_int q)
  | XInf | XNegInf =>
      Raise (OverflowError "cannot convert float infinity to integer")
  | XNaN => Raise (ValueError "cannot convert float NaN to integer")
  end.

Definition has_key (d : gmap string argval) (key : string) : bool :=
  match d !! key with Some _ => true | None => false end.

(** [d[key]]. *)
Definition dict_get (d : gmap string argval) (key : string) : result argval :=
  match d !! key with
  | Some v => Ok v
  | None => Raise (KeyError key)
  end.

(** A float keyword argument of a sampler, with its default. *)
Definition kw_float (d : gmap string argval) (key : string) (dflt : Q) : pyfloat :=
  match d !! key with
  | None => Fin dflt
  | Some (AInt z) => Fin (inject_Z z)
  | Some (AFloat x) => x
  end.

(** A noise scale must be finite to be a rational of the model: the
    statements about [augment_data] are for dictionaries without an
    infinite [continuous_feature_noise] or [s]. *)
Definition finite_scale (x : pyfloat) : result Q :=
  match x with
  | Fin q => Ok q
  | PInf => Raise (OverflowError "an infinite noise scale is outside the model")
  end.

(** [f(X_train, feature_types_metadata, **augment_args)]: the positional
    parameters may not be named again by the dictionary. *)
Definition check_kwargs (d : gmap string argval) : result unit :=
  if has_key d "X" then
    Raise (TypeError "got multiple values for argument 'X'")
  else if has_key d "feature_types_metadata" then
    Raise (TypeError "got multiple values for argument 'feature_types_metadata'")
  else Ok tt.

(** The dictionary object that the [def] creates once for the default
    [augment_args={}]; a caller that omits the argument passes it. *)
Definition default_augment_args : nat := 0%nat.

Section Augmentation.

Context {G : Type}.
Context `{HR : RandomState G} `{HV : Vectorizer} `{HN : NeighborSearch}
        `{HS : Numeric}.

Definition set_rng (g : G) (s : state G) : state G :=
  mkState (frames s) (dicts s) g (trace s).

(** A uniform draw from [0 .. n-1]. *)
Definition draw_below (n : nat) : M G nat :=
  fun s =>
    let (r, g) := rand_below (rng s) n in
    (Ok (r mod n)%nat, set_rng g s).

(** One value of [np.random.normal(scale=scale)]; the scale was checked by
    the caller. *)
Definition draw_normal (scale : Q) : M G Q :=
  fun s => let (x, g) := rand_normal (rng s) scale in (Ok x, set_rng g s).

(** One value of [np.random.binomial(n, p)]; [p] was checked by the
    caller. *)
Definition draw_binomial (n : nat) (p : Q) : M G nat :=
  fun s =>
    let (k, g) := rand_binomial (rng s) n p in (Ok (Nat.min n k), set_rng g s).

Definition check_scale (scale : Q) : M G unit :=
  if Qgtb 0 scale then raise (ValueError "scale < 0") else ret tt.

Definition check_prob (p : Q) : M G unit :=
  if Qgtb 0 p then raise (ValueError "p < 0")
  else if Qgtb p 1 then raise (ValueError "p > 1")
  else ret tt.

(** [np.random.normal(scale=scale, size=size)]. *)
Definition normal_vector (scale : Q) (size : nat) : M G (list Q) :=
  check_scale scale ;;
  fold_m (fun acc _ => let* x := draw_normal scale in ret (acc ++ [x]))
         (seq 0 size) [].

(** [np.random.binomial(n=n, p=p, size=size)]. *)
Definition binomial_vector (n : nat) (p : Q) (size : nat) : M G (list nat) :=
  check_prob p ;;
  fold_m (fun acc _ => let* k := draw_binomial n p in ret (acc ++ [k]))
         (seq 0 size) [].

Fixpoint choose_distinct (size : nat) (pool : list string) : M G (list string) :=
  match size with
  | O => ret []
  | S size' =>
      let* p := draw_below (length pool) in
      match pool !! p with
      | None => ret []
      | Some c =>
          let* rest := choose_distinct size' (delete p pool) in
          ret (c :: rest)
      end
  end.

(** [np.random.choice(cols, size=size, replace=False)]. *)
Definition choice_columns (cols : list string) (size : nat) : M G (list string) :=
  if ((length cols =? 0)%nat && negb (size =? 0)%nat)%bool then
    raise (ValueError "'a' cannot be empty unless no samples are taken")
  else if (length cols <? size)%nat then
    raise (ValueError
             "Cannot take a larger sample than population when 'replace=False'")
  else choose_distinct size cols.

(** [feature_data.sample(n=1).values[0]]. *)
Definition sample_one (feature_data : list cell) : M G cell :=
  match feature_data with
  | [] => raise (ValueError "a must be greater than 0 unless no samples are taken")
  | c :: _ =>
      let* p := draw_below (length feature_data) in
      ret (nth p feature_data c)
  end.

(** In-place update of the frame object at [r] by a frame operation. *)
Definition update_frame (r : nat) (f : DataFrame -> result DataFrame) : M G unit :=
  let* X := get_frame r in
  let* X' := lift (f X) in
  put_frame r X'.

(** Lines 53-59. *)
Definition postprocess_augmented (X_aug X : nat) : M G nat :=
  let* Xv := get_frame X in
  let* Xa := get_frame X_aug in
  let* cat := lift (pd_concat [Xv; Xa]) in
  let tail := df_tail (Z.of_nat (len cat) - Z.of_nat (len Xv)) cat in
  log 15 ;;
  alloc_frame (reset_index tail).

(** Lines 76-77 and 140-141:
    [X_aug = pd.concat([X.iloc[[0]].copy()] * num_augmented_samples)]
    followed by [X_aug.reset_index(drop=True, inplace=True)]. *)
Definition new_batch (X : nat) (num_augmented_samples : argval) : M G nat :=
  let* Xv := get_frame X in
  let* first := lift (iloc_first Xv) in
  match num_augmented_samples with
  | AFloat _ =>
      raise (TypeError "can't multiply sequence by non-int of type 'float'")
  | AInt n =>
      let* cat := lift (pd_concat (repeat first (Z.to_nat n))) in
      let* X_aug := alloc_frame cat in
      put_frame X_aug (reset_index cat) ;;
      ret X_aug
  end.

(** [range(num_augmented_samples)], reached only for an integer. *)
Definition sample_range (num_augmented_samples : argval) : list nat :=
  match num_augmented_samples with
  | AInt n => py_range n
  | AFloat _ => []
  end.

(** Lines 85-92: one pass of the hot-deck loop. *)
Definition spunge_row (X X_aug : nat) (bound : Z) (i : nat) : M G unit :=
  let* Xv := get_frame X in
  let og_ind := (i mod len Xv)%nat in
  let* augdata_i := lift (iloc_row Xv og_ind) in
  let* r := draw_below (Z.to_nat bound) in
  let num_feature_perturb_i := S r in
  let* cols_toperturb := choice_columns (columns Xv) num_feature_perturb_i in
  let* augdata_i' :=
    fold_m (fun row feature =>
              let* feature_data := lift (get_column Xv feature) in
              let* v := sample_one feature_data in
              ret (row_set row feature v))
           cols_toperturb augdata_i in
  update_frame X_aug (fun Xa => set_row Xa i augdata_i').

(** Lines 95-101: noise on one column. *)
Definition spunge_noise (X X_aug : nat) (continuous_featnames : list string)
    (size : nat) (frac_perturb continuous_feature_noise : Q)
    (feature : string) : M G unit :=
  if mem_string feature continuous_featnames then
    let* Xv := get_frame X in
    let* feature_data := lift (get_column Xv feature) in
    let* Xa := get_frame X_aug in
    let* aug_data := lift (get_column Xa feature) in
    let* observed := lift (cells_num feature_data) in
    let scale := np_nanstd (omap id observed) * continuous_feature_noise in
    let* noise := normal_vector scale size in
    let* mask := binomial_vector 1 frac_perturb size in
    let* aug_num := lift (cells_num aug_data) in
    update_frame X_aug
      (fun Xa' => set_column Xa' feature Float64 (add_noise aug_num noise mask))
  else ret tt.

(** Lines 62-103. *)
Definition spunge_augment (X : nat)
    (feature_types_metadata : gmap string (list string))
    (num_augmented_samples : argval) (frac_perturb : pyfloat)
    (continuous_feature_noise : Q) : M G nat :=
  match frac_perturb with
  | PInf => raise (ValueError "frac_perturb must be <= 1")
  | Fin fp =>
      if Qgtb fp 1 then raise (ValueError "frac_perturb must be <= 1")
      else
        log 20 ;;
        let* Xv := get_frame X in
        let bound := num_feature_perturb fp Xv in
        let* X_aug := new_batch X num_augmented_samples in
        let continuous_featnames := continuous_features feature_types_metadata in
        for_each (sample_range num_augmented_samples)
                 (spunge_row X X_aug bound) ;;
        for_each (columns Xv)
                 (spunge_noise X X_aug continuous_featnames
                    (length (sample_range num_augmented_samples))
                    fp continuous_feature_noise) ;;
        ret X_aug
  end.

(** Lines 148-149: both the batch and the local copy of [X] get the column
    as floats. *)
Definition cast_continuous (X_aug X : nat) (col : string) : M G unit :=
  let cast := fun Y : DataFrame =>
    match get_column Y col with
    | Raise e => Raise e
    | Ok vals =>
        match astype_float vals with
        | Raise e => Raise e
        | Ok vals' => set_column Y col Float64 vals'
        end
    end in
  update_frame X_aug cast ;;
  update_frame X cast.

(** Line 165: [new_val += np.random.normal(scale=|augdata_i[col] - new_val| / s)].
    A missing value on either side makes the scale, and so the result, NaN;
    the draw is made all the same.  Division by a zero [s] is outside the
    model. *)
Definition munge_noise (base new_val : cell) (s : Q) : M G cell :=
  let* b := lift (cell_num base) in
  let* v := lift (cell_num new_val) in
  match b, v with
  | Some b', Some v' =>
      let scale := Qabs (b' - v') / s in
      check_scale scale ;;
      let* x := draw_normal scale in
      ret (CFloat (v' + x))
  | _, _ =>
      let* _ := draw_normal 0 in
      ret CNaN
  end.

(** Lines 157-167: one pass of the neighbour loop. *)
Definition munge_row (X X_aug : nat) (neigh_ind : list nat)
    (continuous_featnames : list string) (perturb_prob s : Q) (i : nat)
  : M G unit :=
  let* Xv := get_frame X in
  let og_ind := (i mod len Xv)%nat in
  let* augdata_i := lift (iloc_row Xv og_ind) in
  let* j :=
    lift (match nth_error neigh_ind og_ind with
          | Some j => Ok j
          | None => Raise (IndexError "index is out of bounds for axis 0")
          end) in
  let* neighbor_i := lift (iloc_row Xv j) in
  check_prob perturb_prob ;;
  let* k := draw_binomial (length (columns Xv)) perturb_prob in
  let* cols_toperturb := choice_columns (columns Xv) k in
  let* augdata_i' :=
    fold_m (fun row col =>
              let* new_val := lift (row_get neighbor_i col) in
              let* new_val' :=
                if mem_string col continuous_featnames then
                  let* base := lift (row_get row col) in
                  munge_noise base new_val s
                else ret new_val in
              ret (row_set row col new_val'))
           cols_toperturb augdata_i in
  update_frame X_aug (fun Xa => set_row Xa i augdata_i').

(** Lines 108-169. *)
Definition munge_augment (X : nat)
    (feature_types_metadata : gmap string (list string))
    (num_augmented_samples : argval) (perturb_prob : pyfloat) (s : Q)
  : M G nat :=
  let* Xv := get_frame X in
  emit (EvVectorize (len Xv)) ;;
  let* X_vector := lift (vectorize Xv) in
  emit (EvKneighbors 2 (length X_vector)) ;;
  let* neigh := lift (kneighbors 2 X_vector X_vector) in
  let* neigh_ind := lift (second_column neigh) in
  match perturb_prob with
  | PInf => raise (ValueError "frac_perturb must be <= 1")
  | Fin p =>
      if Qgtb p 1 then raise (ValueError "frac_perturb must be <= 1")
      else
        log 20 ;;
        let* X' := alloc_frame Xv in
        let* X_aug := new_batch X' num_augmented_samples in
        let continuous_featnames := continuous_features feature_types_metadata in
        for_each continuous_featnames (cast_continuous X_aug X') ;;
        for_each (sample_range num_augmented_samples)
                 (munge_row X' X_aug neigh_ind continuous_featnames p s) ;;
        ret X_aug
  end.

(** Lines 39-42: the derived sample count is written into the caller's
    dictionary. *)
Definition derive_num_augmented_samples (X_train augment_args : nat) : M G unit :=
  let* args := get_dict augment_args in
  if has_key args "num_augmented_samples" then ret tt
  else
    (if has_key args "max_size" then ret tt
     else dict_set augment_args "max_size" (AFloat PInf)) ;;
    let* args' := get_dict augment_args in
    let* max_size := lift (dict_get args' "max_size") in
    let* size_factor := lift (dict_get args' "size_factor") in
    let* Xv := get_frame X_train in
    let* n := lift (py_int_x (py_min (arg_num max_size)
                                     (mul_len size_factor (len Xv)))) in
    dict_set augment_args "num_augmented_samples" (AInt n).

(** Line 45: [spunge_augment(X_train, feature_types_metadata, **augment_args)]. *)
Definition call_spunge (X_train : nat)
    (feature_types_metadata : gmap string (list string)) (augment_args : nat)
  : M G nat :=
  let* args := get_dict augment_args in
  lift (check_kwargs args) ;;
  let* noise := lift (finite_scale (kw_float args "continuous_feature_noise" (1 # 10))) in
  spunge_augment X_train feature_types_metadata
    (default (AInt 10000) (args !! "num_augmented_samples"))
    (kw_float args "frac_perturb" (1 # 10)) noise.

(** Line 47: [munge_augment(X_train, feature_types_metadata, **augment_args)]. *)
Definition call_munge (X_train : nat)
    (feature_types_metadata : gmap string (list string)) (augment_args : nat)
  : M G nat :=
  let* args := get_dict augment_args in
  lift (check_kwargs args) ;;
  let* s := lift (finite_scale (kw_float args "s" 1)) in
  munge_augment X_train feature_types_metadata
    (default (AInt 10000) (args !! "num_augmented_samples"))
    (kw_float args "perturb_prob" (1 # 2)) s.

(** Lines 33-51. *)
Definition augment_data (X_train : nat)
    (feature_types_metadata : gmap string (list string))
    (augmentation_data : option nat) (augment_method : string)
    (augment_args : nat) : M G nat :=
  let* X_aug :=
    match augmentation_data with
    | Some data => ret data
    | None =>
        derive_num_augmented_samples X_train augment_args ;;
        if String.eqb augment_method "spunge" then
          call_spunge X_train feature_types_metadata augment_args
        else if String.eqb augment_method "munge" then
          call_munge X_train feature_types_metadata augment_args
        else raise (ValueError ("unknown augment_method: " ++ augment_method))
    end in
  postprocess_augmented X_aug X_train.

End Augmentation.

(* ===================================================================== *)
(** ** Reference implementations of the interfaces, and sample data       *)
(* ===================================================================== *)

(** Executable stand-ins for the external collaborators, used to run the
    functions on concrete inputs.  The general theorems below do not depend
    on them. *)
Module Reference.

(** A generator whose state counts the draws made so far. *)
Definition counter_random : RandomState nat :=
  {| rand_below := fun g _ => (g, S g);
     rand_normal := fun g scale => (scale, S g);
     rand_binomial := fun g n _ => (n, S g) |}.

Definition cell_value (c : cell) : Q :=
  match c with
  | CInt z => inject_Z z
  | CFloat q => q
  | _ => 0
  end.

(** Every row becomes the vector of its numeric cells. *)
Definition plain_vectorizer : Vectorizer :=
  {| vectorize := fun X => Ok (map (fun r => map cell_value (snd r)) (df_rows X)) |}.

Definition sqdist (u v : list Q) : Q :=
  fold_right Qplus 0
    (map (fun p : Q * Q => (fst p - snd p) * (fst p - snd p)) (combine u v)).

Fixpoint insert_by (d : Q) (j : nat) (sorted : list (Q * nat)) : list (Q * nat) :=
  match sorted with
  | [] => [(d, j)]
  | (d', j') :: rest =>
      if Qle_bool d' d then (d', j') :: insert_by d j rest
      else (d, j) :: (d', j') :: rest
  end.

Definition nearest_first (data : list (list Q)) (q : list Q) : list nat :=
  map snd
      (fold_left (fun acc jv => insert_by (sqdist q (snd jv)) (fst jv) acc)
                 (combine (seq 0 (length data)) data) []).

(** Exhaustive Euclidean search; as in scikit-learn, asking for more
    neighbours than there are samples is an error. *)
Definition brute_force_neighbors : NeighborSearch :=
  {| kneighbors := fun k data query =>
       if (length data <? k)%nat then
         Raise (ValueError "Expected n_neighbors <= n_samples")
       else Ok (map (fun q => firstn k (nearest_first data q)) query) |}.

(** Spread of the observed values (largest minus smallest) in place of the
    standard deviation. *)
Definition spread : Numeric :=
  {| np_nanstd := fun xs =>
       match xs with
       | [] => 0
       | x :: xs' =>
           fold_left (fun m y => if Qle_bool m y then y else m) xs' x
           - fold_left (fun m y => if Qle_bool y m then y else m) xs' x
       end |}.

Definition spunge_augment :=
  @spunge_augment nat counter_random spread.
Definition munge_augment :=
  @munge_augment nat counter_random plain_vectorizer brute_force_neighbors.
Definition augment_data :=
  @augment_data nat counter_random plain_vectorizer brute_force_neighbors spread.
Definition postprocess_augmented := @postprocess_augmented nat.

(** Four rows, an integer, a float and a text column. *)
Definition X4 : DataFrame :=
  {| df_columns := [("age", Int64); ("height", Float64); ("city", ObjectDtype)];
     df_rows := [ (10%Z, [CInt 31; CFloat (17 # 10); CStr "Oslo"]);
                  (11%Z, [CInt 45; CFloat (16 # 10); CStr "Rome"]);
                  (12%Z, [CInt 27; CFloat (18 # 10); CStr "Oslo"]);
                  (13%Z, [CInt 52; CFloat (15 # 10); CStr "Bern"]) ] |}.

Definition X2 : DataFrame :=
  {| df_columns := df_columns X4; df_rows := firstn 2 (df_rows X4) |}.

Definition X1 : DataFrame :=
  {| df_columns := df_columns X4; df_rows := firstn 1 (df_rows X4) |}.

(** One integer column, and a batch for it whose column holds floats. *)
Definition Xint : DataFrame :=
  {| df_columns := [("age", Int64)];
     df_rows := [(0%Z, [CInt 31]); (1%Z, [CInt 45])] |}.

Definition Xint_aug : DataFrame :=
  {| df_columns := [("age", Float64)];
     df_rows := [(0%Z, [CFloat (61 # 2)]); (1%Z, [CFloat (91 # 2)]);
                 (2%Z, [CFloat (63 # 2)])] |}.

(** Two columns, for the perturbation bound. *)
Definition Xtwo : DataFrame :=
  {| df_columns := [("age", Int64); ("height", Float64)];
     df_rows := [(0%Z, [CInt 31; CFloat (17 # 10)])] |}.

Definition metadata : gmap string (list string) :=
  {[ "int" := ["age"]; "float" := ["height"]; "object" := ["city"] ]}.

(** A store holding the default dictionary (reference 0), the caller's
    dictionary [d] at reference 1, and the frames [fs] from reference 0
    on. *)
Definition store (fs : list DataFrame) (d : gmap string argval) : state nat :=
  {| frames := list_to_map (combine (seq 0 (length fs)) fs);
     dicts := {[ default_augment_args := ∅; 1%nat := d ]};
     rng := 0%nat;
     trace := [] |}.

Definition frame_len (r : result nat) (s : state nat) : option nat :=
  match r with
  | Ok x => option_map len (frames s !! x)
  | Raise _ => None
  end.

(** The runs that the examples below look at. *)

Definition caller_args : gmap string argval := {[ "size_factor" := AInt 1 ]}.

(** The neighbour sampler on a single row. *)
Definition single_row_run : result nat * state nat :=
  munge_augment 0%nat metadata (AInt 3) (Fin (1 # 2)) 1 (store [X1] ∅).

(** The neighbour sampler with [perturb_prob = 1.5] on four rows. *)
Definition late_check_run : result nat * state nat :=
  munge_augment 0%nat metadata (AInt 3) (Fin (3 # 2)) 1 (store [X4] ∅).

(** Both samplers asked for zero rows. *)
Definition spunge_zero_run : result nat * state nat :=
  spunge_augment 0%nat metadata (AInt 0) (Fin (1 # 10)) (1 # 10) (store [X4] ∅).

Definition munge_zero_run : result nat * state nat :=
  munge_augment 0%nat metadata (AInt 0) (Fin (1 # 2)) 1 (store [X4] ∅).

(** The post-processor on a float batch for an integer dataset. *)
Definition upcast_run : result nat * state nat :=
  postprocess_augmented 1%nat 0%nat (store [Xint; Xint_aug] ∅).

(** The dispatcher with the neighbour method, end to end. *)
Definition munge_pipeline_run : result nat * state nat :=
  augment_data 0%nat metadata None "munge" 1%nat (store [X4] caller_args).

(** The dispatcher given ready-made rows and a method name it does not
    know. *)
Definition supplied_rows_run : result nat * state nat :=
  augment_data 0%nat metadata (Some 1%nat) "bogus" 1%nat (store [X4; X2] ∅).

(** Two calls that share the caller's dictionary: first on the four-row
    dataset, then on the two-row one; and the second call on its own. *)
Definition first_call : result nat * state nat :=
  augment_data 0%nat metadata None "spunge" 1%nat (store [X4; X2] caller_args).

Definition second_call : result nat * state nat :=
  augment_data 1%nat metadata None "spunge" 1%nat (snd first_call).

Definition second_call_alone : result nat * state nat :=
  augment_data 1%nat metadata None "spunge" 1%nat (store [X4; X2] caller_args).

(** A call that leaves [augment_args] to its default. *)
Definition default_args_call : result nat * state nat :=
  augment_data 0%nat metadata None "spunge" default_augment_args
    (store [X4] caller_args).

Definition frame_dtypes (run : result nat * state nat) : option (list dtype) :=
  match fst run with
  | Ok x => option_map dtypes (frames (snd run) !! x)
  | Raise _ => None
  end.

Definition frame_rows (run : result nat * state nat) : option nat :=
  frame_len (fst run) (snd run).

End Reference.

(* ===================================================================== *)
(** ** Further sample data                                                *)
(* ===================================================================== *)

Module Cases.

(** The four-row frame without its rows. *)
Definition X0 : DataFrame :=
  {| df_columns := df_columns Reference.X4; df_rows := [] |}.

(** Metadata naming a continuous feature that the sample frames lack, alone
    and next to the features they have. *)
Definition metadata_weight : gmap string (list string) :=
  {[ "float" := ["weight"] ]}.

Definition metadata_extra : gmap string (list string) :=
  <["float" := ["height"; "weight"]]> Reference.metadata.

(** A vectoriser that fails. *)
Definition failing_vectorizer : Vectorizer :=
  {| vectorize := fun _ => Raise (ValueError "cannot vectorize") |}.

(** Ten rows, and a dictionary with the factor 0.3. *)
Definition X10 : DataFrame :=
  {| df_columns := df_columns Reference.X4;
     df_rows := df_rows Reference.X4 ++ df_rows Reference.X4
                ++ firstn 2 (df_rows Reference.X4) |}.

Definition float_args : gmap string argval :=
  {[ "size_factor" := AFloat (Fin (3 # 10)) ]}.

(** A dictionary with both a factor and a cap. *)
Definition capped_args : gmap string argval :=
  {[ "size_factor" := AInt 10; "max_size" := AInt 5 ]}.

End Cases.

(* ===================================================================== *)
(** ** Predicates used in the statements                                  *)
(* ===================================================================== *)

(** scikit-learn's neighbour search refuses to look for more neighbours
    than it was given samples ([ValueError]: expected
    [n_neighbors <= n_samples]; with no sample at all, from [fit]). *)
Definition rejects_too_few_samples (HN : NeighborSearch) : Prop :=
  forall (k : nat) (data query : list (list Q)),
    (length data < k)%nat ->
    exists msg, kneighbors k data query = Raise (ValueError msg).

(** The vectoriser yields one vector per row of the frame. *)
Definition one_vector_per_row (HV : Vectorizer) : Prop :=
  forall (X : DataFrame) (V : list (list Q)),
    vectorize X = Ok V -> length V = len X.

(** [x > 1.0] for a float that may be infinite. *)
Definition exceeds_one (x : pyfloat) : bool :=
  match x with
  | PInf => true
  | Fin q => Qgtb q 1
  end.

(** The state [s] after the events [es] were emitted, nothing else having
    changed. *)
Definition logged {G} (s : state G) (es : list event) : state G :=
  mkState (frames s) (dicts s) (rng s) (trace s ++ es).

(** Did the neighbour search run? *)
Definition is_search (e : event) : bool :=
  match e with EvKneighbors _ _ => true | _ => false end.

Definition searched (t : list event) : bool := existsb is_search t.

(** [keeps y Y c Q]: run from a store where the frame object [y] holds
    [Y], the computation [c] leaves [Y] at [y], and a value it returns
    satisfies [Q]. *)
Definition keeps {G A} (y : nat) (Y : DataFrame) (c : M G A) (Q : A -> Prop)
  : Prop :=
  forall s : state G,
    frames s !! y = Some Y ->
    frames (snd (c s)) !! y = Some Y
    /\ (forall a, fst (c s) = Ok a -> Q a).

Definition any {A} : A -> Prop := fun _ => True.

(** [dict_only c]: whatever [c] does, it does to dictionaries: frames, the
    generator and the trace come out as they went in. *)
Definition dict_only {G A} (c : M G A) : Prop :=
  forall s : state G,
    frames (snd (c s)) = frames s
    /\ rng (snd (c s)) = rng s
    /\ trace (snd (c s)) = trace s.

(** What a one-hot row for the label [y] among [k] classes looks like: [k]
    entries, a 1 at position [y mod k] (negative labels count from the end)
    and 0 elsewhere. *)
Definition one_hot_of (k y : Z) (row : list Q) : Prop :=
  length row = Z.to_nat k
  /\ forall j : nat, (j < Z.to_nat k)%nat ->
       row !! j = Some (if (Z.of_nat j =? y mod k)%Z then 1 else 0).

(** The labels numpy accepts as a column index among [k] columns. *)
Definition in_classes (k y : Z) : Prop := (- k <= y < k)%Z.


(** Two floats of the same sign and exponent whose mantissas differ by at
    most one: equal or neighbours. *)
Definition within_ulp (x y : Binary64.float) : bool :=
  match x, y with
  | SpecFloat.S754_finite sx mx ex, SpecFloat.S754_finite sy my ey =>
      Bool.eqb sx sy && (ex =? ey)%Z
      && (Z.abs (Z.pos mx - Z.pos my) <=? 1)%Z
  | _, _ => false
  end.

(** Line 28 in binary64 at [eps = k / 100], for the labels 0 and 1: 0 is
    sent to [eps] itself; 1 is sent to [1 - eps] as computed or to a float
    next to it, and to [1 - eps] itself unless [k] is 4, 5 or 8. *)
Definition two_digit_check (k : Z) : bool :=
  let eps := Binary64.decimal k 2 in
  let one := Binary64.of_int 1 in
  SpecFloat.SFeqb (Binary64.smooth_label eps (Binary64.of_int 0)) eps
  && within_ulp (Binary64.smooth_label eps one) (Binary64.sub one eps)
  && Bool.eqb (SpecFloat.SFeqb (Binary64.smooth_label eps one)
                               (Binary64.sub one eps))
              (negb ((k =? 4) || (k =? 5) || (k =? 8))%Z).


(** The state [s] with the dictionary object [a] holding [d]. *)
Definition with_dict {G} (s : state G) (a : nat) (d : gmap string argval)
  : state G :=
  mkState (frames s) (<[a := d]> (dicts s)) (rng s) (trace s).

(** A batch of [n] rows on the columns [cols]: the index is 0, 1, ..., and
    every row has one cell per column. *)
Definition shaped (n : nat) (cols : list string) (F : DataFrame) : Prop :=
  len F = n
  /\ columns F = cols
  /\ index F = range_index 0 n
  /\ Forall (fun r : Z * list cell => length (snd r) = length cols) (df_rows F).

(** [s'] has the frames, dictionaries and trace of [s]; the generator may
    have moved on. *)
Definition agree {G} (s s' : state G) : Prop :=
  frames s' = frames s /\ dicts s' = dicts s /\ trace s' = trace s.

(** A computation that at most draws random numbers. *)
Definition rng_only {G A} (c : M G A) : Prop :=
  forall s, agree s (snd (c s)).

(** A cell that sits in a column of dtype [d] as it is: a float column
    holds no integer cell. *)
Definition fits (d : dtype) (c : cell) : Prop := cast_cell d c = c.

(** Every row has one cell per column and every cell fits its column. *)
Definition well_typed (F : DataFrame) : Prop :=
  Forall (fun r : Z * list cell =>
            Forall2 (fun cd c => fits (snd cd) c) (df_columns F) (snd r))
         (df_rows F).

(** Every integer of the frame is a float as it is: reading it as a
    float, as pandas does for a row or a column of mixed numbers, changes
    no value. *)
Definition exact_ints (F : DataFrame) : Prop :=
  Forall (fun r : Z * list cell =>
            Forall (fun c => match c with
                             | CInt z => (Z.abs z <= 2 ^ 53)%Z
                             | _ => True
                             end) (snd r))
         (df_rows F).

(** The dictionary holds no infinite noise parameter for a sampler. *)
Definition finite_noise (d : gmap string argval) : Prop :=
  d !! "continuous_feature_noise" <> Some (AFloat PInf)
  /\ d !! "s" <> Some (AFloat PInf).

(** Every row has one cell per column. *)
Definition rectangular (F : DataFrame) : Prop :=
  Forall (fun r : Z * list cell => length (snd r) = length (df_columns F))
         (df_rows F).

(** [v] is a cell of column number [p] of [Xv], as it is or cast from an
    integer to a float. *)
Definition observed (Xv : DataFrame) (p : nat) (v : cell) : Prop :=
  exists r c0,
    In r (df_rows Xv) /\ nth_error (snd r) p = Some c0
    /\ (v = c0 \/ v = cast_cell Float64 c0).

(** In every column of [Xv] that is not continuous, [F] holds only values
    observed in that column of [Xv]. *)
Definition drawn_from (Xv : DataFrame) (cont : list string) (F : DataFrame)
  : Prop :=
  forall r p c v,
    In r (df_rows F) -> nth_error (columns Xv) p = Some c ->
    mem_string c cont = false -> nth_error (snd r) p = Some v ->
    observed Xv p v.

(** The same for a row taken out of a frame. *)
Definition row_drawn_from (Xv : DataFrame) (cont : list string) (row : Row)
  : Prop :=
  forall p c,
    nth_error (columns Xv) p = Some c -> mem_string c cont = false ->
    exists v, row_get row c = Ok v /\ observed Xv p v.

(** What a sampler keeps true of its batch: [n] rows on the columns of
    [Xv], and, when [Xv] is rectangular, only observed values outside the
    continuous columns. *)
Definition batch_of (Xv : DataFrame) (cont : list string) (n : nat)
    (F : DataFrame) : Prop :=
  shaped n (columns Xv) F /\ (rectangular Xv -> drawn_from Xv cont F).

(** What a sampler keeps true of the frame it reads rows from: the columns
    of [Xv], and, when [Xv] is rectangular, a rectangular frame that
    differs from [Xv] in continuous columns at most. *)
Definition source_of (Xv : DataFrame) (cont : list string) (Xc : DataFrame)
  : Prop :=
  columns Xc = columns Xv
  /\ (rectangular Xv -> rectangular Xc /\ drawn_from Xv cont Xc).

(** While a sampler fills its batch: dictionaries and trace are those of
    [s0], the batch object [X_aug] satisfies [P], the frame object [X'] it
    reads from satisfies [P'], and every other frame object is as in
    [s0]. *)
Definition batch_inv {G} (X_aug X' : nat) (P P' : DataFrame -> Prop)
    (s0 s : state G) : Prop :=
  dicts s = dicts s0
  /\ trace s = trace s0
  /\ (forall r, r <> X_aug -> r <> X' -> frames s !! r = frames s0 !! r)
  /\ (exists F, frames s !! X_aug = Some F /\ P F)
  /\ (exists F', frames s !! X' = Some F' /\ P' F').

(** The state in which the neighbour sampler starts to build its batch:
    after the vectoriser, the neighbour search and the log record, with
    the copy of [X] (line 139) at a new reference. *)
Definition after_search {G} (s : state G) (Xv : DataFrame)
    (V : list (list Q)) : state G :=
  mkState (<[fresh (dom (frames s)) := Xv]> (frames s)) (dicts s) (rng s)
          (trace s ++ [EvVectorize (len Xv); EvKneighbors 2 (length V);
                       EvLog 20]).

(* ===================================================================== *)
(** ** Theorems                                                           *)
(* ===================================================================== *)

Example py_int_neg : py_int (- (3 # 2)) = (-1)%Z.
Proof. reflexivity. Qed.

Example py_round_tie : py_round (5 # 2) = 2%Z /\ py_round (7 # 4) = 2%Z.
Proof. split; reflexivity. Qed.

Example one_hot_three :
  one_hot (IntSeries [2; 0; -1]%Z) (Some 3%Z)
  = Ok (LFrame [[0; 0; 1]; [1; 0; 0]; [0; 0; 1]]).
Proof. reflexivity. Qed.

Example concat_upcasts :
  pd_concat [ {| df_columns := [("a", Int64)]; df_rows := [(7%Z, [CInt 1])] |};
              {| df_columns := [("a", Float64); ("b", ObjectDtype)];
                 df_rows := [(0%Z, [CFloat (1 # 2); CStr "x"])] |} ]
  = Ok {| df_columns := [("a", Float64); ("b", ObjectDtype)];
          df_rows := [(7%Z, [CFloat (inject_Z 1); CNaN]);
                      (0%Z, [CFloat (1 # 2); CStr "x"])] |}.
Proof. reflexivity. Qed.

(* --------------------------------------------------------------------- *)
(** *** Numbers                                                           *)
(* --------------------------------------------------------------------- *)

Lemma Qgtb_true (x y : Q) : Qgtb x y = true <-> y < x.
Proof.
  unfold Qgtb. rewrite negb_true_iff. split; intros Hxy.
  - apply Qnot_le_lt. intros Hle. apply Qle_bool_iff in Hle. congruence.
  - destruct (Qle_bool x y) eqn:E; [|reflexivity].
    apply Qle_bool_iff in E. exfalso. exact (Qlt_not_le _ _ Hxy E).
Qed.

Lemma Qgtb_false (x y : Q) : Qgtb x y = false <-> x <= y.
Proof.
  unfold Qgtb. rewrite negb_false_iff. apply Qle_bool_iff.
Qed.

Lemma py_int_floor (x : Q) : 0 <= x -> py_int x = Qfloor x.
Proof.
  destruct x as [n d]. unfold Qle, py_int, Qfloor. simpl. intros Hn.
  apply Z.quot_div_nonneg; lia.
Qed.

Lemma py_int_negative (x : Q) : x < 0 -> (py_int x <= 0)%Z.
Proof.
  destruct x as [n d]. unfold Qlt, py_int. simpl. intros Hn.
  assert (Hq : (0 <= Z.quot (- n) (Z.pos d))%Z) by (apply Z.quot_pos; lia).
  rewrite Z.quot_opp_l in Hq by lia. lia.
Qed.

Lemma py_int_inject (z : Z) : py_int (inject_Z z) = z.
Proof. unfold py_int. simpl. apply Z.quot_1_r. Qed.

Lemma py_int_opp (x : Q) : py_int (- x) = (- py_int x)%Z.
Proof.
  destruct x as [n d]. unfold py_int. simpl. apply Z.quot_opp_l. lia.
Qed.

(** The float nearest to a rational: [3/10] is the literal [0.3],
    [2^53 + 1] rounds to [2^53], fractions of a thousand are the decimal
    literals, and integers around [2^53] are converted as [float(n)]
    does. *)
Example of_Q_rounds :
  Binary64.of_Q (3 # 10) = SpecFloat.S754_finite false 5404319552844595 (-54)
  /\ Binary64.of_Q (inject_Z (2 ^ 53 + 1))
     = SpecFloat.S754_finite false 4503599627370496 1
  /\ forallb (fun k => SpecFloat.SFeqb (Binary64.of_Q (k # 1000))
                                       (Binary64.decimal k 3))
             (map Z.of_nat (seq 0 1000)) = true
  /\ forallb (fun k => SpecFloat.SFeqb
                         (Binary64.of_Q (inject_Z (2 ^ 53 - 1000 + k)))
                         (Binary64.of_int (2 ^ 53 - 1000 + k)))
             (map Z.of_nat (seq 0 2000)) = true.
Proof. vm_compute. repeat split. Qed.

(** The product of line 42: exact for an integer factor, rounded for a
    float one ([0.3 * 10] is 3 although the float [0.3] is below three
    tenths), and an infinity when it overflows. *)
Example mul_len_rounds :
  mul_len (AInt 3) 10 = XFin (inject_Z 3 * inject_Z 10)
  /\ mul_len (AFloat (Fin (3 # 10))) 10 = XFin 3
  /\ mul_len (AFloat (Fin (inject_Z (10 ^ 308)))) 100 = XInf
  /\ mul_len (AFloat (Fin (- inject_Z (10 ^ 308)))) 100 = XNegInf
  /\ mul_len (AFloat PInf) 0 = XNaN.
Proof. vm_compute. repeat split. Qed.

(** [max(1, int(x))]: at least 1, equal to 1 below 2, and the integer part
    of [x] from 1 on. *)
Lemma integer_part_bound (x : Q) :
  let r := Z.max 1 (py_int x) in
  (1 <= r)%Z
  /\ (x < 2 -> r = 1%Z)
  /\ (1 <= x -> inject_Z r <= x /\ x < inject_Z r + 1).
Proof.
  intros r. unfold r.
  split; [lia|]. split.
  - intros Hlt. destruct (Qlt_le_dec x 0) as [Hneg|Hpos].
    + pose proof (py_int_negative x Hneg). lia.
    + rewrite (py_int_floor x Hpos).
      assert (Hf : (Qfloor x < 2)%Z).
      { rewrite Zlt_Qlt. eapply Qle_lt_trans; [apply Qfloor_le|exact Hlt]. }
      lia.
  - intros Hge.
    assert (Hpos : 0 <= x) by lra.
    rewrite (py_int_floor x Hpos).
    assert (Hf : (1 <= Qfloor x)%Z).
    { change 1%Z with (Qfloor 1). apply Qfloor_resp_le. exact Hge. }
    rewrite Z.max_r by lia.
    split; [apply Qfloor_le|].
    pose proof (Qlt_floor x) as Hlt.
    rewrite inject_Z_plus in Hlt. exact Hlt.
Qed.


(** [int] on a float is [int] on the number the float stands for. *)
Lemma binary64_int_exact (p : Binary64.float) (k : Z) :
  Binary64.py_int p = Ok k ->
  exists x, Binary64.to_Q p = Some x /\ k = py_int x.
Proof.
  destruct p as [s|s| |s m e]; simpl; intros H; try discriminate.
  - exists 0. split; [reflexivity|]. inversion H. reflexivity.
  - inversion H as [Hk]. clear H Hk.
    eexists. split; [reflexivity|].
    assert (Hmag : (if (0 <=? e)%Z then Z.shiftl (Z.pos m) e
                    else Z.shiftr (Z.pos m) (- e))
                   = py_int (if (0 <=? e)%Z then inject_Z (Z.pos m * 2 ^ e)
                             else Z.pos m # (2 ^ Z.to_pos (- e)))).
    { destruct (0 <=? e)%Z eqn:He.
      - apply Z.leb_le in He. rewrite py_int_inject.
        apply Z.shiftl_mul_pow2. exact He.
      - apply Z.leb_gt in He. unfold py_int. simpl.
        rewrite Z.quot_div_nonneg by lia.
        rewrite Z.shiftr_div_pow2 by lia.
        rewrite Pos2Z.inj_pow, Z2Pos.id by lia. reflexivity. }
    destruct s.
    + rewrite py_int_opp, Hmag. reflexivity.
    + exact Hmag.
Qed.

(* --------------------------------------------------------------------- *)
(** *** The label transformer                                             *)
(* --------------------------------------------------------------------- *)







(** C5, as the code has it. With [problem_type = MULTICLASS] and no
    [num_classes] the call fails whatever the labels are, with the
    [TypeError] that [np.zeros] raises for the missing dimension on line
    18.  The transformer itself checks nothing about [num_classes]: a
    negative one is likewise left to [np.zeros], and for another problem
    type a missing one is accepted. *)
Theorem multiclass_requires_num_classes (y_train y_test : series) (eps : Q) :
  format_distillation_labels y_train y_test MULTICLASS None eps
  = Raise (TypeError "'NoneType' object cannot be interpreted as an integer")
  /\ (forall k : Z,
        (k < 0)%Z ->
        format_distillation_labels y_train y_test MULTICLASS (Some k) eps
        = Raise (ValueError "negative dimensions are not allowed"))
  /\ (forall problem_type : string,
        problem_type <> MULTICLASS ->
        is_ok (format_distillation_labels y_train y_test problem_type None eps)
        = true).
Proof.
  split; [reflexivity|]. split.
  - intros k Hk. unfold format_distillation_labels, one_hot, np_zeros.
    rewrite String.eqb_refl.
    apply Z.ltb_lt in Hk. rewrite Hk. reflexivity.
  - intros problem_type Hp. unfold format_distillation_labels.
    apply String.eqb_neq in Hp. rewrite Hp.
    destruct (String.eqb problem_type BINARY); reflexivity.
Qed.

Lemma multiclass_requires_num_classes_witness :
  format_distillation_labels (IntSeries [0; 1]%Z) (IntSeries [1]%Z)
    MULTICLASS (Some (-1)%Z) eps_labelsmooth_default
  = Raise (ValueError "negative dimensions are not allowed")
  /\ is_ok (format_distillation_labels (IntSeries [0; 1]%Z) (IntSeries [1]%Z)
              BINARY None eps_labelsmooth_default) = true.
Proof.
  destruct (multiclass_requires_num_classes (IntSeries [0; 1]%Z)
              (IntSeries [1]%Z) eps_labelsmooth_default) as (_ & H1 & H2).
  split.
  - apply H1. lia.
  - apply H2. discriminate.
Defined.

(** C5, as the specification words it, fails: the error of a call without
    [num_classes] is not one the transformer raises for a bad
    configuration.  It is numpy's [TypeError] for the dimension [None],
    the very error [np.zeros] gives on its own. *)
Lemma missing_num_classes_is_numpy_error :
  np_zeros 2 None
  = Raise (TypeError "'NoneType' object cannot be interpreted as an integer")
  /\ format_distillation_labels (IntSeries [0; 1]%Z) (IntSeries [1]%Z)
       MULTICLASS None eps_labelsmooth_default
     = Raise (TypeError "'NoneType' object cannot be interpreted as an integer")
  /\ forall msg : string,
       format_distillation_labels (IntSeries [0; 1]%Z) (IntSeries [1]%Z)
         MULTICLASS None eps_labelsmooth_default
       <> Raise (ValueError msg).
Proof. repeat split. discriminate. Qed.

(* --------------------------------------------------------------------- *)
(** *** The perturbation bound of the fast sampler                         *)
(* --------------------------------------------------------------------- *)



(* --------------------------------------------------------------------- *)
(** *** Running the samplers up to their first failure                     *)
(* --------------------------------------------------------------------- *)

Section Prefix.

Context {G : Type}.
Context `{HR : RandomState G} `{HV : Vectorizer} `{HN : NeighborSearch}
        `{HS : Numeric}.

Lemma logged_logged (s : state G) (es es' : list event) :
  logged (logged s es) es' = logged s (es ++ es').
Proof. unfold logged. simpl. rewrite <- app_assoc. reflexivity. Qed.

Lemma bind_run {A B} (c : M G A) (k : A -> M G B) (s : state G) :
  bind c k s
  = match c s with
    | (Ok a, s') => k a s'
    | (Raise e, s') => (Raise e, s')
    end.
Proof. reflexivity. Qed.

Lemma emit_run (e : event) (s : state G) : emit e s = (Ok tt, logged s [e]).
Proof. reflexivity. Qed.

Lemma log_run (level : Z) (s : state G) :
  log level s = (Ok tt, logged s [EvLog level]).
Proof. reflexivity. Qed.

Lemma lift_run {A} (r : result A) (s : state G) :
  lift r s = match r with Ok a => (Ok a, s) | Raise e => (Raise e, s) end.
Proof. destruct r; reflexivity. Qed.

Lemma get_frame_run (X : nat) (s : state G) :
  get_frame X s
  = match frames s !! X with
    | Some Xv => (Ok Xv, s)
    | None => (Raise (InvalidRef X), s)
    end.
Proof. reflexivity. Qed.

Lemma get_frame_logged (X : nat) (s : state G) (es : list event) :
  get_frame X (logged s es)
  = match frames s !! X with
    | Some Xv => (Ok Xv, logged s es)
    | None => (Raise (InvalidRef X), logged s es)
    end.
Proof. unfold get_frame. simpl. destruct (frames s !! X); reflexivity. Qed.

(** Lines 76/140 with a count of zero: [pd.concat] gets the empty list. *)
Lemma new_batch_zero (X : nat) (s : state G) :
  exists e, new_batch X (AInt 0) s = (Raise e, s).
Proof.
  unfold new_batch. rewrite bind_run, get_frame_run.
  destruct (frames s !! X) as [Xv|]; [|eexists; reflexivity].
  rewrite bind_run, lift_run.
  destruct (iloc_first Xv); [|eexists; reflexivity].
  rewrite bind_run, lift_run. simpl. eexists; reflexivity.
Qed.

Lemma new_batch_zero_nonempty (X : nat) (Xv : DataFrame) (s : state G) :
  frames s !! X = Some Xv -> df_rows Xv <> [] ->
  new_batch X (AInt 0) s = (Raise (ValueError "No objects to concatenate"), s).
Proof.
  intros HX Hne. unfold new_batch. rewrite bind_run, get_frame_run, HX.
  rewrite bind_run, lift_run. unfold iloc_first.
  destruct (df_rows Xv); [congruence|].
  rewrite bind_run, lift_run. reflexivity.
Qed.

Lemma spunge_rejects (X : nat) (ftm : gmap string (list string))
    (n : argval) (x : pyfloat) (noise : Q) (s : state G) :
  exceeds_one x = true ->
  spunge_augment X ftm n x noise s
  = (Raise (ValueError "frac_perturb must be <= 1"), s).
Proof.
  intros Hx. unfold spunge_augment. destruct x as [q|]; [|reflexivity].
  simpl in Hx. rewrite Hx. reflexivity.
Qed.

(** The part of [munge_augment] that precedes the check of
    [perturb_prob]: lines 115-134. *)
Lemma munge_prefix (X : nat) (ftm : gmap string (list string))
    (n : argval) (x : pyfloat) (sc : Q) (s : state G) :
  (exists e, munge_augment X ftm n x sc s = (Raise e, s)
             /\ frames s !! X = None)
  \/ (exists Xv e, frames s !! X = Some Xv /\ vectorize Xv = Raise e
      /\ munge_augment X ftm n x sc s
         = (Raise e, logged s [EvVectorize (len Xv)]))
  \/ (exists Xv V e, frames s !! X = Some Xv /\ vectorize Xv = Ok V
      /\ (kneighbors 2 V V = Raise e
          \/ exists N, kneighbors 2 V V = Ok N /\ second_column N = Raise e)
      /\ munge_augment X ftm n x sc s
         = (Raise e, logged s [EvVectorize (len Xv); EvKneighbors 2 (length V)]))
  \/ (exists Xv V N js, frames s !! X = Some Xv /\ vectorize Xv = Ok V
      /\ kneighbors 2 V V = Ok N /\ second_column N = Ok js
      /\ (exceeds_one x = true ->
          munge_augment X ftm n x sc s
          = (Raise (ValueError "frac_perturb must be <= 1"),
             logged s [EvVectorize (len Xv); EvKneighbors 2 (length V)]))).
Proof.
  unfold munge_augment.
  rewrite bind_run, get_frame_run.
  destruct (frames s !! X) as [Xv|] eqn:HX.
  2:{ left. eexists. split; reflexivity. }
  right.
  rewrite bind_run, emit_run, bind_run, lift_run.
  destruct (vectorize Xv) as [V|e] eqn:HVec.
  2:{ left. exists Xv, e. repeat split; auto. }
  right.
  rewrite bind_run, emit_run, logged_logged, bind_run, lift_run.
  destruct (kneighbors 2 V V) as [N|e] eqn:HK.
  2:{ left. exists Xv, V, e. repeat split; auto. }
  rewrite bind_run, lift_run.
  destruct (second_column N) as [js|e] eqn:HC.
  2:{ left. exists Xv, V, e. repeat split; eauto. }
  right. exists Xv, V, N, js. repeat split; auto.
  intros Hx. destruct x as [q|]; [|reflexivity].
  simpl in Hx. rewrite Hx. reflexivity.
Qed.

(** With fewer than two rows the neighbour sampler fails before it builds
    anything: with the vectoriser's error, or with the [ValueError] of the
    2-neighbour query on too few vectors. *)
Lemma munge_too_few_rows (s : state G) (X : nat) (Xv : DataFrame)
    (ftm : gmap string (list string)) (n : argval) (x : pyfloat) (sc : Q) :
  one_vector_per_row HV -> rejects_too_few_samples HN ->
  frames s !! X = Some Xv -> (len Xv < 2)%nat ->
  (exists e,
     vectorize Xv = Raise e
     /\ munge_augment X ftm n x sc s
        = (Raise e, logged s [EvVectorize (len Xv)]))
  \/ (exists V msg,
        vectorize Xv = Ok V /\ length V = len Xv
        /\ kneighbors 2 V V = Raise (ValueError msg)
        /\ munge_augment X ftm n x sc s
           = (Raise (ValueError msg),
              logged s [EvVectorize (len Xv); EvKneighbors 2 (len Xv)])).
Proof.
  intros Hone Hfew HX Hlen.
  destruct (munge_prefix X ftm n x sc s)
    as [(e' & _ & Hnone)
       |[(Xv' & e' & HX' & HVec' & Hrun)
        |[(Xv' & V' & e' & HX' & HVec' & Hfail & Hrun)
         |(Xv' & V' & N & js & HX' & HVec' & HK' & _)]]].
  - congruence.
  - assert (Xv' = Xv) by congruence. subst Xv'.
    left. exists e'. split; assumption.
  - assert (Xv' = Xv) by congruence. subst Xv'.
    pose proof (Hone Xv V' HVec') as HlenV.
    assert (HltV : (length V' < 2)%nat) by lia.
    destruct (Hfew 2%nat V' V' HltV) as [msg Hmsg].
    destruct Hfail as [HK'|(N & HK' & _)]; [|congruence].
    assert (e' = ValueError msg) by congruence. subst e'.
    right. exists V', msg. rewrite HlenV in Hrun.
    repeat (split; [assumption|]). exact Hrun.
  - assert (Xv' = Xv) by congruence. subst Xv'.
    pose proof (Hone Xv V' HVec') as HlenV.
    assert (HltV : (length V' < 2)%nat) by lia.
    destruct (Hfew 2%nat V' V' HltV) as [msg Hmsg]. congruence.
Qed.

(** C1, as the code has it. [munge_augment] has no row-count check of its
    own: it vectorises [X] and runs the 2-neighbour query first, and when
    that query fails its error is what the caller gets.  So on a single
    row, with a vectoriser that yields one vector per row and a search
    that, like scikit-learn's, refuses more neighbours than samples, the
    call fails with the search's [ValueError] (or, before that, with the
    vectoriser's own error); by then only the external calls were made: no
    batch was allocated and no random draw taken. *)
Theorem munge_search_failure_propagates (s : state G) (X : nat)
    (Xv : DataFrame) (ftm : gmap string (list string)) (n : argval)
    (x : pyfloat) (sc : Q) :
  frames s !! X = Some Xv ->
  (forall V e,
     vectorize Xv = Ok V -> kneighbors 2 V V = Raise e ->
     munge_augment X ftm n x sc s
     = (Raise e, logged s [EvVectorize (len Xv); EvKneighbors 2 (length V)]))
  /\ (one_vector_per_row HV -> rejects_too_few_samples HN ->
      len Xv = 1%nat ->
      (exists e,
         vectorize Xv = Raise e
         /\ munge_augment X ftm n x sc s
            = (Raise e, logged s [EvVectorize 1]))
      \/ (exists V msg,
            vectorize Xv = Ok V /\ length V = 1%nat
            /\ kneighbors 2 V V = Raise (ValueError msg)
            /\ munge_augment X ftm n x sc s
               = (Raise (ValueError msg),
                  logged s [EvVectorize 1; EvKneighbors 2 1]))).
Proof.
  intros HX. split.
  - intros V e HVec HK.
    destruct (munge_prefix X ftm n x sc s)
      as [(e' & _ & Hnone)
         |[(Xv' & e' & HX' & HVec' & _)
          |[(Xv' & V' & e' & HX' & HVec' & Hfail & Hrun)
           |(Xv' & V' & N & js & HX' & HVec' & HK' & _)]]].
    + congruence.
    + congruence.
    + assert (Xv' = Xv) by congruence. subst Xv'.
      assert (V' = V) by congruence. subst V'.
      destruct Hfail as [HK'|(N & HK' & _)]; [|congruence].
      assert (e' = e) by congruence. subst e'. exact Hrun.
    + assert (Xv' = Xv) by congruence. subst Xv'.
      assert (V' = V) by congruence. subst V'. congruence.
  - intros Hone Hfew Hlen.
    assert (Hlt : (len Xv < 2)%nat) by lia.
    destruct (munge_too_few_rows s X Xv ftm n x sc Hone Hfew HX Hlt)
      as [(e & HVec & Hrun)|(V & msg & HVec & HlenV & HK & Hrun)].
    + left. exists e. rewrite Hlen in Hrun. split; assumption.
    + right. exists V, msg. rewrite Hlen in Hrun, HlenV.
      repeat (split; [assumption|]). exact Hrun.
Qed.

(** C6, as the code has it. A bound above 1 is always refused and no batch
    is ever produced.  The fast sampler refuses first thing, leaving the
    state as it was.  The neighbour sampler refuses only after the
    vectoriser and the neighbour query have run (whose own failure, if any,
    is reported instead), still before any batch is allocated or any
    random draw is taken. *)
Theorem perturbation_bound_checked (s : state G) (X : nat)
    (ftm : gmap string (list string)) (n : argval) (x : pyfloat)
    (noise sc : Q) :
  exceeds_one x = true ->
  spunge_augment X ftm n x noise s
  = (Raise (ValueError "frac_perturb must be <= 1"), s)
  /\ (exists e s',
        munge_augment X ftm n x sc s = (Raise e, s')
        /\ frames s' = frames s /\ dicts s' = dicts s /\ rng s' = rng s)
  /\ (forall Xv V N js,
        frames s !! X = Some Xv -> vectorize Xv = Ok V ->
        kneighbors 2 V V = Ok N -> second_column N = Ok js ->
        munge_augment X ftm n x sc s
        = (Raise (ValueError "frac_perturb must be <= 1"),
           logged s [EvVectorize (len Xv); EvKneighbors 2 (length V)])).
Proof.
  intros Hx. split; [apply spunge_rejects; exact Hx|].
  destruct (munge_prefix X ftm n x sc s)
    as [(e' & Hrun & Hnone)
       |[(Xv' & e' & HX' & HVec' & Hrun)
        |[(Xv' & V' & e' & HX' & HVec' & Hfail & Hrun)
         |(Xv' & V' & N' & js' & HX' & HVec' & HK' & HC' & Hrun)]]].
  - split.
    + exists e', s. repeat split; auto.
    + intros Xv V N js HX. congruence.
  - split.
    + eexists _, _. split; [exact Hrun|]. repeat split.
    + intros Xv V N js HX HVec. congruence.
  - split.
    + eexists _, _. split; [exact Hrun|]. repeat split.
    + intros Xv V N js HX HVec HK HC.
      assert (Xv' = Xv) by congruence. subst Xv'.
      assert (V' = V) by congruence. subst V'.
      destruct Hfail as [HK'|(N'' & HK' & HC')]; [congruence|].
      assert (N'' = N) by congruence. subst N''. congruence.
  - specialize (Hrun Hx). split.
    + eexists _, _. split; [exact Hrun|]. repeat split.
    + intros Xv V N js HX HVec HK HC.
      assert (Xv' = Xv) by congruence. subst Xv'.
      assert (V' = V) by congruence. subst V'. exact Hrun.
Qed.

(** C2, at the code. With [num_augmented_samples = 0] neither sampler
    returns a batch: the list handed to [pd.concat] is empty and the call
    raises, whatever the dataset and the other arguments are. *)
Theorem zero_samples_raise (s : state G) (X : nat)
    (ftm : gmap string (list string)) (x : pyfloat) (noise sc : Q) :
  is_ok (fst (spunge_augment X ftm (AInt 0) x noise s)) = false
  /\ is_ok (fst (munge_augment X ftm (AInt 0) x sc s)) = false.
Proof.
  split.
  - unfold spunge_augment. destruct x as [q|]; [|reflexivity].
    destruct (Qgtb q 1); [reflexivity|].
    rewrite bind_run, log_run, bind_run, get_frame_logged.
    destruct (frames s !! X) as [Xv|]; [|reflexivity].
    rewrite bind_run.
    destruct (new_batch_zero X (logged s [EvLog 20])) as [e He].
    rewrite He. reflexivity.
  - destruct (munge_prefix X ftm (AInt 0) x sc s)
      as [(e' & Hrun & _)
         |[(Xv' & e' & _ & _ & Hrun)
          |[(Xv' & V' & e' & _ & _ & _ & Hrun)
           |(Xv' & V' & N' & js' & HX' & HVec' & HK' & HC' & Hrun)]]];
      try (rewrite Hrun; reflexivity).
    destruct (exceeds_one x) eqn:Hx; [rewrite (Hrun eq_refl); reflexivity|].
    clear Hrun. unfold munge_augment.
    rewrite bind_run, get_frame_run, HX'.
    rewrite bind_run, emit_run, bind_run, lift_run, HVec'.
    rewrite bind_run, emit_run, logged_logged, bind_run, lift_run, HK'.
    rewrite bind_run, lift_run, HC'.
    destruct x as [q|]; [|discriminate]. simpl in Hx. rewrite Hx.
    rewrite bind_run, log_run, logged_logged.
    rewrite bind_run. unfold alloc_frame at 1. cbv beta iota.
    rewrite bind_run.
    match goal with
    | |- context [new_batch ?r (AInt 0) ?st] =>
        destruct (new_batch_zero r st) as [e He]; rewrite He
    end.
    reflexivity.
Qed.

(** The fast sampler at a non-empty [X], a legal [frac_perturb] and a
    count of zero: the error is [pd.concat]'s, raised after the log record
    and nothing else. *)
Lemma spunge_zero_samples (s : state G) (X : nat) (Xv : DataFrame)
    (ftm : gmap string (list string)) (q noise : Q) :
  frames s !! X = Some Xv -> df_rows Xv <> [] -> q <= 1 ->
  spunge_augment X ftm (AInt 0) (Fin q) noise s
  = (Raise (ValueError "No objects to concatenate"), logged s [EvLog 20]).
Proof.
  intros HX Hne Hq. unfold spunge_augment.
  apply Qgtb_false in Hq. rewrite Hq.
  rewrite bind_run, log_run, bind_run, get_frame_logged, HX.
  rewrite bind_run.
  rewrite (new_batch_zero_nonempty X Xv (logged s [EvLog 20]) HX Hne).
  reflexivity.
Qed.

End Prefix.

(* --------------------------------------------------------------------- *)
(** *** Frames that a computation leaves alone                             *)
(* --------------------------------------------------------------------- *)

Section Frame.

Context {G : Type}.
Context `{HR : RandomState G} `{HV : Vectorizer} `{HN : NeighborSearch}
        `{HS : Numeric}.

Variable y : nat.
Variable Y : DataFrame.

Lemma keeps_weaken {A} (c : M G A) (Q Q' : A -> Prop) :
  keeps (G:=G) y Y c Q -> (forall a, Q a -> Q' a) -> keeps (G:=G) y Y c Q'.
Proof.
  intros Hc HQ s Hs. destruct (Hc s Hs) as [Hf Ha]. split; [exact Hf|].
  intros a Hr. apply HQ, Ha, Hr.
Qed.

Lemma keeps_ret {A} (a : A) (Q : A -> Prop) : Q a -> keeps (G:=G) y Y (ret a) Q.
Proof.
  intros Ha s Hs. split; [exact Hs|]. simpl. intros a' [= <-]. exact Ha.
Qed.

Lemma keeps_raise {A} (e : exn) (Q : A -> Prop) : keeps (G:=G) y Y (raise e) Q.
Proof. intros s Hs. split; [exact Hs|]. simpl. discriminate. Qed.

Lemma keeps_lift {A} (r : result A) : keeps (G:=G) y Y (lift r) any.
Proof.
  destruct r; [apply keeps_ret; exact I|apply keeps_raise].
Qed.

Lemma keeps_bind {A B} (c : M G A) (k : A -> M G B)
    (Q : A -> Prop) (Q' : B -> Prop) :
  keeps (G:=G) y Y c Q -> (forall a, Q a -> keeps (G:=G) y Y (k a) Q') ->
  keeps (G:=G) y Y (bind c k) Q'.
Proof.
  intros Hc Hk s Hs. destruct (Hc s Hs) as [Hf Ha].
  unfold bind. destruct (c s) as [[a|e] s'] eqn:E; simpl in *.
  - exact (Hk a (Ha a eq_refl) s' Hf).
  - split; [exact Hf|discriminate].
Qed.

Lemma keeps_emit (e : event) : keeps (G:=G) y Y (emit e) any.
Proof. intros s Hs. split; [exact Hs|]. intros; exact I. Qed.

Lemma keeps_get_frame (r : nat) : keeps (G:=G) y Y (get_frame r) any.
Proof.
  intros s Hs. unfold get_frame.
  destruct (frames s !! r); simpl; (split; [exact Hs|intros; exact I]).
Qed.

Lemma keeps_alloc (X : DataFrame) :
  keeps (G:=G) y Y (alloc_frame X) (fun r => r <> y).
Proof.
  intros s Hs. unfold alloc_frame. simpl.
  assert (Hne : fresh (dom (frames s)) <> y).
  { intros Heq. apply (is_fresh (dom (frames s))).
    rewrite Heq. apply elem_of_dom. rewrite Hs. eauto. }
  split.
  - rewrite lookup_insert_ne by exact Hne. exact Hs.
  - intros a [= <-]. exact Hne.
Qed.

Lemma keeps_put (r : nat) (X : DataFrame) :
  r <> y -> keeps (G:=G) y Y (put_frame r X) any.
Proof.
  intros Hne s Hs. unfold put_frame. simpl. split.
  - rewrite lookup_insert_ne by exact Hne. exact Hs.
  - intros; exact I.
Qed.

Lemma keeps_update (r : nat) (f : DataFrame -> result DataFrame) :
  r <> y -> keeps (G:=G) y Y (update_frame r f) any.
Proof.
  intros Hne. unfold update_frame.
  eapply keeps_bind; [apply keeps_get_frame|]. intros X _.
  eapply keeps_bind; [apply keeps_lift|]. intros X' _.
  apply keeps_put. exact Hne.
Qed.

Lemma keeps_set_rng {A} (f : state G -> A * G) :
  keeps (G:=G) y Y (fun s => let (a, g) := f s in (Ok a, set_rng g s)) any.
Proof.
  intros s Hs. destruct (f s) as [a g]. simpl. split; [exact Hs|].
  intros; exact I.
Qed.

Lemma keeps_draw_below (n : nat) : keeps (G:=G) y Y (draw_below n) any.
Proof.
  intros s Hs. unfold draw_below. destruct (rand_below (rng s) n). simpl.
  split; [exact Hs|intros; exact I].
Qed.

Lemma keeps_draw_normal (scale : Q) : keeps (G:=G) y Y (draw_normal scale) any.
Proof.
  intros s Hs. unfold draw_normal. destruct (rand_normal (rng s) scale).
  simpl. split; [exact Hs|intros; exact I].
Qed.

Lemma keeps_draw_binomial (n : nat) (p : Q) :
  keeps (G:=G) y Y (draw_binomial n p) any.
Proof.
  intros s Hs. unfold draw_binomial. destruct (rand_binomial (rng s) n p).
  simpl. split; [exact Hs|intros; exact I].
Qed.

Lemma keeps_fold_m {A B} (body : B -> A -> M G B) (xs : list A) (acc : B) :
  (forall b a, keeps (G:=G) y Y (body b a) any) -> keeps (G:=G) y Y (fold_m body xs acc) any.
Proof.
  intros Hbody. revert acc. induction xs as [|x xs IH]; intros acc; simpl.
  - apply keeps_ret. exact I.
  - eapply keeps_bind; [apply Hbody|]. intros b _. apply IH.
Qed.

Lemma keeps_for_each {A} (xs : list A) (body : A -> M G unit) :
  (forall a, keeps (G:=G) y Y (body a) any) -> keeps (G:=G) y Y (for_each xs body) any.
Proof. intros Hbody. apply keeps_fold_m. intros _ a. apply Hbody. Qed.

Lemma keeps_check_scale (scale : Q) : keeps (G:=G) y Y (check_scale scale) any.
Proof.
  unfold check_scale. destruct (Qgtb 0 scale);
    [apply keeps_raise|apply keeps_ret; exact I].
Qed.

Lemma keeps_check_prob (p : Q) : keeps (G:=G) y Y (check_prob p) any.
Proof.
  unfold check_prob. destruct (Qgtb 0 p); [apply keeps_raise|].
  destruct (Qgtb p 1); [apply keeps_raise|apply keeps_ret; exact I].
Qed.

Ltac keeps_step :=
  first
    [ apply keeps_raise
    | apply keeps_ret; exact I
    | apply keeps_lift
    | apply keeps_emit
    | apply keeps_get_frame
    | apply keeps_draw_below
    | apply keeps_draw_normal
    | apply keeps_draw_binomial
    | apply keeps_check_scale
    | apply keeps_check_prob
    | apply keeps_update; assumption
    | apply keeps_put; assumption ].

Ltac keeps_seq :=
  repeat first
    [ keeps_step
    | eapply keeps_bind; [solve [keeps_step]|]; intros ? _ ].

Lemma keeps_normal_vector (scale : Q) (size : nat) :
  keeps (G:=G) y Y (normal_vector scale size) any.
Proof.
  unfold normal_vector. keeps_seq.
  apply keeps_fold_m. intros acc j. keeps_seq.
Qed.

Lemma keeps_binomial_vector (n : nat) (p : Q) (size : nat) :
  keeps (G:=G) y Y (binomial_vector n p size) any.
Proof.
  unfold binomial_vector. keeps_seq.
  apply keeps_fold_m. intros acc j. keeps_seq.
Qed.

Lemma keeps_choose_distinct (size : nat) (pool : list string) :
  keeps (G:=G) y Y (choose_distinct size pool) any.
Proof.
  revert pool. induction size as [|size IH]; intros pool; simpl.
  - keeps_seq.
  - eapply keeps_bind; [apply keeps_draw_below|]. intros p _.
    destruct (pool !! p); [|keeps_seq].
    eapply keeps_bind; [apply IH|]. intros rest _. keeps_seq.
Qed.

Lemma keeps_choice_columns (cols : list string) (size : nat) :
  keeps (G:=G) y Y (choice_columns cols size) any.
Proof.
  unfold choice_columns. destruct (_ && _)%bool; [keeps_seq|].
  destruct (_ <? _)%nat; [keeps_seq|]. apply keeps_choose_distinct.
Qed.

Lemma keeps_sample_one (feature_data : list cell) :
  keeps (G:=G) y Y (sample_one feature_data) any.
Proof. unfold sample_one. destruct feature_data; keeps_seq. Qed.

Lemma keeps_new_batch (X : nat) (n : argval) :
  keeps (G:=G) y Y (new_batch X n) (fun r => r <> y).
Proof.
  unfold new_batch.
  eapply keeps_bind; [apply keeps_get_frame|]. intros Xv _.
  eapply keeps_bind; [apply keeps_lift|]. intros first _.
  destruct n as [k|x]; [|apply keeps_raise].
  eapply keeps_bind; [apply keeps_lift|]. intros cat _.
  eapply keeps_bind; [apply keeps_alloc|]. intros X_aug Hne.
  eapply keeps_bind; [apply keeps_put; exact Hne|]. intros _ _.
  apply keeps_ret. exact Hne.
Qed.

Lemma keeps_spunge_row (X X_aug : nat) (bound : Z) (i : nat) :
  X_aug <> y -> keeps (G:=G) y Y (spunge_row X X_aug bound i) any.
Proof.
  intros Hne. unfold spunge_row. keeps_seq.
  eapply keeps_bind; [apply keeps_choice_columns|]. intros cols _.
  eapply keeps_bind.
  - apply keeps_fold_m. intros row feature. keeps_seq.
    eapply keeps_bind; [apply keeps_sample_one|]. intros v _. keeps_seq.
  - intros row _. keeps_seq.
Qed.

Lemma keeps_spunge_noise (X X_aug : nat) (cont : list string) (size : nat)
    (fp noise : Q) (feature : string) :
  X_aug <> y -> keeps (G:=G) y Y (spunge_noise X X_aug cont size fp noise feature) any.
Proof.
  intros Hne. unfold spunge_noise. destruct (mem_string feature cont);
    [|keeps_seq].
  keeps_seq.
  eapply keeps_bind; [apply keeps_normal_vector|]. intros nv _.
  eapply keeps_bind; [apply keeps_binomial_vector|]. intros mk _.
  keeps_seq.
Qed.

Lemma keeps_spunge (X : nat) (ftm : gmap string (list string)) (n : argval)
    (x : pyfloat) (noise : Q) :
  keeps (G:=G) y Y (spunge_augment X ftm n x noise) any.
Proof.
  unfold spunge_augment. destruct x as [q|]; [|keeps_seq].
  destruct (Qgtb q 1); [keeps_seq|].
  unfold log. keeps_seq.
  eapply keeps_bind; [apply keeps_new_batch|]. intros X_aug Hne.
  eapply keeps_bind.
  { apply keeps_for_each. intros i. apply keeps_spunge_row. exact Hne. }
  intros _ _.
  eapply keeps_bind.
  { apply keeps_for_each. intros f. apply keeps_spunge_noise. exact Hne. }
  intros _ _. keeps_seq.
Qed.

Lemma keeps_cast_continuous (X_aug X : nat) (col : string) :
  X_aug <> y -> X <> y -> keeps (G:=G) y Y (cast_continuous X_aug X col) any.
Proof. intros H1 H2. unfold cast_continuous. keeps_seq. Qed.

Lemma keeps_munge_noise (base new_val : cell) (s : Q) :
  keeps (G:=G) y Y (munge_noise base new_val s) any.
Proof.
  unfold munge_noise.
  eapply keeps_bind; [apply keeps_lift|]. intros b _.
  eapply keeps_bind; [apply keeps_lift|]. intros v _.
  destruct b, v; keeps_seq.
Qed.

Lemma keeps_munge_row (X X_aug : nat) (neigh_ind : list nat)
    (cont : list string) (p s : Q) (i : nat) :
  X_aug <> y -> keeps (G:=G) y Y (munge_row X X_aug neigh_ind cont p s i) any.
Proof.
  intros Hne. unfold munge_row. keeps_seq.
  eapply keeps_bind; [apply keeps_choice_columns|]. intros cols _.
  eapply keeps_bind.
  - apply keeps_fold_m. intros row col.
    eapply keeps_bind; [apply keeps_lift|]. intros new_val _.
    eapply keeps_bind.
    + destruct (mem_string col cont); [|keeps_seq].
      eapply keeps_bind; [apply keeps_lift|]. intros base _.
      apply keeps_munge_noise.
    + intros v _. keeps_seq.
  - intros row _. keeps_seq.
Qed.

Lemma keeps_munge (X : nat) (ftm : gmap string (list string)) (n : argval)
    (x : pyfloat) (sc : Q) :
  keeps (G:=G) y Y (munge_augment X ftm n x sc) any.
Proof.
  unfold munge_augment. keeps_seq.
  destruct x as [q|]; [|keeps_seq].
  destruct (Qgtb q 1); [keeps_seq|].
  unfold log. keeps_seq.
  eapply keeps_bind; [apply keeps_alloc|]. intros X' Hne'.
  eapply keeps_bind; [apply keeps_new_batch|]. intros X_aug Hne.
  eapply keeps_bind.
  { apply keeps_for_each. intros col. apply keeps_cast_continuous; assumption. }
  intros _ _.
  eapply keeps_bind.
  { apply keeps_for_each. intros i. apply keeps_munge_row. exact Hne. }
  intros _ _. keeps_seq.
Qed.

Lemma keeps_postprocess (X_aug X : nat) :
  keeps (G:=G) y Y (postprocess_augmented X_aug X) (fun r => r <> y).
Proof.
  unfold postprocess_augmented, log. keeps_seq. apply keeps_alloc.
Qed.

End Frame.

(** C10. Neither sampler changes a frame object that exists when it is
    called, the caller's [X] among them: the fast sampler writes only to
    the batch it allocates, and the neighbour sampler casts the columns of
    its own copy of [X], not of the caller's object.  Values and dtypes of
    [X] are the same after the call, whether it returns or raises. *)
Theorem samplers_leave_frames_alone {G : Type} `{HR : RandomState G}
    `{HV : Vectorizer} `{HN : NeighborSearch} `{HS : Numeric}
    (s : state G) (X : nat) (Xv : DataFrame)
    (ftm : gmap string (list string)) (n : argval) (x : pyfloat)
    (noise sc : Q) :
  frames s !! X = Some Xv ->
  frames (snd (spunge_augment X ftm n x noise s)) !! X = Some Xv
  /\ frames (snd (munge_augment X ftm n x sc s)) !! X = Some Xv.
Proof.
  intros HX. split.
  - exact (proj1 (keeps_spunge X Xv X ftm n x noise s HX)).
  - exact (proj1 (keeps_munge X Xv X ftm n x sc s HX)).
Qed.

(* --------------------------------------------------------------------- *)
(** *** The post-processor                                                 *)
(* --------------------------------------------------------------------- *)

Lemma range_index_length (start : Z) (n : nat) :
  length (range_index start n) = n.
Proof.
  revert start. induction n as [|n IH]; intros start; simpl;
    [reflexivity|]. rewrite IH. reflexivity.
Qed.

Lemma reset_index_len (X : DataFrame) : len (reset_index X) = len X.
Proof.
  unfold reset_index, len. simpl.
  rewrite length_combine, range_index_length, length_map. apply Nat.min_id.
Qed.

Lemma reset_index_index (X : DataFrame) :
  index (reset_index X) = range_index 0 (len X).
Proof.
  unfold reset_index, index, len. simpl.
  generalize 0%Z. induction (df_rows X) as [|r rows IH]; intros z; simpl;
    [reflexivity|]. rewrite IH. reflexivity.
Qed.

Lemma concat_two (X Xa : DataFrame) :
  exists schema,
    schema = map (fun c => (c, concat_dtype [X; Xa] c)) (concat_columns [X; Xa])
    /\ pd_concat [X; Xa]
       = Ok {| df_columns := schema;
               df_rows := map (reindex_row X schema) (df_rows X)
                          ++ map (reindex_row Xa schema) (df_rows Xa) |}.
Proof.
  eexists. split; [reflexivity|]. unfold pd_concat. simpl.
  rewrite app_nil_r. reflexivity.
Qed.

(** Stripping the original rows back off leaves the rows of the batch. *)
Lemma tail_of_concat (schema : list (string * dtype))
    (orig batch : list (Z * list cell)) :
  df_rows (df_tail (Z.of_nat (length (orig ++ batch)) - Z.of_nat (length orig))
             {| df_columns := schema; df_rows := orig ++ batch |})
  = batch.
Proof.
  unfold df_tail, len. simpl. rewrite length_app.
  replace (Z.of_nat (length orig + length batch) - Z.of_nat (length orig))%Z
    with (Z.of_nat (length batch)) by lia.
  destruct batch as [|b batch'].
  - reflexivity.
  - simpl length.
    replace (Z.of_nat (S (length batch')) =? 0)%Z with false
      by (symmetry; apply Z.eqb_neq; lia).
    replace (0 <? Z.of_nat (S (length batch')))%Z with true
      by (symmetry; apply Z.ltb_lt; lia).
    rewrite Nat2Z.id.
    replace (length orig + S (length batch') - S (length batch'))%nat
      with (length orig + 0)%nat by lia.
    rewrite skipn_app, Nat.add_0_r, skipn_all.
    replace (length orig - length orig)%nat with 0%nat by lia.
    reflexivity.
Qed.

Lemma existsb_eqb_In (c : string) (seen : list string) :
  existsb (String.eqb c) seen = true <-> In c seen.
Proof.
  rewrite existsb_exists. split.
  - intros (x & Hin & Heq). apply String.eqb_eq in Heq. subst. exact Hin.
  - intros Hin. exists c. split; [exact Hin|apply String.eqb_refl].
Qed.

Lemma union_columns_fresh (seen names : list string) :
  List.NoDup names -> (forall c, In c names -> ~ In c seen) ->
  union_columns seen names = seen ++ names.
Proof.
  revert seen. induction names as [|c names IH]; intros seen Hnd Hfresh; simpl.
  - rewrite app_nil_r. reflexivity.
  - apply List.NoDup_cons_iff in Hnd. destruct Hnd as [Hc Hnd].
    destruct (existsb (String.eqb c) seen) eqn:E.
    + apply existsb_eqb_In in E. exfalso. exact (Hfresh c (or_introl eq_refl) E).
    + rewrite IH.
      * rewrite <- app_assoc. reflexivity.
      * exact Hnd.
      * intros c' Hin Hseen. apply in_app_or in Hseen.
        destruct Hseen as [Hseen|[->|[]]].
        -- exact (Hfresh c' (or_intror Hin) Hseen).
        -- exact (Hc Hin).
Qed.

Lemma union_columns_known (seen names : list string) :
  (forall c, In c names -> In c seen) -> union_columns seen names = seen.
Proof.
  induction names as [|c names IH]; intros Hknown; simpl; [reflexivity|].
  replace (existsb (String.eqb c) seen) with true.
  - apply IH. intros c' Hin. apply Hknown. right. exact Hin.
  - symmetry. apply existsb_eqb_In, Hknown. left. reflexivity.
Qed.

Lemma concat_columns_same (X Xa : DataFrame) :
  List.NoDup (columns X) -> columns Xa = columns X ->
  concat_columns [X; Xa] = columns X.
Proof.
  intros Hnd Hsame. unfold concat_columns. simpl. rewrite Hsame.
  rewrite (union_columns_fresh [] (columns X) Hnd) by (intros c _ []).
  simpl. apply union_columns_known. auto.
Qed.

Lemma lookup_dtype_NoDup (l : list (string * dtype)) (c : string) (d : dtype) :
  List.NoDup (map fst l) -> In (c, d) l ->
  match col_pos (map fst l) c with
  | Some p => nth_error (map snd l) p
  | None => None
  end = Some d.
Proof.
  induction l as [|[c0 d0] l IH]; intros Hnd Hin; [destruct Hin|].
  simpl in Hnd. apply List.NoDup_cons_iff in Hnd. destruct Hnd as [Hc0 Hnd].
  simpl. destruct (String.eqb c0 c) eqn:E.
  - apply String.eqb_eq in E. subst c0. simpl.
    destruct Hin as [[= ->]|Hin]; [reflexivity|].
    exfalso. apply Hc0. apply (in_map fst) in Hin. exact Hin.
  - destruct Hin as [[= -> ->]|Hin].
    + rewrite String.eqb_refl in E. discriminate.
    + specialize (IH Hnd Hin).
      destruct (col_pos (map fst l) c) as [p|]; [|discriminate].
      simpl. exact IH.
Qed.

Lemma common_dtype_diag (d : dtype) : common_dtype d d = d.
Proof. destruct d; reflexivity. Qed.

Lemma concat_dtype_same (X Xa : DataFrame) (c : string) (d : dtype) :
  List.NoDup (columns X) -> df_columns Xa = df_columns X -> In (c, d) (df_columns X) ->
  concat_dtype [X; Xa] c = d.
Proof.
  intros Hnd Hsame Hin. unfold concat_dtype. simpl.
  assert (HX : col_dtype X c = Some d).
  { unfold col_dtype, columns, dtypes. apply lookup_dtype_NoDup; assumption. }
  assert (HXa : col_dtype Xa c = Some d).
  { unfold col_dtype, columns, dtypes. rewrite Hsame.
    apply lookup_dtype_NoDup; assumption. }
  rewrite HX. simpl. rewrite HXa. simpl. apply common_dtype_diag.
Qed.

Lemma concat_schema_same (X Xa : DataFrame) :
  List.NoDup (columns X) -> df_columns Xa = df_columns X ->
  map (fun c => (c, concat_dtype [X; Xa] c)) (concat_columns [X; Xa])
  = df_columns X.
Proof.
  intros Hnd Hsame.
  rewrite concat_columns_same; [|exact Hnd|unfold columns; rewrite Hsame; reflexivity].
  unfold columns. rewrite map_map.
  rewrite <- (map_id (df_columns X)) at 2.
  apply map_ext_in. intros [c d] Hin. simpl. f_equal.
  apply concat_dtype_same; assumption.
Qed.

Section PostProcessor.

Context {G : Type}.

Lemma concat_dtype_common (X Xa : DataFrame) (c : string) (d da : dtype) :
  List.NoDup (columns X) -> columns Xa = columns X ->
  In (c, d) (df_columns X) -> In (c, da) (df_columns Xa) ->
  concat_dtype [X; Xa] c = common_dtype d da.
Proof.
  intros Hnd Hsame Hin Hina. unfold concat_dtype. simpl.
  assert (HX : col_dtype X c = Some d).
  { unfold col_dtype, columns, dtypes. apply lookup_dtype_NoDup; assumption. }
  assert (HXa : col_dtype Xa c = Some da).
  { unfold col_dtype, columns, dtypes. apply lookup_dtype_NoDup; [|assumption].
    fold (columns Xa). rewrite Hsame. exact Hnd. }
  rewrite HX. simpl. rewrite HXa. reflexivity.
Qed.

(** C7, as the code has it. On two frames of the store the post-processor
    returns a new frame object and touches no other: [X] and [X_aug] hold
    what they held.  The new frame has exactly [len(X_aug)] rows on the
    index 0, 1, ....  When the batch has the column labels of [X] (labels
    unique), the result has the columns of [X] in the order of [X], each
    with the common dtype of that column in [X] and in the batch; so the
    dtypes are those of [X] when the batch has them, and not otherwise. *)
Theorem postprocess_augmented_result (s : state G) (X_aug X : nat)
    (Xa Xv : DataFrame) :
  frames s !! X = Some Xv ->
  frames s !! X_aug = Some Xa ->
  exists (r : nat) (Yv : DataFrame),
    postprocess_augmented X_aug X s
    = (Ok r, mkState (<[r := Yv]> (frames s)) (dicts s) (rng s)
                     (trace s ++ [EvLog 15]))
    /\ frames s !! r = None
    /\ len Yv = len Xa
    /\ index Yv = range_index 0 (len Xa)
    /\ (List.NoDup (columns Xv) -> columns Xa = columns Xv ->
        columns Yv = columns Xv
        /\ (forall c d da,
              In (c, d) (df_columns Xv) -> In (c, da) (df_columns Xa) ->
              In (c, common_dtype d da) (df_columns Yv))
        /\ (df_columns Xa = df_columns Xv -> df_columns Yv = df_columns Xv)).
Proof.
  intros HX HXa.
  destruct (concat_two Xv Xa) as (schema & Hschema & Hcat).
  unfold postprocess_augmented, bind, get_frame, lift, log, emit, alloc_frame.
  rewrite HX, HXa, Hcat. cbn [ret frames dicts rng trace].
  set (cat := {| df_columns := schema;
                 df_rows := map (reindex_row Xv schema) (df_rows Xv)
                            ++ map (reindex_row Xa schema) (df_rows Xa) |}).
  set (tail := df_tail (Z.of_nat (len cat) - Z.of_nat (len Xv)) cat).
  assert (Htail : df_rows tail = map (reindex_row Xa schema) (df_rows Xa)).
  { unfold tail, cat, len. simpl df_rows at 2.
    rewrite <- (length_map (reindex_row Xv schema) (df_rows Xv)).
    apply tail_of_concat. }
  assert (Hlen : len tail = len Xa).
  { unfold len. rewrite Htail. apply length_map. }
  exists (fresh (dom (frames s))), (reset_index tail).
  split; [reflexivity|]. split.
  { apply not_elem_of_dom. apply is_fresh. }
  split; [rewrite reset_index_len; exact Hlen|].
  split; [rewrite reset_index_index, Hlen; reflexivity|].
  intros Hnd Hsame.
  assert (Hnames : concat_columns [Xv; Xa] = columns Xv)
    by (apply concat_columns_same; assumption).
  split; [|split].
  - unfold columns at 1. simpl. rewrite Hschema, Hnames.
    unfold columns. rewrite map_map. simpl. apply List.map_id.
  - intros c d da Hin Hina. simpl. rewrite Hschema, Hnames.
    rewrite <- (concat_dtype_common Xv Xa c d da Hnd Hsame Hin Hina).
    apply (in_map (fun c0 => (c0, concat_dtype [Xv; Xa] c0))).
    apply (in_map fst) in Hin. exact Hin.
  - intros Hcols. simpl. rewrite Hschema.
    apply concat_schema_same; assumption.
Qed.

End PostProcessor.

(* --------------------------------------------------------------------- *)
(** *** The dispatcher                                                     *)
(* --------------------------------------------------------------------- *)

Section Dispatcher.

Context {G : Type}.
Context `{HR : RandomState G} `{HV : Vectorizer} `{HN : NeighborSearch}
        `{HS : Numeric}.

Lemma dict_only_ret {A} (a : A) : dict_only (G:=G) (ret a).
Proof. intros s. repeat split. Qed.

Lemma dict_only_raise {A} (e : exn) : dict_only (G:=G) (A:=A) (raise e).
Proof. intros s. repeat split. Qed.

Lemma dict_only_lift {A} (r : result A) : dict_only (G:=G) (lift r).
Proof. destruct r; [apply dict_only_ret|apply dict_only_raise]. Qed.

Lemma dict_only_bind {A B} (c : M G A) (k : A -> M G B) :
  dict_only c -> (forall a, dict_only (k a)) -> dict_only (bind c k).
Proof.
  intros Hc Hk s. destruct (Hc s) as (Hf & Hr & Ht).
  unfold bind. destruct (c s) as [[a|e] s'] eqn:E; simpl in *.
  - destruct (Hk a s') as (Hf' & Hr' & Ht'). repeat split; congruence.
  - repeat split; assumption.
Qed.

Lemma dict_only_get_dict (r : nat) : dict_only (G:=G) (get_dict r).
Proof. intros s. unfold get_dict. destruct (dicts s !! r); repeat split. Qed.

Lemma dict_only_get_frame (r : nat) : dict_only (G:=G) (get_frame r).
Proof. intros s. unfold get_frame. destruct (frames s !! r); repeat split. Qed.

Lemma dict_only_dict_set (r : nat) (key : string) (v : argval) :
  dict_only (G:=G) (dict_set r key v).
Proof. intros s. unfold dict_set. destruct (dicts s !! r); repeat split. Qed.

Lemma dict_only_derive (X_train augment_args : nat) :
  dict_only (G:=G) (derive_num_augmented_samples X_train augment_args).
Proof.
  unfold derive_num_augmented_samples.
  apply dict_only_bind; [apply dict_only_get_dict|]. intros args.
  destruct (has_key args "num_augmented_samples"); [apply dict_only_ret|].
  apply dict_only_bind.
  { destruct (has_key args "max_size");
      [apply dict_only_ret|apply dict_only_dict_set]. }
  intros _.
  apply dict_only_bind; [apply dict_only_get_dict|]. intros args'.
  apply dict_only_bind; [apply dict_only_lift|]. intros max_size.
  apply dict_only_bind; [apply dict_only_lift|]. intros size_factor.
  apply dict_only_bind; [apply dict_only_get_frame|]. intros Xv.
  apply dict_only_bind; [apply dict_only_lift|]. intros n.
  apply dict_only_dict_set.
Qed.

(** A count that the dictionary already holds is not derived again. *)
Lemma derive_present (X_train augment_args : nat) (s : state G)
    (d : gmap string argval) (v : argval) :
  dicts s !! augment_args = Some d ->
  d !! "num_augmented_samples" = Some v ->
  derive_num_augmented_samples X_train augment_args s = (Ok tt, s).
Proof.
  intros Hd Hv. unfold derive_num_augmented_samples, bind, get_dict.
  rewrite Hd. unfold has_key. rewrite Hv. reflexivity.
Qed.

Lemma unknown_method_branches (m : string) :
  m <> "spunge" -> m <> "munge" ->
  String.eqb m "spunge" = false /\ String.eqb m "munge" = false.
Proof. intros H1 H2. split; apply String.eqb_neq; assumption. Qed.

(** C8, as the code has it. Without [augmentation_data], a method name
    other than ['spunge'] and ['munge'] makes the dispatcher fail before any
    sampler or the post-processor runs: no frame is created or changed, no
    random draw is taken, nothing is logged.  Once the sample count is
    there, present or derived, the error is the [ValueError] naming the
    method.  With [augmentation_data] the method name is not looked at:
    the rows go straight to the post-processor. *)
Theorem unknown_method_rejected (s : state G) (X_train : nat)
    (ftm : gmap string (list string)) (m : string) (augment_args : nat) :
  m <> "spunge" -> m <> "munge" ->
  (exists e s',
     augment_data X_train ftm None m augment_args s = (Raise e, s')
     /\ frames s' = frames s /\ rng s' = rng s /\ trace s' = trace s)
  /\ (forall u s1,
        derive_num_augmented_samples X_train augment_args s = (Ok u, s1) ->
        augment_data X_train ftm None m augment_args s
        = (Raise (ValueError ("unknown augment_method: " ++ m)), s1))
  /\ (forall data,
        augment_data X_train ftm (Some data) m augment_args s
        = postprocess_augmented data X_train s).
Proof.
  intros H1 H2.
  destruct (unknown_method_branches m H1 H2) as [E1 E2].
  destruct (dict_only_derive X_train augment_args s) as (Hf & Hr & Ht).
  assert (Hrun :
    augment_data X_train ftm None m augment_args s
    = match derive_num_augmented_samples X_train augment_args s with
      | (Ok _, s1) => (Raise (ValueError ("unknown augment_method: " ++ m)), s1)
      | (Raise e, s1) => (Raise e, s1)
      end).
  { unfold augment_data. rewrite E1, E2. unfold bind.
    destruct (derive_num_augmented_samples X_train augment_args s)
      as [[u|e] s1]; reflexivity. }
  rewrite Hrun.
  destruct (derive_num_augmented_samples X_train augment_args s)
    as [[u|e] s1] eqn:E; simpl in Hf, Hr, Ht.
  - split; [|split].
    + eexists _, _. split; [reflexivity|]. repeat split; assumption.
    + intros u' s1' [= _ <-]. reflexivity.
    + intros data. reflexivity.
  - split; [|split].
    + eexists _, _. split; [reflexivity|]. repeat split; assumption.
    + intros u' s1' [=].
    + intros data. reflexivity.
Qed.

End Dispatcher.

(* --------------------------------------------------------------------- *)
(** *** The functions at work on the sample data                           *)
(* --------------------------------------------------------------------- *)

(** C1, as the specification words it, fails: on a single row the
    neighbour sampler does not stop before the neighbour search.  It
    vectorises the row and runs the 2-neighbour query, and the error the
    caller sees is the one that query raises. *)
Lemma munge_single_row_runs_search :
  fst Reference.single_row_run
  = Raise (ValueError "Expected n_neighbors <= n_samples")
  /\ trace (snd Reference.single_row_run) = [EvVectorize 1; EvKneighbors 2 1]
  /\ searched (trace (snd Reference.single_row_run)) = true.
Proof. repeat split. Qed.

Lemma plain_vectorizer_one_per_row :
  one_vector_per_row Reference.plain_vectorizer.
Proof. intros X V [= <-]. apply length_map. Qed.

Lemma brute_force_rejects_too_few :
  rejects_too_few_samples Reference.brute_force_neighbors.
Proof.
  intros k data query Hlt. simpl.
  apply Nat.ltb_lt in Hlt. rewrite Hlt. eexists. reflexivity.
Qed.

Lemma munge_search_failure_propagates_witness :
  (exists e,
     vectorize (Vectorizer := Reference.plain_vectorizer) Reference.X1
     = Raise e
     /\ Reference.single_row_run
        = (Raise e, logged (Reference.store [Reference.X1] ∅) [EvVectorize 1]))
  \/ (exists V msg,
        vectorize (Vectorizer := Reference.plain_vectorizer) Reference.X1
        = Ok V
        /\ length V = 1%nat
        /\ kneighbors (NeighborSearch := Reference.brute_force_neighbors)
             2 V V = Raise (ValueError msg)
        /\ Reference.single_row_run
           = (Raise (ValueError msg),
              logged (Reference.store [Reference.X1] ∅)
                     [EvVectorize 1; EvKneighbors 2 1])).
Proof.
  apply (munge_search_failure_propagates
           (HR := Reference.counter_random) (HV := Reference.plain_vectorizer)
           (HN := Reference.brute_force_neighbors)
           (Reference.store [Reference.X1] ∅) 0%nat Reference.X1
           Reference.metadata (AInt 3) (Fin (1 # 2)) 1).
  - reflexivity.
  - exact plain_vectorizer_one_per_row.
  - exact brute_force_rejects_too_few.
  - reflexivity.
Defined.

(** C2, at the failing input: four rows and a count of zero.  Both samplers
    raise [pd.concat]'s error; the neighbour sampler has by then run the
    neighbour search as well. *)
Lemma zero_samples_on_four_rows :
  fst Reference.spunge_zero_run = Raise (ValueError "No objects to concatenate")
  /\ fst Reference.munge_zero_run = Raise (ValueError "No objects to concatenate")
  /\ trace (snd Reference.munge_zero_run)
     = [EvVectorize 4; EvKneighbors 2 4; EvLog 20].
Proof. vm_compute. repeat split. Qed.

(** C6, as the specification words it, fails for the neighbour sampler:
    with [perturb_prob = 1.5] the refusal comes only after the vectoriser
    and the neighbour search have run, not at the start of the call. *)
Lemma munge_checks_after_search :
  fst Reference.late_check_run = Raise (ValueError "frac_perturb must be <= 1")
  /\ trace (snd Reference.late_check_run) = [EvVectorize 4; EvKneighbors 2 4]
  /\ snd Reference.late_check_run <> Reference.store [Reference.X4] ∅.
Proof.
  repeat split. intros Heq. apply (f_equal trace) in Heq. discriminate Heq.
Qed.

Lemma perturbation_bound_checked_witness :
  exceeds_one (Fin (3 # 2)) = true
  /\ Reference.spunge_augment 0%nat Reference.metadata (AInt 3) (Fin (3 # 2))
       (1 # 10) (Reference.store [Reference.X4] ∅)
     = (Raise (ValueError "frac_perturb must be <= 1"),
        Reference.store [Reference.X4] ∅)
  /\ exists e s',
       Reference.late_check_run = (Raise e, s')
       /\ frames s' = frames (Reference.store [Reference.X4] ∅)
       /\ dicts s' = dicts (Reference.store [Reference.X4] ∅)
       /\ rng s' = rng (Reference.store [Reference.X4] ∅).
Proof.
  split; [reflexivity|].
  destruct (perturbation_bound_checked
              (HR := Reference.counter_random)
              (HV := Reference.plain_vectorizer)
              (HN := Reference.brute_force_neighbors) (HS := Reference.spread)
              (Reference.store [Reference.X4] ∅) 0%nat Reference.metadata
              (AInt 3) (Fin (3 # 2)) (1 # 10) 1 eq_refl) as (H1 & H2 & _).
  split; [exact H1|exact H2].
Defined.

(** C7, as the specification words it, fails: a batch whose column holds
    floats, as the samplers produce for an integer column, comes back with
    the float dtype, not with the integer dtype of [X]. *)
Lemma postprocess_upcasts :
  Reference.frame_dtypes Reference.upcast_run = Some [Float64]
  /\ dtypes Reference.Xint = [Int64]
  /\ Reference.frame_dtypes Reference.munge_pipeline_run
     = Some [Float64; Float64; ObjectDtype]
  /\ dtypes Reference.X4 = [Int64; Float64; ObjectDtype].
Proof. vm_compute. repeat split. Qed.

Lemma postprocess_augmented_result_witness :
  exists (r : nat) (Yv : DataFrame),
    Reference.upcast_run
    = (Ok r,
       mkState
         (<[r := Yv]>
            (frames (Reference.store [Reference.Xint; Reference.Xint_aug] ∅)))
         (dicts (Reference.store [Reference.Xint; Reference.Xint_aug] ∅))
         (rng (Reference.store [Reference.Xint; Reference.Xint_aug] ∅))
         (trace (Reference.store [Reference.Xint; Reference.Xint_aug] ∅)
          ++ [EvLog 15]))
    /\ len Yv = 3%nat
    /\ index Yv = [0; 1; 2]%Z
    /\ columns Yv = ["age"]
    /\ In ("age", Float64) (df_columns Yv).
Proof.
  destruct (postprocess_augmented_result
              (Reference.store [Reference.Xint; Reference.Xint_aug] ∅)
              1%nat 0%nat Reference.Xint_aug Reference.Xint
              eq_refl eq_refl) as (r & Yv & Hrun & _ & Hlen & Hidx & Hcols).
  assert (Hnd : List.NoDup (columns Reference.Xint)).
  { apply List.NoDup_cons; [simpl; tauto|apply List.NoDup_nil]. }
  destruct (Hcols Hnd eq_refl) as (Hnames & Hdt & _).
  exists r, Yv. split; [exact Hrun|]. split; [exact Hlen|].
  split; [exact Hidx|]. split; [exact Hnames|].
  apply (Hdt "age" Int64 Float64); simpl; left; reflexivity.
Defined.

(** C8, as the specification words it, fails: with rows supplied by the
    caller an unknown method name is accepted, and the call returns those
    rows post-processed. *)
Lemma supplied_rows_skip_method_check :
  fst Reference.supplied_rows_run = Ok 2%nat
  /\ Reference.frame_rows Reference.supplied_rows_run = Some 2%nat.
Proof. vm_compute. repeat split. Qed.

Lemma unknown_method_rejected_witness :
  "bogus" <> "spunge" /\ "bogus" <> "munge"
  /\ Reference.augment_data 0%nat Reference.metadata None "bogus" 1%nat
       (Reference.store [Reference.X4]
          {[ "num_augmented_samples" := AInt 3 ]})
     = (Raise (ValueError "unknown augment_method: bogus"),
        Reference.store [Reference.X4] {[ "num_augmented_samples" := AInt 3 ]}).
Proof.
  assert (H1 : "bogus" <> "spunge") by discriminate.
  assert (H2 : "bogus" <> "munge") by discriminate.
  split; [exact H1|]. split; [exact H2|].
  destruct (unknown_method_rejected
              (HR := Reference.counter_random)
              (HV := Reference.plain_vectorizer)
              (HN := Reference.brute_force_neighbors) (HS := Reference.spread)
              (Reference.store [Reference.X4]
                 {[ "num_augmented_samples" := AInt 3 ]})
              0%nat Reference.metadata "bogus" 1%nat H1 H2) as (_ & Hrun & _).
  apply (Hrun tt). reflexivity.
Defined.

(** C9, at the failing input. A caller keeps one dictionary
    [{'size_factor': 1}] for two calls.  The first call, on four rows,
    writes [max_size] and [num_augmented_samples = 4] into it; the second
    call, on two rows, finds that count and returns four rows, where the
    same call with an untouched dictionary returns two.  And a call that
    omits [augment_args] writes [max_size] into the shared default
    dictionary before it fails for want of [size_factor]. *)
Theorem augment_args_carry_over :
  dicts (snd Reference.first_call) !! 1%nat
  = Some (<["num_augmented_samples" := AInt 4]>
            (<["max_size" := AFloat PInf]> Reference.caller_args))
  /\ Reference.frame_rows Reference.first_call = Some 4%nat
  /\ Reference.frame_rows Reference.second_call = Some 4%nat
  /\ Reference.frame_rows Reference.second_call_alone = Some 2%nat
  /\ fst Reference.default_args_call = Raise (KeyError "size_factor")
  /\ dicts (snd Reference.default_args_call) !! default_augment_args
     = Some {[ "max_size" := AFloat PInf ]}.
Proof. vm_compute. repeat split. Qed.

Lemma samplers_leave_frames_alone_witness :
  frames (Reference.store [Reference.X4] ∅) !! 0%nat = Some Reference.X4
  /\ frames (snd (Reference.spunge_augment 0%nat Reference.metadata (AInt 3)
                    (Fin (1 # 2)) (1 # 10) (Reference.store [Reference.X4] ∅)))
     !! 0%nat = Some Reference.X4
  /\ frames (snd (Reference.munge_augment 0%nat Reference.metadata (AInt 3)
                    (Fin (1 # 2)) 1 (Reference.store [Reference.X4] ∅)))
     !! 0%nat = Some Reference.X4.
Proof.
  split; [reflexivity|].
  apply (samplers_leave_frames_alone
           (HR := Reference.counter_random) (HV := Reference.plain_vectorizer)
           (HN := Reference.brute_force_neighbors) (HS := Reference.spread)
           (Reference.store [Reference.X4] ∅) 0%nat Reference.X4
           Reference.metadata (AInt 3) (Fin (1 # 2)) (1 # 10) 1).
  reflexivity.
Defined.

(* --------------------------------------------------------------------- *)
(** *** The label transformer: one-hot rows, and labels outside [0, 1]     *)
(* --------------------------------------------------------------------- *)

Lemma lookup_repeat {A} (a : A) (n i : nat) :
  (i < n)%nat -> repeat a n !! i = Some a.
Proof.
  revert i. induction n as [|n IH]; intros i Hi; [lia|].
  destruct i as [|i]; simpl; [reflexivity|]. apply IH. lia.
Qed.

Lemma set_one_in_range (k y : Z) :
  (0 <= k)%Z -> in_classes k y ->
  exists row, set_one (repeat 0 (Z.to_nat k)) y = Ok row /\ one_hot_of k y row.
Proof.
  intros Hk [Hlo Hhi]. unfold set_one. rewrite repeat_length, Z2Nat.id by lia.
  replace ((- k <=? y)%Z && (y <? k)%Z)%bool with true.
  2:{ symmetry. apply andb_true_iff. split; [apply Z.leb_le|apply Z.ltb_lt]; lia. }
  eexists. split; [reflexivity|]. split.
  - rewrite length_insert, repeat_length. reflexivity.
  - intros j Hj.
    assert (Hmod : (0 <= y mod k < k)%Z) by (apply Z.mod_pos_bound; lia).
    destruct (Z.of_nat j =? y mod k)%Z eqn:E.
    + apply Z.eqb_eq in E. rewrite <- E, Nat2Z.id.
      apply list_lookup_insert_eq. rewrite repeat_length. exact Hj.
    + apply Z.eqb_neq in E. rewrite list_lookup_insert_ne by lia.
      apply lookup_repeat. exact Hj.
Qed.

Lemma set_one_out_of_range (k y : Z) :
  (0 <= k)%Z -> ~ in_classes k y ->
  set_one (repeat 0 (Z.to_nat k)) y
  = Raise (IndexError "index is out of bounds for axis 1").
Proof.
  intros Hk Hout. unfold set_one. rewrite repeat_length, Z2Nat.id by lia.
  replace ((- k <=? y)%Z && (y <? k)%Z)%bool with false; [reflexivity|].
  symmetry. apply andb_false_iff. unfold in_classes in Hout.
  destruct (Z.leb_spec (- k) y); [right|left; reflexivity].
  apply Z.ltb_ge. lia.
Qed.

Lemma set_ones_in_range (k : Z) (ys : list Z) (n : nat) :
  (0 <= k)%Z -> Forall (in_classes k) ys -> n = length ys ->
  exists rows,
    set_ones (repeat (repeat 0 (Z.to_nat k)) n) ys = Ok rows
    /\ Forall2 (one_hot_of k) ys rows.
Proof.
  intros Hk Hall. revert n. induction Hall as [|y ys Hy Hall IH]; intros n ->.
  - exists []. split; [reflexivity|constructor].
  - simpl. destruct (set_one_in_range k y Hk Hy) as (row & -> & Hrow).
    destruct (IH (length ys) eq_refl) as (rows & -> & Hrows).
    exists (row :: rows). split; [reflexivity|]. constructor; assumption.
Qed.

Lemma set_ones_out_of_range (k : Z) (ys : list Z) (n : nat) :
  (0 <= k)%Z -> Exists (fun y => ~ in_classes k y) ys -> n = length ys ->
  set_ones (repeat (repeat 0 (Z.to_nat k)) n) ys
  = Raise (IndexError "index is out of bounds for axis 1").
Proof.
  intros Hk Hex. revert n. induction ys as [|y ys IH]; intros n ->.
  - inversion Hex.
  - simpl.
    destruct (Z_le_dec (- k) y) as [Hlo|Hlo];
      [destruct (Z_lt_dec y k) as [Hhi|Hhi]|].
    + destruct (set_one_in_range k y Hk (conj Hlo Hhi)) as (row & -> & _).
      rewrite IH; [reflexivity| |reflexivity].
      inversion Hex as [? ? Hbad|? ? Hrest]; subst; [|exact Hrest].
      exfalso. apply Hbad. split; assumption.
    + rewrite set_one_out_of_range; [reflexivity|exact Hk|].
      intros [_ H]. contradiction.
    + rewrite set_one_out_of_range; [reflexivity|exact Hk|].
      intros [H _]. contradiction.
Qed.

Lemma one_hot_in_range (k : Z) (ys : list Z) :
  (0 <= k)%Z -> Forall (in_classes k) ys ->
  exists rows,
    one_hot (IntSeries ys) (Some k) = Ok (LFrame rows)
    /\ Forall2 (one_hot_of k) ys rows.
Proof.
  intros Hk Hall. unfold one_hot, np_zeros.
  replace (k <? 0)%Z with false by (symmetry; apply Z.ltb_ge; exact Hk).
  destruct (set_ones_in_range k ys (length ys) Hk Hall eq_refl)
    as (rows & Hrun & Hrows).
  simpl series_size. rewrite Hrun. exists rows. split; [reflexivity|exact Hrows].
Qed.

Lemma one_hot_out_of_range (k : Z) (ys : list Z) :
  (0 <= k)%Z -> Exists (fun y => ~ in_classes k y) ys ->
  one_hot (IntSeries ys) (Some k)
  = Raise (IndexError "index is out of bounds for axis 1").
Proof.
  intros Hk Hex. unfold one_hot, np_zeros.
  replace (k <? 0)%Z with false by (symmetry; apply Z.ltb_ge; exact Hk).
  simpl series_size.
  rewrite (set_ones_out_of_range k ys (length ys) Hk Hex eq_refl). reflexivity.
Qed.

Lemma in_classes_dec (k y : Z) : {in_classes k y} + {~ in_classes k y}.
Proof.
  unfold in_classes.
  destruct (Z_le_dec (- k) y); [destruct (Z_lt_dec y k)|]; [left|right|right]; lia.
Qed.

(** X1. With [problem_type = MULTICLASS], [num_classes = k] and integer
    labels that all lie in [[-k, k)], both series come back as one-hot
    frames: one row per label, [k] entries per row, a 1 at position
    [y mod k] (a negative label counts from the last class) and 0
    elsewhere. *)
Theorem multiclass_one_hot (y_train y_test : list Z) (k : Z) (eps : Q) :
  (0 <= k)%Z ->
  Forall (in_classes k) y_train -> Forall (in_classes k) y_test ->
  exists tr te,
    format_distillation_labels (IntSeries y_train) (IntSeries y_test)
      MULTICLASS (Some k) eps
    = Ok (LFrame tr, LFrame te)
    /\ Forall2 (one_hot_of k) y_train tr
    /\ Forall2 (one_hot_of k) y_test te.
Proof.
  intros Hk Htr Hte.
  destruct (one_hot_in_range k y_train Hk Htr) as (tr & Hrun1 & H1).
  destruct (one_hot_in_range k y_test Hk Hte) as (te & Hrun2 & H2).
  exists tr, te. unfold format_distillation_labels.
  rewrite String.eqb_refl, Hrun1, Hrun2. repeat split; assumption.
Qed.

Lemma multiclass_one_hot_witness :
  exists tr te,
    format_distillation_labels (IntSeries [2; 0; -1]%Z) (IntSeries [1]%Z)
      MULTICLASS (Some 3%Z) eps_labelsmooth_default
    = Ok (LFrame tr, LFrame te)
    /\ Forall2 (one_hot_of 3) [2; 0; -1]%Z tr
    /\ Forall2 (one_hot_of 3) [1]%Z te.
Proof.
  apply (multiclass_one_hot [2; 0; -1]%Z [1]%Z 3 eps_labelsmooth_default).
  - lia.
  - repeat constructor; unfold in_classes; lia.
  - repeat constructor; unfold in_classes; lia.
Defined.

(** X2. With [problem_type = MULTICLASS] and [num_classes = k], one
    integer label below [-k] or at or above [k], in either series, makes
    the call fail with numpy's [IndexError]; no labels are returned. *)
Theorem multiclass_label_out_of_range (y_train y_test : list Z) (k : Z)
    (eps : Q) :
  (0 <= k)%Z ->
  Exists (fun y => ~ in_classes k y) (y_train ++ y_test) ->
  format_distillation_labels (IntSeries y_train) (IntSeries y_test)
    MULTICLASS (Some k) eps
  = Raise (IndexError "index is out of bounds for axis 1").
Proof.
  intros Hk Hex. unfold format_distillation_labels. rewrite String.eqb_refl.
  destruct (List.Forall_Exists_dec (in_classes k) (in_classes_dec k) y_train)
    as [Hall|Hbad].
  - destruct (one_hot_in_range k y_train Hk Hall) as (tr & -> & _).
    apply Exists_app in Hex. destruct Hex as [Hex|Hex].
    + exfalso. apply Exists_exists in Hex. destruct Hex as (y & Hin & Hy).
      rewrite Forall_forall in Hall. exact (Hy (Hall y Hin)).
    + rewrite (one_hot_out_of_range k y_test Hk Hex). reflexivity.
  - rewrite (one_hot_out_of_range k y_train Hk Hbad). reflexivity.
Qed.

Lemma multiclass_label_out_of_range_witness :
  format_distillation_labels (IntSeries [0; 3]%Z) (IntSeries [1]%Z)
    MULTICLASS (Some 3%Z) eps_labelsmooth_default
  = Raise (IndexError "index is out of bounds for axis 1").
Proof.
  apply (multiclass_label_out_of_range [0; 3]%Z [1]%Z 3 eps_labelsmooth_default).
  - lia.
  - apply Exists_cons_tl, Exists_cons_hd. unfold in_classes. lia.
Defined.





(* --------------------------------------------------------------------- *)
(** *** Lines 28 and 75 over binary64                                      *)
(* --------------------------------------------------------------------- *)

(** X5. Line 75 in binary64: whenever the bound is computed, it is at
    least 1, it is 1 when the float product [frac_perturb * column_count]
    is below 2, and from 1 on it is the integer part of that float. *)
Theorem binary64_bound_integer_part (frac_perturb : Binary64.float)
    (X : DataFrame) (r : Z) :
  Binary64.num_feature_perturb frac_perturb X = Ok r ->
  exists x,
    Binary64.to_Q
      (Binary64.mul frac_perturb
         (Binary64.of_int (Z.of_nat (length (columns X))))) = Some x
    /\ (1 <= r)%Z
    /\ (x < 2 -> r = 1%Z)
    /\ (1 <= x -> inject_Z r <= x /\ x < inject_Z r + 1).
Proof.
  unfold Binary64.num_feature_perturb.
  destruct (Binary64.py_int _) as [k|e] eqn:Hk; [|discriminate].
  intros H. inversion H. subst r. clear H.
  destruct (binary64_int_exact _ _ Hk) as [x [Hx ->]].
  exists x. split; [exact Hx|]. apply integer_part_bound.
Qed.

Lemma binary64_bound_integer_part_witness :
  exists x,
    Binary64.to_Q
      (Binary64.mul (Binary64.decimal 29 2)
         (Binary64.of_int (Z.of_nat (length (columns (Binary64.wide 100))))))
    = Some x
    /\ (1 <= 28)%Z
    /\ (x < 2 -> 28%Z = 1%Z)
    /\ (1 <= x -> inject_Z 28 <= x /\ x < inject_Z 28 + 1).
Proof.
  apply (binary64_bound_integer_part (Binary64.decimal 29 2)
           (Binary64.wide 100) 28).
  vm_compute. reflexivity.
Defined.

(** X6. Line 28 in binary64, for every two-digit [eps = k/100] below 0.5:
    the label 0 is sent to [eps] itself; the label 1 is sent to the float
    [1 - eps] or to a float next to it, and it is [1 - eps] itself exactly
    when [k] is none of 4, 5 and 8. *)
Theorem binary64_labels_two_digits (k : Z) :
  (0 <= k < 50)%Z ->
  SpecFloat.SFeqb
    (Binary64.smooth_label (Binary64.decimal k 2) (Binary64.of_int 0))
    (Binary64.decimal k 2) = true
  /\ within_ulp
       (Binary64.smooth_label (Binary64.decimal k 2) (Binary64.of_int 1))
       (Binary64.sub (Binary64.of_int 1) (Binary64.decimal k 2)) = true
  /\ (SpecFloat.SFeqb
        (Binary64.smooth_label (Binary64.decimal k 2) (Binary64.of_int 1))
        (Binary64.sub (Binary64.of_int 1) (Binary64.decimal k 2)) = true
      <-> (k <> 4 /\ k <> 5 /\ k <> 8)%Z).
Proof.
  intros Hk.
  assert (Hall : forallb two_digit_check (map Z.of_nat (seq 0 50)) = true)
    by (vm_compute; reflexivity).
  rewrite forallb_forall in Hall.
  assert (Hin : In k (map Z.of_nat (seq 0 50))).
  { apply in_map_iff. exists (Z.to_nat k). split; [lia|]. apply in_seq. lia. }
  specialize (Hall k Hin). unfold two_digit_check in Hall. cbv zeta in Hall.
  apply andb_true_iff in Hall. destruct Hall as [Hall H3].
  apply andb_true_iff in Hall. destruct Hall as [H1 H2].
  split; [exact H1|]. split; [exact H2|].
  apply Bool.eqb_prop in H3. rewrite H3. rewrite negb_true_iff.
  rewrite !orb_false_iff, !Z.eqb_neq. tauto.
Qed.

Lemma binary64_labels_two_digits_witness :
  SpecFloat.SFeqb
    (Binary64.smooth_label (Binary64.decimal 5 2) (Binary64.of_int 0))
    (Binary64.decimal 5 2) = true
  /\ within_ulp
       (Binary64.smooth_label (Binary64.decimal 5 2) (Binary64.of_int 1))
       (Binary64.sub (Binary64.of_int 1) (Binary64.decimal 5 2)) = true
  /\ (SpecFloat.SFeqb
        (Binary64.smooth_label (Binary64.decimal 5 2) (Binary64.of_int 1))
        (Binary64.sub (Binary64.of_int 1) (Binary64.decimal 5 2)) = true
      <-> (5 <> 4 /\ 5 <> 5 /\ 5 <> 8)%Z).
Proof. apply (binary64_labels_two_digits 5). lia. Defined.

(** The product of line 75 is rounded before [int] truncates it: [0.29 *
    100] evaluates below 29, and [0.3 * 10] to 3 although the float [0.3]
    is below three tenths. *)
Example binary64_product_is_rounded :
  Binary64.num_feature_perturb (Binary64.decimal 875 3) Reference.Xtwo = Ok 1%Z
  /\ Binary64.num_feature_perturb (Binary64.decimal 29 2) (Binary64.wide 100)
     = Ok 28%Z
  /\ Binary64.num_feature_perturb (Binary64.decimal 3 1) (Binary64.wide 10)
     = Ok 3%Z
  /\ Binary64.to_Q (Binary64.decimal 3 1)
     = Some (5404319552844595 # 18014398509481984)
  /\ num_feature_perturb (5404319552844595 # 18014398509481984)
       (Binary64.wide 10) = 2%Z.
Proof. vm_compute. repeat split. Qed.

(* --------------------------------------------------------------------- *)
(** *** Deriving the sample count (lines 39-42)                            *)
(* --------------------------------------------------------------------- *)

Section Derive.

Context {G : Type}.
Context `{HR : RandomState G} `{HV : Vectorizer} `{HN : NeighborSearch}
        `{HS : Numeric}.

(** The run of lines 39-42 on a dictionary without a count. *)
Lemma derive_run (s : state G) (X_train a : nat) (d : gmap string argval)
    (Xv : DataFrame) (f : argval) :
  dicts s !! a = Some d ->
  d !! "num_augmented_samples" = None ->
  d !! "size_factor" = Some f ->
  frames s !! X_train = Some Xv ->
  let d1 := match d !! "max_size" with
            | Some _ => d
            | None => <["max_size" := AFloat PInf]> d
            end in
  let s1 := match d !! "max_size" with
            | Some _ => s
            | None => with_dict s a d1
            end in
  let cap := arg_num (default (AFloat PInf) (d !! "max_size")) in
  derive_num_augmented_samples X_train a s
  = match py_int_x (py_min cap (mul_len f (len Xv))) with
    | Ok n => (Ok tt, with_dict s a (<["num_augmented_samples" := AInt n]> d1))
    | Raise e => (Raise e, s1)
    end.
Proof.
  intros Hd Hn Hf HX. cbv zeta.
  unfold derive_num_augmented_samples.
  rewrite bind_run. unfold get_dict at 1. rewrite Hd.
  unfold has_key at 1. rewrite Hn.
  rewrite bind_run. unfold has_key at 1.
  destruct (d !! "max_size") as [m|] eqn:Hm.
  - cbn [ret]. rewrite bind_run. unfold get_dict at 1. rewrite Hd.
    rewrite bind_run, lift_run. unfold dict_get at 1. rewrite Hm.
    rewrite bind_run, lift_run. unfold dict_get at 1. rewrite Hf.
    rewrite bind_run, get_frame_run, HX.
    rewrite bind_run, lift_run. simpl default.
    destruct (py_int_x _) as [n|e]; [|reflexivity].
    unfold dict_set. rewrite Hd. reflexivity.
  - unfold dict_set at 1. rewrite Hd.
    rewrite bind_run. unfold get_dict at 1. cbn [dicts].
    rewrite lookup_insert_eq.
    rewrite bind_run, lift_run. unfold dict_get at 1. rewrite lookup_insert_eq.
    rewrite bind_run, lift_run. unfold dict_get at 1.
    rewrite lookup_insert_ne by discriminate. rewrite Hf.
    rewrite bind_run, get_frame_run. cbn [frames]. rewrite HX.
    rewrite bind_run, lift_run. simpl default.
    destruct (py_int_x _) as [n|e]; [|reflexivity].
    unfold dict_set. cbn [dicts]. rewrite lookup_insert_eq.
    unfold with_dict. cbn [frames dicts rng trace].
    rewrite insert_insert_eq. reflexivity.
Qed.

(** Lines 39-42, when they succeed: the dictionary holds a count. *)
Lemma derive_ok (s s1 : state G) (X_train a : nat) (u : unit) :
  derive_num_augmented_samples X_train a s = (Ok u, s1) ->
  exists d v, dicts s1 !! a = Some d
              /\ d !! "num_augmented_samples" = Some v.
Proof.
  unfold derive_num_augmented_samples.
  rewrite bind_run. unfold get_dict at 1.
  destruct (dicts s !! a) as [d|] eqn:Hd; [|discriminate].
  unfold has_key at 1.
  destruct (d !! "num_augmented_samples") as [v|] eqn:Hn.
  { intros [= _ <-]. eauto. }
  rewrite bind_run.
  set (c1 := if has_key d "max_size" then ret tt
             else dict_set a "max_size" (AFloat PInf)).
  destruct (c1 s) as [[u1|e] s0] eqn:E1; [|discriminate].
  rewrite bind_run. unfold get_dict at 1.
  destruct (dicts s0 !! a) as [d0|] eqn:Hd0; [|discriminate].
  rewrite bind_run, lift_run.
  destruct (dict_get d0 "max_size") as [m|e]; [|discriminate].
  rewrite bind_run, lift_run.
  destruct (dict_get d0 "size_factor") as [f|e]; [|discriminate].
  rewrite bind_run, get_frame_run.
  destruct (frames s0 !! X_train) as [Xv|]; [|discriminate].
  rewrite bind_run, lift_run.
  destruct (py_int_x _) as [n|e]; [|discriminate].
  unfold dict_set. rewrite Hd0. intros [= _ <-]. cbn [dicts].
  eexists _, _. split; [apply lookup_insert_eq|apply lookup_insert_eq].
Qed.

(** X7. On a dictionary with a [size_factor] and neither
    [num_augmented_samples] nor [max_size], the derivation first writes
    [max_size = inf].  When the product [size_factor * len(X_train)] is
    finite (exact for an integer factor, the rounded float product for a
    float one) it then writes [num_augmented_samples = int(product)] and
    changes nothing else; when the float product overflows it fails with
    [OverflowError], and [max_size] stays written. *)
Theorem derived_count_default (s : state G) (X_train a : nat)
    (d : gmap string argval) (Xv : DataFrame) (f : argval) :
  dicts s !! a = Some d ->
  d !! "num_augmented_samples" = None ->
  d !! "max_size" = None ->
  d !! "size_factor" = Some f ->
  frames s !! X_train = Some Xv ->
  (forall x : Q,
     mul_len f (len Xv) = XFin x ->
     derive_num_augmented_samples X_train a s
     = (Ok tt,
        with_dict s a
          (<["num_augmented_samples" := AInt (py_int x)]>
             (<["max_size" := AFloat PInf]> d))))
  /\ (mul_len f (len Xv) = XInf \/ mul_len f (len Xv) = XNegInf ->
      derive_num_augmented_samples X_train a s
      = (Raise (OverflowError "cannot convert float infinity to integer"),
         with_dict s a (<["max_size" := AFloat PInf]> d))).
Proof.
  intros Hd Hn Hm Hf HX.
  pose proof (derive_run s X_train a d Xv f Hd Hn Hf HX) as Hrun.
  cbv zeta in Hrun. rewrite Hm in Hrun. simpl default in Hrun.
  change (arg_num (AFloat PInf)) with XInf in Hrun.
  split.
  - intros x Hx. rewrite Hx in Hrun. exact Hrun.
  - intros [Hx|Hx]; rewrite Hx in Hrun; exact Hrun.
Qed.

(** X8. With a finite [max_size >= 0] in the dictionary and a finite
    product [size_factor * len(X_train) >= 0] (exact for an integer
    factor, the rounded float product for a float one), the derived count
    [n] is the integer part of the smaller of the two: it is non-negative
    and exceeds neither, and only [num_augmented_samples] is added to the
    dictionary. *)
Theorem derived_count_capped (s : state G) (X_train a : nat)
    (d : gmap string argval) (Xv : DataFrame) (m f : argval) (mq x : Q) :
  dicts s !! a = Some d ->
  d !! "num_augmented_samples" = None ->
  d !! "max_size" = Some m -> arg_num m = XFin mq ->
  d !! "size_factor" = Some f -> mul_len f (len Xv) = XFin x ->
  frames s !! X_train = Some Xv ->
  0 <= mq -> 0 <= x ->
  exists n : Z,
    derive_num_augmented_samples X_train a s
    = (Ok tt, with_dict s a (<["num_augmented_samples" := AInt n]> d))
    /\ (0 <= n)%Z
    /\ inject_Z n <= mq
    /\ inject_Z n <= x
    /\ (mq < inject_Z n + 1 \/ x < inject_Z n + 1).
Proof.
  intros Hd Hn Hm Hmq Hf Hx HX Hm0 Hx0.
  pose proof (derive_run s X_train a d Xv f Hd Hn Hf HX) as Hrun.
  cbv zeta in Hrun. rewrite Hm in Hrun. simpl default in Hrun.
  rewrite Hx, Hmq in Hrun.
  unfold py_min, xlt in Hrun.
  destruct (Qle_bool mq x) eqn:E; simpl in Hrun.
  - apply Qle_bool_iff in E.
    exists (py_int mq). split; [exact Hrun|].
    rewrite (py_int_floor mq Hm0).
    assert (Hfl : inject_Z (Qfloor mq) <= mq) by apply Qfloor_le.
    repeat split.
    + change 0%Z with (Qfloor 0). apply Qfloor_resp_le. exact Hm0.
    + exact Hfl.
    + lra.
    + left. pose proof (Qlt_floor mq) as Hlt.
      rewrite inject_Z_plus in Hlt. exact Hlt.
  - assert (Hlt : x < mq).
    { apply Qnot_le_lt. intros Hle. apply Qle_bool_iff in Hle. congruence. }
    exists (py_int x). split; [exact Hrun|].
    rewrite (py_int_floor x Hx0).
    assert (Hfl : inject_Z (Qfloor x) <= x) by apply Qfloor_le.
    repeat split.
    + change 0%Z with (Qfloor 0). apply Qfloor_resp_le. exact Hx0.
    + lra.
    + exact Hfl.
    + right. pose proof (Qlt_floor x) as Hlt'.
      rewrite inject_Z_plus in Hlt'. exact Hlt'.
Qed.

(** X9. Once lines 39-42 have succeeded on a dictionary, that dictionary
    holds [num_augmented_samples], and running the lines again with it, for
    whatever training frame, changes nothing: the count is not derived a
    second time. *)
Theorem derived_count_is_kept (s s1 : state G) (X1 X2 a : nat) :
  derive_num_augmented_samples X1 a s = (Ok tt, s1) ->
  derive_num_augmented_samples X2 a s1 = (Ok tt, s1)
  /\ exists d v, dicts s1 !! a = Some d
                 /\ d !! "num_augmented_samples" = Some v.
Proof.
  intros Hrun.
  destruct (derive_ok s s1 X1 a tt Hrun) as (d & v & Hd & Hv).
  split; [exact (derive_present X2 a s1 d v Hd Hv)|].
  exists d, v. split; assumption.
Qed.

(** X10. A dictionary with neither [num_augmented_samples] nor
    [size_factor] makes [augment_data] (without [augmentation_data]) fail
    with [KeyError: 'size_factor'], whatever the method name; by then
    [max_size = inf] has been written into the dictionary if it was
    missing, and no frame, log record or random draw was made. *)
Theorem missing_size_factor (s : state G) (X_train a : nat)
    (ftm : gmap string (list string)) (m : string) (d : gmap string argval) :
  dicts s !! a = Some d ->
  d !! "num_augmented_samples" = None ->
  d !! "size_factor" = None ->
  augment_data X_train ftm None m a s
  = (Raise (KeyError "size_factor"),
     match d !! "max_size" with
     | Some _ => s
     | None => with_dict s a (<["max_size" := AFloat PInf]> d)
     end).
Proof.
  intros Hd Hn Hf. unfold augment_data.
  rewrite bind_run, bind_run.
  assert (Hrun : derive_num_augmented_samples X_train a s
                 = (Raise (KeyError "size_factor"),
                    match d !! "max_size" with
                    | Some _ => s
                    | None => with_dict s a (<["max_size" := AFloat PInf]> d)
                    end)).
  { unfold derive_num_augmented_samples.
    rewrite bind_run. unfold get_dict at 1. rewrite Hd.
    unfold has_key at 1. rewrite Hn.
    rewrite bind_run. unfold has_key at 1.
    destruct (d !! "max_size") as [mx|] eqn:Hm.
    - cbn [ret]. rewrite bind_run. unfold get_dict at 1. rewrite Hd.
      rewrite bind_run, lift_run. unfold dict_get at 1. rewrite Hm.
      rewrite bind_run, lift_run. unfold dict_get at 1. rewrite Hf.
      reflexivity.
    - unfold dict_set at 1. rewrite Hd.
      rewrite bind_run. unfold get_dict at 1. cbn [dicts].
      rewrite lookup_insert_eq.
      rewrite bind_run, lift_run. unfold dict_get at 1.
      rewrite lookup_insert_eq.
      rewrite bind_run, lift_run. unfold dict_get at 1.
      rewrite lookup_insert_ne by discriminate. rewrite Hf. reflexivity. }
  rewrite Hrun. reflexivity.
Qed.

End Derive.

(* --------------------------------------------------------------------- *)
(** *** Frame operations that keep the shape of a batch                    *)
(* --------------------------------------------------------------------- *)

Lemma map_fst_combine {A B} (l : list A) (l' : list B) :
  (length l <= length l')%nat -> map fst (combine l l') = l.
Proof.
  revert l'. induction l as [|a l IH]; intros l' Hlen; [reflexivity|].
  destruct l' as [|b l']; simpl in *; [lia|]. rewrite IH by lia. reflexivity.
Qed.

Lemma map_fst_insert {A B} (l : list (A * B)) (i : nat) (a : A) (b b' : B) :
  nth_error l i = Some (a, b) -> map fst (<[i := (a, b')]> l) = map fst l.
Proof.
  revert i. induction l as [|x l IH]; intros i Hi; [destruct i; discriminate|].
  destruct i as [|i]; simpl in *.
  - inversion Hi. subst x. reflexivity.
  - rewrite (IH i Hi). reflexivity.
Qed.

Lemma set_row_shaped (n : nat) (cols : list string) (F F' : DataFrame)
    (i : nat) (row : Row) :
  shaped n cols F -> set_row F i row = Ok F' -> shaped n cols F'.
Proof.
  intros (Hlen & Hcols & Hidx & Hw) Hset. unfold set_row in Hset.
  destruct (nth_error (df_rows F) i) as [[label old]|] eqn:Hi; [|discriminate].
  inversion Hset as [HF']. clear Hset HF'.
  assert (Hold : length old = length cols).
  { rewrite List.Forall_forall in Hw. apply (Hw (label, old)).
    eapply nth_error_In. exact Hi. }
  assert (Hdf : length (df_columns F) = length cols).
  { rewrite <- Hcols. unfold columns. rewrite length_map. reflexivity. }
  set (cells := map (fun cv : string * cell =>
                       match row_get row (fst cv) with
                       | Ok v => v
                       | Raise _ => CNaN
                       end) (combine (columns F) old)).
  assert (Hcells : length cells = length cols).
  { unfold cells. rewrite length_map, length_combine, Hcols, Hold.
    apply Nat.min_id. }
  set (schema := map (fun dc : (string * dtype) * cell =>
                        (fst (fst dc),
                         common_dtype (snd (fst dc)) (cell_dtype (snd dc))))
                     (combine (df_columns F) cells)).
  assert (Hschema : map fst schema = cols).
  { unfold schema. rewrite map_map. simpl.
    rewrite <- (map_map fst fst), map_fst_combine by lia. exact Hcols. }
  assert (Hslen : length schema = length cols).
  { apply (f_equal (@length string)) in Hschema.
    rewrite length_map in Hschema. exact Hschema. }
  split; [|split; [|split]].
  - unfold len. simpl. rewrite length_map, length_insert. exact Hlen.
  - unfold columns. simpl. exact Hschema.
  - unfold index. simpl. rewrite map_map.
    change (map fst (<[i := (label, cells)]> (df_rows F)) = range_index 0 n).
    rewrite (map_fst_insert (df_rows F) i label old cells Hi). exact Hidx.
  - simpl. apply List.Forall_map. apply Forall_insert.
    + eapply List.Forall_impl; [|exact Hw]. intros r Hr. simpl.
      rewrite length_map, length_combine. fold schema. rewrite Hslen, Hr.
      apply Nat.min_id.
    + simpl. rewrite length_map, length_combine. fold schema.
      rewrite Hslen, Hcells. apply Nat.min_id.
Qed.

Lemma set_dtype_at_names (p : nat) (d : dtype) (l : list (string * dtype)) :
  map fst (set_dtype_at p d l) = map fst l.
Proof.
  unfold set_dtype_at. destruct (nth_error l p) as [[c d0]|] eqn:Hp;
    [|reflexivity].
  apply (map_fst_insert l p c d0 d Hp).
Qed.

Lemma set_column_shaped (n : nat) (cols : list string) (F F' : DataFrame)
    (name : string) (d : dtype) (vals : list cell) :
  shaped n cols F -> length vals = n ->
  set_column F name d vals = Ok F' -> shaped n cols F'.
Proof.
  intros (Hlen & Hcols & Hidx & Hw) Hvals Hset. unfold set_column in Hset.
  destruct (col_pos (columns F) name) as [p|]; [|discriminate].
  inversion Hset as [HF']. clear Hset HF'.
  unfold len in Hlen.
  split; [|split; [|split]].
  - unfold len. simpl. rewrite length_map, length_combine, Hlen, Hvals.
    apply Nat.min_id.
  - unfold columns. simpl. rewrite set_dtype_at_names. exact Hcols.
  - unfold index. simpl. rewrite map_map. simpl.
    rewrite <- (map_map fst fst), map_fst_combine by lia. exact Hidx.
  - simpl. apply List.Forall_map. apply List.Forall_forall. intros [r v] Hin. simpl.
    rewrite length_insert. rewrite List.Forall_forall in Hw. apply (Hw r).
    eapply in_combine_l. exact Hin.
Qed.

Lemma astype_float_length (vals vals' : list cell) :
  astype_float vals = Ok vals' -> length vals' = length vals.
Proof.
  revert vals'. induction vals as [|c vals IH]; intros vals' H; simpl in H.
  - inversion H. reflexivity.
  - destruct c; try discriminate;
      (destruct (astype_float vals) as [rest|]; [|discriminate];
       inversion H; simpl; rewrite (IH rest eq_refl); reflexivity).
Qed.

Lemma get_column_length (F : DataFrame) (name : string) (vals : list cell) :
  get_column F name = Ok vals -> length vals = len F.
Proof.
  unfold get_column. destruct (col_pos (columns F) name); [|discriminate].
  intros [= <-]. rewrite length_map. reflexivity.
Qed.

Lemma cells_num_length (cs : list cell) (xs : list (option Q)) :
  cells_num cs = Ok xs -> length xs = length cs.
Proof.
  revert xs. induction cs as [|c cs IH]; intros xs H; simpl in H.
  - inversion H. reflexivity.
  - destruct (cell_num c); [|discriminate].
    destruct (cells_num cs) as [rest|]; [|discriminate].
    inversion H. simpl. rewrite (IH rest eq_refl). reflexivity.
Qed.

Lemma add_noise_length (aug : list (option Q)) (noise : list Q)
    (mask : list nat) :
  length (add_noise aug noise mask)
  = Nat.min (length aug) (Nat.min (length noise) (length mask)).
Proof.
  unfold add_noise. rewrite length_map, !length_combine. reflexivity.
Qed.

Lemma reset_index_shaped (F : DataFrame) :
  Forall (fun r : Z * list cell => length (snd r) = length (columns F))
         (df_rows F) ->
  shaped (len F) (columns F) (reset_index F).
Proof.
  intros Hw. split; [|split; [|split]].
  - apply reset_index_len.
  - reflexivity.
  - apply reset_index_index.
  - unfold reset_index. simpl. apply List.Forall_forall. intros [z cells] Hin.
    simpl. apply in_combine_r in Hin. apply in_map_iff in Hin.
    destruct Hin as (r & <- & Hr). rewrite List.Forall_forall in Hw.
    exact (Hw r Hr).
Qed.

Lemma concat_columns_repeat (F : DataFrame) (n : nat) :
  List.NoDup (columns F) -> (0 < n)%nat ->
  concat_columns (repeat F n) = columns F.
Proof.
  intros Hnd Hn. destruct n as [|n]; [lia|]. unfold concat_columns. simpl.
  rewrite (union_columns_fresh [] (columns F) Hnd) by (intros c _ []).
  simpl. clear Hn. induction n as [|n IH]; simpl; [reflexivity|].
  rewrite union_columns_known by auto. exact IH.
Qed.

Lemma schema_names (f : string -> dtype) (l : list string) :
  map fst (map (fun c => (c, f c)) l) = l.
Proof.
  induction l as [|c l IH]; simpl; [reflexivity|]. rewrite IH. reflexivity.
Qed.

(** The batch of lines 76-77: [n] copies of the first row of [X], on a
    fresh index. *)
Lemma repeated_first_shaped (Xv first cat : DataFrame) (n : nat) :
  List.NoDup (columns Xv) -> (0 < n)%nat ->
  iloc_first Xv = Ok first ->
  pd_concat (repeat first n) = Ok cat ->
  shaped n (columns Xv) (reset_index cat).
Proof.
  intros Hnd Hn Hfirst Hcat. unfold iloc_first in Hfirst.
  destruct (df_rows Xv) as [|r rows] eqn:Hrows; [discriminate|].
  inversion Hfirst as [Hf]. clear Hfirst.
  assert (Hcf : columns first = columns Xv) by (subst first; reflexivity).
  unfold pd_concat in Hcat. destruct n as [|n]; [lia|].
  simpl repeat in Hcat. inversion Hcat as [Hc]. clear Hcat.
  change (first :: repeat first n) with (repeat first (S n)) in *.
  set (schema := map (fun c => (c, concat_dtype (repeat first (S n)) c))
                     (concat_columns (repeat first (S n)))) in *.
  assert (Hcols : map fst schema = columns Xv).
  { unfold schema. rewrite schema_names.
    rewrite concat_columns_repeat; [exact Hcf| |lia]. rewrite Hcf. exact Hnd. }
  set (rows' := flat_map (fun X => map (reindex_row X schema) (df_rows X))
                         (repeat first (S n))) in *.
  assert (Hlen : length rows' = S n).
  { unfold rows'. generalize (S n) as k. intros k.
    induction k as [|k IH]; simpl; [reflexivity|].
    rewrite length_app, IH. subst first. reflexivity. }
  assert (Hw : Forall (fun r0 : Z * list cell =>
                         length (snd r0) = length (columns Xv)) rows').
  { unfold rows'. apply List.Forall_forall. intros r0 Hin.
    apply in_flat_map in Hin. destruct Hin as (X0 & _ & Hin).
    apply in_map_iff in Hin. destruct Hin as (r1 & <- & _).
    unfold reindex_row. simpl. rewrite length_map, <- Hcols, length_map.
    reflexivity. }
  pose proof (reset_index_shaped
                {| df_columns := schema; df_rows := rows' |}) as Hsh.
  unfold columns at 1 2 in Hsh. simpl in Hsh. rewrite Hcols in Hsh.
  unfold len in Hsh. simpl in Hsh. rewrite Hlen in Hsh.
  apply Hsh. exact Hw.
Qed.

(* --------------------------------------------------------------------- *)
(** *** The post-processor on a batch with the schema of X                 *)
(* --------------------------------------------------------------------- *)

Lemma col_pos_app (pre rest : list string) (c : string) :
  ~ In c pre -> col_pos (pre ++ c :: rest) c = Some (length pre).
Proof.
  induction pre as [|c0 pre IH]; intros Hnot; simpl.
  - rewrite String.eqb_refl. reflexivity.
  - destruct (String.eqb c0 c) eqn:E.
    + apply String.eqb_eq in E. exfalso. apply Hnot. left. exact E.
    + rewrite IH; [reflexivity|]. intros Hin. apply Hnot. right. exact Hin.
Qed.

Lemma nth_error_middle {A} (pre rest : list A) (a : A) :
  nth_error (pre ++ a :: rest) (length pre) = Some a.
Proof. induction pre as [|x pre IH]; simpl; [reflexivity|exact IH]. Qed.

Lemma reindex_cells_id (pre l : list (string * dtype)) (cpre cells : list cell) :
  length pre = length cpre ->
  List.NoDup (map fst (pre ++ l)) ->
  Forall2 (fun cd c => fits (snd cd) c) l cells ->
  map (fun cd : string * dtype =>
         match cell_at (map fst (pre ++ l)) (cpre ++ cells) (fst cd) with
         | Some c => cast_cell (snd cd) c
         | None => CNaN
         end) l
  = cells.
Proof.
  intros Hlen Hnd Hall. revert pre cpre Hlen Hnd.
  induction Hall as [|cd c l cells Hfit Hall IH]; intros pre cpre Hlen Hnd;
    [reflexivity|].
  simpl. f_equal.
  - unfold cell_at. rewrite map_app. simpl.
    rewrite col_pos_app.
    + rewrite length_map, Hlen, nth_error_middle. exact Hfit.
    + rewrite map_app in Hnd. simpl in Hnd.
      apply List.NoDup_remove_2 in Hnd. intros Hin. apply Hnd.
      apply in_or_app. left. exact Hin.
  - specialize (IH (pre ++ [cd]) (cpre ++ [c])).
    rewrite <- !app_assoc in IH. simpl in IH. apply IH.
    + rewrite !length_app. simpl. lia.
    + exact Hnd.
Qed.

Lemma reindex_row_id (F : DataFrame) (r : Z * list cell) :
  List.NoDup (columns F) ->
  Forall2 (fun cd c => fits (snd cd) c) (df_columns F) (snd r) ->
  reindex_row F (df_columns F) r = r.
Proof.
  intros Hnd Hall. unfold reindex_row. destruct r as [z cells]. simpl in *.
  f_equal.
  exact (reindex_cells_id [] (df_columns F) [] cells eq_refl Hnd Hall).
Qed.

Section PostValues.

Context {G : Type}.

(** X18. When the batch has the columns and dtypes of [X] (labels unique)
    and each of its cells fits its column, the post-processor returns the
    batch itself on the index 0, 1, ...: same columns, same dtypes, same
    values, as a new frame object after one level-15 log record. *)
Theorem postprocess_returns_batch (s : state G) (X_aug X : nat)
    (Xa Xv : DataFrame) :
  frames s !! X = Some Xv ->
  frames s !! X_aug = Some Xa ->
  List.NoDup (columns Xv) ->
  df_columns Xa = df_columns Xv ->
  well_typed Xa ->
  postprocess_augmented X_aug X s
  = (Ok (fresh (dom (frames s))),
     mkState (<[fresh (dom (frames s)) := reset_index Xa]> (frames s))
             (dicts s) (rng s) (trace s ++ [EvLog 15])).
Proof.
  intros HX HXa Hnd Hsame Hwt.
  destruct (concat_two Xv Xa) as (schema & Hschema & Hcat).
  rewrite (concat_schema_same Xv Xa Hnd Hsame) in Hschema. subst schema.
  unfold postprocess_augmented, bind, get_frame, lift, log, emit, alloc_frame.
  rewrite HX, HXa, Hcat. cbn [ret frames dicts rng trace].
  set (cat := {| df_columns := df_columns Xv;
                 df_rows := map (reindex_row Xv (df_columns Xv)) (df_rows Xv)
                            ++ map (reindex_row Xa (df_columns Xv)) (df_rows Xa) |}).
  set (tail := df_tail (Z.of_nat (len cat) - Z.of_nat (len Xv)) cat).
  assert (Htail : df_rows tail
                  = map (reindex_row Xa (df_columns Xv)) (df_rows Xa)).
  { unfold tail, cat, len. simpl df_rows at 2.
    rewrite <- (length_map (reindex_row Xv (df_columns Xv)) (df_rows Xv)).
    apply tail_of_concat. }
  assert (Hrows : map (reindex_row Xa (df_columns Xv)) (df_rows Xa) = df_rows Xa).
  { rewrite <- Hsame. rewrite <- (map_id (df_rows Xa)) at 2.
    apply map_ext_in. intros r Hr. apply reindex_row_id.
    - unfold columns. rewrite Hsame. exact Hnd.
    - unfold well_typed in Hwt. rewrite List.Forall_forall in Hwt.
      exact (Hwt r Hr). }
  assert (Heq : reset_index tail = reset_index Xa).
  { unfold reset_index, len. rewrite Htail, Hrows.
    change (df_columns tail) with (df_columns Xv). rewrite Hsame. reflexivity. }
  rewrite Heq. reflexivity.
Qed.

End PostValues.

(* --------------------------------------------------------------------- *)
(** *** Values observed in a column                                        *)
(* --------------------------------------------------------------------- *)

Lemma cast_cell_cases (d : dtype) (c : cell) :
  cast_cell d c = c \/ cast_cell d c = cast_cell Float64 c.
Proof. destruct d, c; simpl; auto. Qed.

Lemma cast_cell_float (d : dtype) (c : cell) :
  cast_cell d (cast_cell Float64 c) = cast_cell Float64 c.
Proof. destruct d, c; reflexivity. Qed.

Lemma observed_cast (Xv : DataFrame) (p : nat) (d : dtype) (v : cell) :
  observed Xv p v -> observed Xv p (cast_cell d v).
Proof.
  intros (r & c0 & Hr & Hc0 & [->| ->]); exists r, c0;
    (split; [exact Hr|]; split; [exact Hc0|]).
  - destruct (cast_cell_cases d c0) as [->| ->]; auto.
  - right. apply cast_cell_float.
Qed.

Lemma col_pos_Some_nth (cols : list string) (c : string) (p : nat) :
  col_pos cols c = Some p -> nth_error cols p = Some c.
Proof.
  revert p. induction cols as [|c0 cols IH]; intros p H; simpl in H;
    [discriminate|].
  destruct (String.eqb c0 c) eqn:E.
  - apply String.eqb_eq in E. inversion H. subst. reflexivity.
  - destruct (col_pos cols c) as [q|]; [|discriminate].
    inversion H. subst p. simpl. apply IH. reflexivity.
Qed.

Lemma col_pos_nth (cols : list string) (c : string) (p : nat) :
  List.NoDup cols -> nth_error cols p = Some c -> col_pos cols c = Some p.
Proof.
  intros Hnd. revert p. induction cols as [|c0 cols IH]; intros p H;
    [destruct p; discriminate|].
  apply List.NoDup_cons_iff in Hnd. destruct Hnd as [Hc0 Hnd].
  destruct p as [|p]; simpl in *.
  - inversion H. subst. rewrite String.eqb_refl. reflexivity.
  - destruct (String.eqb c0 c) eqn:E.
    + apply String.eqb_eq in E. subst. exfalso. apply Hc0.
      eapply nth_error_In. exact H.
    + rewrite (IH Hnd p H). reflexivity.
Qed.

Lemma nth_error_insert_ne {A} (l : list A) (i j : nat) (x : A) :
  i <> j -> nth_error (<[i := x]> l) j = nth_error l j.
Proof.
  revert i j. induction l as [|a l IH]; intros i j Hne; [reflexivity|].
  destruct i as [|i], j as [|j]; simpl; try reflexivity; [contradiction|].
  apply IH. lia.
Qed.

Lemma in_insert {A} (l : list A) (i : nat) (x y : A) :
  In y (<[i := x]> l) -> In y l \/ y = x.
Proof.
  revert i. induction l as [|a l IH]; intros i H; [destruct H|].
  destruct i as [|i]; simpl in H.
  - destruct H as [<-|H]; [right; reflexivity|left; right; exact H].
  - destruct H as [<-|H]; [left; left; reflexivity|].
    destruct (IH i H) as [H'|H']; [left; right; exact H'|right; exact H'].
Qed.

Lemma nth_error_map_combine {A B C} (g : A * B -> C) (l : list A)
    (l' : list B) (p : nat) (v : C) :
  nth_error (map g (combine l l')) p = Some v ->
  exists a b, nth_error l p = Some a /\ nth_error l' p = Some b
              /\ v = g (a, b).
Proof.
  revert l' p. induction l as [|a l IH]; intros l' p H;
    [destruct p; discriminate|].
  destruct l' as [|b l']; [destruct p; discriminate|].
  destruct p as [|p]; simpl in H.
  - inversion H. exists a, b. repeat split.
  - exact (IH l' p H).
Qed.

Lemma row_get_combine (cols : list string) (cs : list cell) (p : nat)
    (c : string) (v : cell) :
  List.NoDup cols -> nth_error cols p = Some c -> nth_error cs p = Some v ->
  row_get (combine cols cs) c = Ok v.
Proof.
  intros Hnd. revert cs p. induction cols as [|c0 cols IH]; intros cs p Hc Hv;
    [destruct p; discriminate|].
  apply List.NoDup_cons_iff in Hnd. destruct Hnd as [Hc0 Hnd].
  destruct cs as [|x cs]; [destruct p; discriminate|].
  destruct p as [|p]; simpl in *.
  - inversion Hc. inversion Hv. subst. rewrite String.eqb_refl. reflexivity.
  - destruct (String.eqb c0 c) eqn:E.
    + apply String.eqb_eq in E. subst. exfalso. apply Hc0.
      eapply nth_error_In. exact Hc.
    + exact (IH Hnd cs p Hc Hv).
Qed.

Lemma row_get_set (row : Row) (f c : string) (v : cell) :
  row_get (row_set row f v) c
  = if String.eqb f c then Ok v else row_get row c.
Proof.
  induction row as [|[c0 w] row IH]; simpl.
  - destruct (String.eqb f c); reflexivity.
  - destruct (String.eqb c0 f) eqn:E0; simpl.
    + apply String.eqb_eq in E0. subst c0.
      destruct (String.eqb f c); reflexivity.
    + destruct (String.eqb c0 c) eqn:E1.
      * apply String.eqb_eq in E1. subst c0. rewrite (String.eqb_sym f c), E0.
        reflexivity.
      * exact IH.
Qed.

Lemma rectangular_nth (F : DataFrame) (r : Z * list cell) (p : nat) (c : string) :
  rectangular F -> In r (df_rows F) -> nth_error (columns F) p = Some c ->
  exists v, nth_error (snd r) p = Some v.
Proof.
  intros Hrect Hr Hc. unfold rectangular in Hrect.
  rewrite List.Forall_forall in Hrect. specialize (Hrect r Hr).
  assert (Hp : (p < length (snd r))%nat).
  { rewrite Hrect. unfold columns in Hc.
    rewrite <- (length_map fst (df_columns F)).
    apply nth_error_Some. congruence. }
  destruct (nth_error (snd r) p) as [v|] eqn:E; [eauto|].
  apply nth_error_None in E. lia.
Qed.

(** The source frame is drawn from itself. *)
Lemma drawn_from_self (Xv : DataFrame) (cont : list string) :
  drawn_from Xv cont Xv.
Proof.
  intros r p c v Hr _ _ Hv. exists r, v. repeat split; auto.
Qed.

Lemma iloc_row_drawn (Xv Xc : DataFrame) (cont : list string) (i : nat)
    (row : Row) :
  List.NoDup (columns Xv) -> columns Xc = columns Xv ->
  rectangular Xc -> drawn_from Xv cont Xc ->
  iloc_row Xc i = Ok row -> row_drawn_from Xv cont row.
Proof.
  intros Hnd Hcols Hrect Hdr Hrow. unfold iloc_row in Hrow.
  destruct (nth_error (df_rows Xc) i) as [r|] eqn:Hi; [|discriminate].
  inversion Hrow as [Hr]. clear Hrow Hr.
  assert (Hin : In r (df_rows Xc)) by (eapply nth_error_In; exact Hi).
  intros p c Hc Hcont.
  assert (Hc' : nth_error (columns Xc) p = Some c) by (rewrite Hcols; exact Hc).
  destruct (rectangular_nth Xc r p c Hrect Hin Hc') as [x Hx].
  exists (cast_cell (row_dtype Xc) x). split.
  - apply (row_get_combine (columns Xc) _ p c); [rewrite Hcols; exact Hnd|exact Hc'|].
    rewrite nth_error_map, Hx. reflexivity.
  - apply observed_cast. exact (Hdr r p c x Hin Hc Hcont Hx).
Qed.

Lemma get_column_drawn (Xv Xc : DataFrame) (cont : list string)
    (feature : string) (fd : list cell) (p : nat) (v : cell) :
  List.NoDup (columns Xv) -> columns Xc = columns Xv ->
  rectangular Xc -> drawn_from Xv cont Xc ->
  get_column Xc feature = Ok fd -> In v fd ->
  nth_error (columns Xv) p = Some feature -> mem_string feature cont = false ->
  observed Xv p v.
Proof.
  intros Hnd Hcols Hrect Hdr Hfd Hv Hp Hcont. unfold get_column in Hfd.
  rewrite Hcols, (col_pos_nth _ _ _ Hnd Hp) in Hfd.
  inversion Hfd as [Hfd']. clear Hfd. subst fd.
  apply in_map_iff in Hv. destruct Hv as (r & Hnth & Hr).
  assert (Hp' : nth_error (columns Xc) p = Some feature)
    by (rewrite Hcols; exact Hp).
  destruct (rectangular_nth Xc r p feature Hrect Hr Hp') as [x Hx].
  assert (v = x).
  { rewrite <- Hnth. apply nth_error_nth. exact Hx. }
  subst x. exact (Hdr r p feature v Hr Hp Hcont Hx).
Qed.

Lemma row_set_drawn (Xv : DataFrame) (cont : list string) (row : Row)
    (feature : string) (v : cell) :
  row_drawn_from Xv cont row ->
  (forall p, nth_error (columns Xv) p = Some feature ->
             mem_string feature cont = false -> observed Xv p v) ->
  row_drawn_from Xv cont (row_set row feature v).
Proof.
  intros Hrow Hv p c Hc Hcont. rewrite row_get_set.
  destruct (String.eqb feature c) eqn:E.
  - apply String.eqb_eq in E. subst c. exists v. split; [reflexivity|].
    exact (Hv p Hc Hcont).
  - exact (Hrow p c Hc Hcont).
Qed.

Lemma set_row_drawn (Xv : DataFrame) (cont : list string) (F F' : DataFrame)
    (i : nat) (row : Row) :
  columns F = columns Xv -> drawn_from Xv cont F ->
  row_drawn_from Xv cont row ->
  set_row F i row = Ok F' -> drawn_from Xv cont F'.
Proof.
  intros Hcols Hdr Hrow Hset. unfold set_row in Hset.
  destruct (nth_error (df_rows F) i) as [[label old]|] eqn:Hi; [|discriminate].
  inversion Hset as [HF']. clear Hset HF'.
  intros r' p c v Hr' Hc Hcont Hv. simpl in Hr'.
  apply in_map_iff in Hr'. destruct Hr' as (r & <- & Hr). simpl in Hv.
  apply nth_error_map_combine in Hv. destruct Hv as (sd & x & _ & Hx & ->).
  simpl. apply observed_cast.
  apply in_insert in Hr. destruct Hr as [Hr| ->].
  - exact (Hdr r p c x Hr Hc Hcont Hx).
  - simpl in Hx. apply nth_error_map_combine in Hx.
    destruct Hx as (c' & o & Hc' & _ & ->). simpl.
    rewrite Hcols, Hc in Hc'. inversion Hc'. subst c'.
    destruct (Hrow p c Hc Hcont) as (v0 & -> & Hobs). exact Hobs.
Qed.

Lemma set_column_drawn (Xv : DataFrame) (cont : list string)
    (F F' : DataFrame) (feature : string) (d : dtype) (vals : list cell) :
  columns F = columns Xv -> drawn_from Xv cont F ->
  mem_string feature cont = true ->
  set_column F feature d vals = Ok F' -> drawn_from Xv cont F'.
Proof.
  intros Hcols Hdr Hfeat Hset. unfold set_column in Hset.
  destruct (col_pos (columns F) feature) as [pf|] eqn:Hpf; [|discriminate].
  inversion Hset as [HF']. clear Hset HF'.
  intros r' p c v Hr' Hc Hcont Hv. simpl in Hr'.
  apply in_map_iff in Hr'. destruct Hr' as ([r v0] & <- & Hr). simpl in Hv.
  apply in_combine_l in Hr.
  assert (Hne : pf <> p).
  { intros ->. apply col_pos_Some_nth in Hpf. rewrite Hcols, Hc in Hpf.
    inversion Hpf. subst c. congruence. }
  rewrite (nth_error_insert_ne _ _ _ _ Hne) in Hv.
  exact (Hdr r p c v Hr Hc Hcont Hv).
Qed.

Lemma set_column_rectangular (F F' : DataFrame) (feature : string) (d : dtype)
    (vals : list cell) :
  rectangular F -> set_column F feature d vals = Ok F' -> rectangular F'.
Proof.
  intros Hrect Hset. unfold set_column in Hset.
  destruct (col_pos (columns F) feature) as [pf|]; [|discriminate].
  inversion Hset as [HF']. clear Hset HF'.
  unfold rectangular in *. simpl. apply List.Forall_map, List.Forall_forall.
  intros [r v0] Hin. simpl. rewrite length_insert.
  apply in_combine_l in Hin. rewrite List.Forall_forall in Hrect.
  rewrite (Hrect r Hin).
  rewrite <- (length_map fst (set_dtype_at pf d (df_columns F))).
  rewrite set_dtype_at_names, length_map. reflexivity.
Qed.

Lemma set_column_columns (F F' : DataFrame) (feature : string) (d : dtype)
    (vals : list cell) :
  set_column F feature d vals = Ok F' -> columns F' = columns F.
Proof.
  unfold set_column.
  destruct (col_pos (columns F) feature) as [pf|]; [|discriminate].
  intros [= <-]. unfold columns. simpl. apply set_dtype_at_names.
Qed.

(** The batch of lines 76-77 holds values of the first row of [X]. *)
Lemma repeated_first_drawn (Xv first cat : DataFrame) (cont : list string)
    (n : nat) :
  List.NoDup (columns Xv) -> (0 < n)%nat -> rectangular Xv ->
  iloc_first Xv = Ok first ->
  pd_concat (repeat first n) = Ok cat ->
  drawn_from Xv cont (reset_index cat).
Proof.
  intros Hnd Hn Hrect Hfirst Hcat. unfold iloc_first in Hfirst.
  destruct (df_rows Xv) as [|r0 rows] eqn:Hrows; [discriminate|].
  inversion Hfirst as [Hf]. clear Hfirst.
  assert (Hcf : columns first = columns Xv) by (subst first; reflexivity).
  assert (Hr0 : In r0 (df_rows Xv)) by (rewrite Hrows; left; reflexivity).
  unfold pd_concat in Hcat. destruct n as [|n]; [lia|].
  simpl repeat in Hcat. inversion Hcat as [Hc]. clear Hcat.
  change (first :: repeat first n) with (repeat first (S n)) in *.
  set (schema := map (fun c => (c, concat_dtype (repeat first (S n)) c))
                     (concat_columns (repeat first (S n)))) in *.
  assert (Hcols : map fst schema = columns Xv).
  { unfold schema. rewrite schema_names.
    rewrite concat_columns_repeat; [exact Hcf| |lia]. rewrite Hcf. exact Hnd. }
  intros r p c v Hr Hp Hcont Hv.
  unfold reset_index in Hr. cbn [df_rows] in Hr.
  destruct r as [z cells]. apply in_combine_r in Hr.
  apply in_map_iff in Hr. destruct Hr as (r1 & Hsnd & Hr1). simpl in Hv.
  change (In r1 (flat_map (fun X => map (reindex_row X schema) (df_rows X))
                          (repeat first (S n)))) in Hr1.
  apply in_flat_map in Hr1. destruct Hr1 as (X0 & HX0 & Hr1).
  apply repeat_spec in HX0. subst X0.
  apply in_map_iff in Hr1. destruct Hr1 as (r2 & <- & Hr2).
  rewrite <- Hf in Hr2. simpl in Hr2. destruct Hr2 as [<-|[]].
  rewrite <- Hsnd in Hv. unfold reindex_row in Hv. simpl in Hv.
  rewrite nth_error_map in Hv.
  destruct (nth_error schema p) as [[c' d]|] eqn:Hsch; [|discriminate].
  simpl in Hv. inversion Hv as [Hv']. clear Hv.
  assert (c' = c).
  { assert (H : nth_error (map fst schema) p = Some c').
    { rewrite nth_error_map, Hsch. reflexivity. }
    rewrite Hcols, Hp in H. congruence. }
  subst c'.
  unfold cell_at. rewrite Hcf, (col_pos_nth _ _ _ Hnd Hp).
  destruct (rectangular_nth Xv r0 p c Hrect Hr0 Hp) as [x Hx].
  rewrite Hx. apply observed_cast. exists r0, x. repeat split; auto.
Qed.

Lemma reset_index_drawn (Xv : DataFrame) (cont : list string) (F : DataFrame) :
  drawn_from Xv cont F -> drawn_from Xv cont (reset_index F).
Proof.
  intros Hd r p c v Hr Hp Hm Hv. unfold reset_index in Hr. simpl in Hr.
  destruct r as [z cells]. apply in_combine_r in Hr.
  apply in_map_iff in Hr. destruct Hr as (r0 & Hsnd & Hr0).
  simpl in Hv. rewrite <- Hsnd in Hv. exact (Hd r0 p c v Hr0 Hp Hm Hv).
Qed.

(** Re-indexing the rows of a frame on a schema with the same column
    labels casts cells and moves none. *)
Lemma reindex_rows_drawn (Xv Xa F : DataFrame) (cont : list string)
    (schema : list (string * dtype)) :
  List.NoDup (columns Xv) -> columns Xa = columns Xv ->
  map fst schema = columns Xv ->
  Forall (fun r : Z * list cell => length (snd r) = length (columns Xv))
         (df_rows Xa) ->
  drawn_from Xv cont Xa ->
  df_rows F = map (reindex_row Xa schema) (df_rows Xa) ->
  drawn_from Xv cont F.
Proof.
  intros Hnd Hsame Hschema Hw Hd HF r p c v Hr Hp Hm Hv.
  rewrite HF in Hr. apply in_map_iff in Hr. destruct Hr as (r0 & <- & Hr0).
  unfold reindex_row in Hv. cbn [snd] in Hv.
  rewrite nth_error_map in Hv.
  destruct (nth_error schema p) as [cd|] eqn:Hcd; [|discriminate].
  simpl in Hv. injection Hv as <-.
  assert (Hname : fst cd = c).
  { pose proof (map_nth_error fst p schema Hcd) as Hn.
    rewrite Hschema, Hp in Hn. congruence. }
  rewrite Hname. unfold cell_at. rewrite Hsame.
  rewrite (col_pos_nth (columns Xv) c p Hnd Hp).
  rewrite List.Forall_forall in Hw. specialize (Hw r0 Hr0).
  destruct (nth_error (snd r0) p) as [c0|] eqn:Hc0.
  - apply observed_cast. exact (Hd r0 p c c0 Hr0 Hp Hm Hc0).
  - exfalso. apply nth_error_None in Hc0.
    assert (p < length (columns Xv))%nat
      by (apply nth_error_Some; congruence).
    lia.
Qed.

(* --------------------------------------------------------------------- *)
(** *** Computations that only draw random numbers                         *)
(* --------------------------------------------------------------------- *)

Section Batch.

Context {G : Type}.
Context `{HR : RandomState G} `{HV : Vectorizer} `{HN : NeighborSearch}
        `{HS : Numeric}.

Lemma agree_refl (s : state G) : agree s s.
Proof. repeat split. Qed.

Lemma agree_trans (s1 s2 s3 : state G) :
  agree s1 s2 -> agree s2 s3 -> agree s1 s3.
Proof.
  intros (H1 & H2 & H3) (H4 & H5 & H6). repeat split; congruence.
Qed.

Lemma bind_ok {A B} (c : M G A) (k : A -> M G B) (s s' : state G) (b : B) :
  bind c k s = (Ok b, s') ->
  exists a s1, c s = (Ok a, s1) /\ k a s1 = (Ok b, s').
Proof.
  unfold bind. destruct (c s) as [[a|e] s1]; [|discriminate].
  intros H. exists a, s1. split; [reflexivity|exact H].
Qed.

Lemma lift_ok {A} (r : result A) (s s' : state G) (a : A) :
  lift r s = (Ok a, s') -> r = Ok a /\ s' = s.
Proof. destruct r; simpl; intros [= <- <-]; split; reflexivity. Qed.

Lemma get_frame_ok (r : nat) (s s' : state G) (F : DataFrame) :
  get_frame r s = (Ok F, s') -> frames s !! r = Some F /\ s' = s.
Proof.
  unfold get_frame. destruct (frames s !! r); intros [= <- <-].
  split; reflexivity.
Qed.

Lemma rng_only_ret {A} (a : A) : rng_only (G:=G) (ret a).
Proof. intros s. apply agree_refl. Qed.

Lemma rng_only_raise {A} (e : exn) : rng_only (G:=G) (A:=A) (raise e).
Proof. intros s. apply agree_refl. Qed.

Lemma rng_only_lift {A} (r : result A) : rng_only (G:=G) (lift r).
Proof. destruct r; [apply rng_only_ret|apply rng_only_raise]. Qed.

Lemma rng_only_get_frame (r : nat) : rng_only (G:=G) (get_frame r).
Proof. intros s. unfold get_frame. destruct (frames s !! r); apply agree_refl. Qed.

Lemma rng_only_bind {A B} (c : M G A) (k : A -> M G B) :
  rng_only c -> (forall a, rng_only (k a)) -> rng_only (bind c k).
Proof.
  intros Hc Hk s. specialize (Hc s). unfold bind.
  destruct (c s) as [[a|e] s1]; simpl in *.
  - eapply agree_trans; [exact Hc|apply Hk].
  - exact Hc.
Qed.

Lemma rng_only_draw_below (n : nat) : rng_only (G:=G) (draw_below n).
Proof.
  intros s. unfold draw_below. destruct (rand_below (rng s) n).
  repeat split.
Qed.

Lemma rng_only_draw_normal (scale : Q) : rng_only (G:=G) (draw_normal scale).
Proof.
  intros s. unfold draw_normal. destruct (rand_normal (rng s) scale).
  repeat split.
Qed.

Lemma rng_only_draw_binomial (n : nat) (p : Q) :
  rng_only (G:=G) (draw_binomial n p).
Proof.
  intros s. unfold draw_binomial. destruct (rand_binomial (rng s) n p).
  repeat split.
Qed.

Lemma rng_only_check_scale (scale : Q) : rng_only (G:=G) (check_scale scale).
Proof.
  unfold check_scale. destruct (Qgtb 0 scale);
    [apply rng_only_raise|apply rng_only_ret].
Qed.

Lemma rng_only_check_prob (p : Q) : rng_only (G:=G) (check_prob p).
Proof.
  unfold check_prob. destruct (Qgtb 0 p); [apply rng_only_raise|].
  destruct (Qgtb p 1); [apply rng_only_raise|apply rng_only_ret].
Qed.

Lemma rng_only_fold_m {A B} (body : B -> A -> M G B) (xs : list A) (acc : B) :
  (forall b a, rng_only (body b a)) -> rng_only (fold_m body xs acc).
Proof.
  intros Hbody. revert acc. induction xs as [|x xs IH]; intros acc; simpl.
  - apply rng_only_ret.
  - apply rng_only_bind; [apply Hbody|]. intros b. apply IH.
Qed.

Ltac quiet :=
  repeat first
    [ apply rng_only_ret
    | apply rng_only_raise
    | apply rng_only_lift
    | apply rng_only_get_frame
    | apply rng_only_draw_below
    | apply rng_only_draw_normal
    | apply rng_only_draw_binomial
    | apply rng_only_check_scale
    | apply rng_only_check_prob
    | apply rng_only_bind; [|intros ?]
    | apply rng_only_fold_m; intros ? ? ].

Lemma rng_only_normal_vector (scale : Q) (size : nat) :
  rng_only (G:=G) (normal_vector scale size).
Proof. unfold normal_vector. quiet. Qed.

Lemma rng_only_binomial_vector (n : nat) (p : Q) (size : nat) :
  rng_only (G:=G) (binomial_vector n p size).
Proof. unfold binomial_vector. quiet. Qed.

Lemma rng_only_choose_distinct (size : nat) (pool : list string) :
  rng_only (G:=G) (choose_distinct size pool).
Proof.
  revert pool. induction size as [|size IH]; intros pool; simpl.
  - apply rng_only_ret.
  - apply rng_only_bind; [apply rng_only_draw_below|]. intros p.
    destruct (pool !! p); [|apply rng_only_ret].
    apply rng_only_bind; [apply IH|]. intros rest. apply rng_only_ret.
Qed.

Lemma rng_only_choice_columns (cols : list string) (size : nat) :
  rng_only (G:=G) (choice_columns cols size).
Proof.
  unfold choice_columns. destruct (_ && _)%bool; [apply rng_only_raise|].
  destruct (_ <? _)%nat; [apply rng_only_raise|].
  apply rng_only_choose_distinct.
Qed.

Lemma rng_only_sample_one (feature_data : list cell) :
  rng_only (G:=G) (sample_one feature_data).
Proof. unfold sample_one. destruct feature_data; quiet. Qed.

Lemma rng_only_munge_noise (base new_val : cell) (sc : Q) :
  rng_only (G:=G) (munge_noise base new_val sc).
Proof.
  unfold munge_noise.
  apply rng_only_bind; [apply rng_only_lift|]. intros b.
  apply rng_only_bind; [apply rng_only_lift|]. intros v.
  destruct b, v; quiet.
Qed.

(** A run of a quiet computation, read from its result. *)
Lemma rng_only_run {A} (c : M G A) (s s' : state G) (r : result A) :
  rng_only c -> c s = (r, s') -> agree s s'.
Proof. intros Hc Hrun. specialize (Hc s). rewrite Hrun in Hc. exact Hc. Qed.

(** Vectors of draws have the length asked for. *)
Lemma draws_length {A} (draw : M G A) (xs : list nat) (acc v : list A)
    (s s' : state G) :
  fold_m (fun acc _ => let* x := draw in ret (acc ++ [x])) xs acc s
  = (Ok v, s') ->
  length v = (length acc + length xs)%nat.
Proof.
  revert acc s. induction xs as [|x xs IH]; intros acc s Hrun; simpl in Hrun.
  - inversion Hrun. simpl. lia.
  - apply bind_ok in Hrun. destruct Hrun as (acc' & s1 & Hstep & Hrest).
    apply bind_ok in Hstep. destruct Hstep as (a & s2 & _ & Hret).
    inversion Hret. subst acc' s2.
    rewrite (IH _ _ Hrest), length_app. simpl. lia.
Qed.

Lemma normal_vector_length (scale : Q) (size : nat) (v : list Q)
    (s s' : state G) :
  normal_vector scale size s = (Ok v, s') -> length v = size.
Proof.
  unfold normal_vector. intros Hrun.
  apply bind_ok in Hrun. destruct Hrun as (u & s1 & _ & Hrun).
  rewrite (draws_length _ _ _ _ _ _ Hrun), length_seq. reflexivity.
Qed.

Lemma binomial_vector_length (n : nat) (p : Q) (size : nat) (v : list nat)
    (s s' : state G) :
  binomial_vector n p size s = (Ok v, s') -> length v = size.
Proof.
  unfold binomial_vector. intros Hrun.
  apply bind_ok in Hrun. destruct Hrun as (u & s1 & _ & Hrun).
  rewrite (draws_length _ _ _ _ _ _ Hrun), length_seq. reflexivity.
Qed.

(** A loop that succeeds has kept every invariant of its body, on the
    accumulator and the state together. *)
Lemma fold_m_ok {A B} (J : B -> state G -> Prop) (body : B -> A -> M G B)
    (xs : list A) (acc b : B) (s s' : state G) :
  (forall b0 x s1 b1 s2,
     In x xs -> J b0 s1 -> body b0 x s1 = (Ok b1, s2) -> J b1 s2) ->
  J acc s -> fold_m body xs acc s = (Ok b, s') -> J b s'.
Proof.
  revert acc s. induction xs as [|x xs IH]; intros acc s Hbody HJ Hrun;
    simpl in Hrun.
  - inversion Hrun. subst. exact HJ.
  - apply bind_ok in Hrun. destruct Hrun as (acc' & s1 & Hstep & Hrest).
    refine (IH acc' s1 _ (Hbody _ _ _ _ _ (or_introl eq_refl) HJ Hstep) Hrest).
    intros b0 y sa b1 sb Hy. apply Hbody. right. exact Hy.
Qed.

Lemma for_each_ok {A} (I : state G -> Prop) (body : A -> M G unit)
    (xs : list A) (u : unit) (s s' : state G) :
  (forall x s1 u1 s2, In x xs -> I s1 -> body x s1 = (Ok u1, s2) -> I s2) ->
  I s -> for_each xs body s = (Ok u, s') -> I s'.
Proof.
  intros Hbody. unfold for_each. apply (fold_m_ok (fun _ => I)).
  intros _ x s1 b1 s2. apply Hbody.
Qed.

(** A uniform draw from a non-empty range stays inside it. *)
Lemma draw_below_ok (n p : nat) (s s' : state G) :
  n <> 0%nat -> draw_below n s = (Ok p, s') -> (p < n)%nat.
Proof.
  intros Hn. unfold draw_below. destruct (rand_below (rng s) n) as [r g].
  intros [= <- _]. apply Nat.mod_upper_bound. exact Hn.
Qed.

(** The sampled value is one of the values of the column. *)
Lemma sample_one_ok (feature_data : list cell) (v : cell) (s s' : state G) :
  sample_one feature_data s = (Ok v, s') -> In v feature_data.
Proof.
  unfold sample_one. destruct feature_data as [|c fd]; [discriminate|].
  set (l := c :: fd). intros Hrun.
  apply bind_ok in Hrun. destruct Hrun as (p & s1 & Hdraw & Hret).
  unfold ret in Hret.
  assert (Hv : nth p l c = v) by congruence. rewrite <- Hv.
  apply nth_In. refine (draw_below_ok _ _ _ _ _ Hdraw). discriminate.
Qed.

Section Invariant.

Variables (X_aug X' : nat) (P P' : DataFrame -> Prop) (s0 : state G).

Lemma batch_inv_agree (s s' : state G) :
  agree s s' -> batch_inv X_aug X' P P' s0 s -> batch_inv X_aug X' P P' s0 s'.
Proof.
  intros (Hf & Hd & Ht) (H1 & H2 & H3 & H4 & H5). unfold batch_inv.
  rewrite Hf, Hd, Ht. repeat split; assumption.
Qed.

Lemma batch_inv_quiet {A} (c : M G A) (s s' : state G) (r : result A) :
  rng_only c -> c s = (r, s') ->
  batch_inv X_aug X' P P' s0 s -> batch_inv X_aug X' P P' s0 s'.
Proof.
  intros Hc Hrun. apply batch_inv_agree. exact (rng_only_run c s s' r Hc Hrun).
Qed.

(** The frame a sampler reads rows from. *)
Lemma batch_inv_source (s s' : state G) (Xc : DataFrame) :
  batch_inv X_aug X' P P' s0 s -> get_frame X' s = (Ok Xc, s') ->
  P' Xc /\ s' = s.
Proof.
  intros (_ & _ & _ & _ & F' & HF' & HP') Hget.
  apply get_frame_ok in Hget. destruct Hget as [HXc ->].
  split; [|reflexivity]. congruence.
Qed.

(** The batch. *)
Lemma batch_inv_batch (s s' : state G) (F : DataFrame) :
  batch_inv X_aug X' P P' s0 s -> get_frame X_aug s = (Ok F, s') ->
  P F /\ s' = s.
Proof.
  intros (_ & _ & _ & (F0 & HF0 & HP) & _) Hget.
  apply get_frame_ok in Hget. destruct Hget as [HXc ->].
  split; [|reflexivity]. congruence.
Qed.

(** An in-place update of the batch by an operation that keeps [P]. *)
Lemma batch_inv_update (f : DataFrame -> result DataFrame) (s s' : state G)
    (u : unit) :
  X' <> X_aug ->
  (forall F F', P F -> f F = Ok F' -> P F') ->
  update_frame X_aug f s = (Ok u, s') ->
  batch_inv X_aug X' P P' s0 s -> batch_inv X_aug X' P P' s0 s'.
Proof.
  intros Hne Hf Hrun (H1 & H2 & H3 & (F & HF & HP) & (F' & HF' & HP')).
  unfold update_frame in Hrun.
  apply bind_ok in Hrun. destruct Hrun as (F0 & s1 & Hget & Hrun).
  apply get_frame_ok in Hget. destruct Hget as [HF0 ->].
  apply bind_ok in Hrun. destruct Hrun as (F1 & s2 & Hlift & Hput).
  apply lift_ok in Hlift. destruct Hlift as [HfF ->].
  unfold put_frame in Hput. inversion Hput. subst s'. clear Hput.
  assert (F0 = F) by congruence. subst F0.
  unfold batch_inv. cbn [frames dicts trace].
  split; [exact H1|]. split; [exact H2|]. split; [|split].
  - intros r Hr Hr'. rewrite lookup_insert_ne by congruence. apply H3; assumption.
  - exists F1. split; [apply lookup_insert_eq|]. exact (Hf F F1 HP HfF).
  - exists F'. split; [|exact HP']. rewrite lookup_insert_ne by congruence.
    exact HF'.
Qed.

(** An in-place update of the frame the rows are read from, by an operation
    that keeps [P']. *)
Lemma batch_inv_update_source (f : DataFrame -> result DataFrame)
    (s s' : state G) (u : unit) :
  X' <> X_aug ->
  (forall F F', P' F -> f F = Ok F' -> P' F') ->
  update_frame X' f s = (Ok u, s') ->
  batch_inv X_aug X' P P' s0 s -> batch_inv X_aug X' P P' s0 s'.
Proof.
  intros Hne Hf Hrun (H1 & H2 & H3 & (F & HF & HP) & (F' & HF' & HP')).
  unfold update_frame in Hrun.
  apply bind_ok in Hrun. destruct Hrun as (F0 & s1 & Hget & Hrun).
  apply get_frame_ok in Hget. destruct Hget as [HF0 ->].
  apply bind_ok in Hrun. destruct Hrun as (F1 & s2 & Hlift & Hput).
  apply lift_ok in Hlift. destruct Hlift as [HfF ->].
  unfold put_frame in Hput. inversion Hput. subst s'. clear Hput.
  assert (F0 = F') by congruence. subst F0.
  unfold batch_inv. cbn [frames dicts trace].
  split; [exact H1|]. split; [exact H2|]. split; [|split].
  - intros r Hr Hr'. rewrite lookup_insert_ne by congruence. apply H3; assumption.
  - exists F. split; [|exact HP]. rewrite lookup_insert_ne by exact Hne.
    exact HF.
  - exists F1. split; [apply lookup_insert_eq|]. exact (Hf F' F1 HP' HfF).
Qed.

End Invariant.

End Batch.

(* --------------------------------------------------------------------- *)
(** *** The samplers when they return                                      *)
(* --------------------------------------------------------------------- *)

Section Samplers.

Context {G : Type}.
Context `{HR : RandomState G} `{HV : Vectorizer} `{HN : NeighborSearch}
        `{HS : Numeric}.

(** Lines 76-77 / 140-141, when they succeed. *)
Lemma new_batch_ok (X X_aug : nat) (Xv : DataFrame) (cont : list string)
    (v : argval) (s s' : state G) :
  frames s !! X = Some Xv -> List.NoDup (columns Xv) ->
  new_batch X v s = (Ok X_aug, s') ->
  exists k B,
    v = AInt k /\ (0 < k)%Z
    /\ frames s !! X_aug = None
    /\ s' = mkState (<[X_aug := B]> (frames s)) (dicts s) (rng s) (trace s)
    /\ batch_of Xv cont (Z.to_nat k) B.
Proof.
  intros HX Hnd Hrun. unfold new_batch in Hrun.
  apply bind_ok in Hrun as (Xv' & s1 & H1 & Hrun).
  apply get_frame_ok in H1 as [HX' ->].
  assert (Xv' = Xv) by congruence. subst Xv'.
  apply bind_ok in Hrun as (first & s1 & H1 & Hrun).
  apply lift_ok in H1 as [Hfirst ->].
  destruct v as [k|x]; [|discriminate].
  apply bind_ok in Hrun as (cat & s1 & H1 & Hrun).
  apply lift_ok in H1 as [Hcat ->].
  assert (Hk : (0 < Z.to_nat k)%nat).
  { destruct (Z.to_nat k) eqn:E; [discriminate|lia]. }
  apply bind_ok in Hrun as (r & s1 & H1 & Hrun).
  unfold alloc_frame in H1. inversion H1. subst r s1. clear H1.
  apply bind_ok in Hrun as (u & s1 & H1 & Hrun).
  unfold put_frame in H1. inversion H1. subst s1. clear H1.
  inversion Hrun. subst X_aug s'. clear Hrun.
  exists k, (reset_index cat). cbn [frames dicts rng trace].
  split; [reflexivity|]. split; [lia|]. split.
  { apply not_elem_of_dom. apply is_fresh. }
  split; [rewrite insert_insert_eq; reflexivity|]. split.
  - exact (repeated_first_shaped Xv first cat (Z.to_nat k) Hnd Hk Hfirst Hcat).
  - intros Hrect.
    exact (repeated_first_drawn Xv first cat cont (Z.to_nat k) Hnd Hk Hrect
             Hfirst Hcat).
Qed.

Lemma source_of_self (Xv : DataFrame) (cont : list string) :
  source_of Xv cont Xv.
Proof.
  split; [reflexivity|]. intros Hrect. split; [exact Hrect|].
  apply drawn_from_self.
Qed.

Lemma batch_inv_start (X_aug X' : nat) (P P' : DataFrame -> Prop)
    (s : state G) (B Xc : DataFrame) :
  frames s !! X_aug = Some B -> P B ->
  frames s !! X' = Some Xc -> P' Xc ->
  batch_inv X_aug X' P P' s s.
Proof.
  intros HB HP HX HP'. repeat split; eauto.
Qed.

Lemma mem_string_In (c : string) (l : list string) :
  In c l -> mem_string c l = true.
Proof.
  intros Hin. unfold mem_string. apply existsb_exists.
  exists c. split; [exact Hin|apply String.eqb_refl].
Qed.

Section Steps.

Variables (Xv : DataFrame) (cont : list string) (n : nat).
Hypothesis Hnd : List.NoDup (columns Xv).

Lemma set_row_batch (F F' : DataFrame) (i : nat) (row : Row) :
  batch_of Xv cont n F ->
  (rectangular Xv -> row_drawn_from Xv cont row) ->
  set_row F i row = Ok F' -> batch_of Xv cont n F'.
Proof.
  intros [Hsh Hd] Hrow Hset. split.
  - exact (set_row_shaped n (columns Xv) F F' i row Hsh Hset).
  - intros Hrect.
    exact (set_row_drawn Xv cont F F' i row (proj1 (proj2 Hsh)) (Hd Hrect)
             (Hrow Hrect) Hset).
Qed.

Lemma set_column_batch (F F' : DataFrame) (feature : string) (d : dtype)
    (vals : list cell) :
  batch_of Xv cont n F -> length vals = n ->
  mem_string feature cont = true ->
  set_column F feature d vals = Ok F' -> batch_of Xv cont n F'.
Proof.
  intros [Hsh Hd] Hlen Hmem Hset. split.
  - exact (set_column_shaped n (columns Xv) F F' feature d vals Hsh Hlen Hset).
  - intros Hrect.
    exact (set_column_drawn Xv cont F F' feature d vals (proj1 (proj2 Hsh))
             (Hd Hrect) Hmem Hset).
Qed.

Lemma set_column_source (F F' : DataFrame) (feature : string) (d : dtype)
    (vals : list cell) :
  source_of Xv cont F -> mem_string feature cont = true ->
  set_column F feature d vals = Ok F' -> source_of Xv cont F'.
Proof.
  intros [Hcols Hd] Hmem Hset. split.
  - rewrite (set_column_columns F F' feature d vals Hset). exact Hcols.
  - intros Hrect. destruct (Hd Hrect) as [Hr Hdr]. split.
    + exact (set_column_rectangular F F' feature d vals Hr Hset).
    + exact (set_column_drawn Xv cont F F' feature d vals Hcols Hdr Hmem Hset).
Qed.

Variables (X_aug X' : nat) (s0 : state G).
Hypothesis Hne : X' <> X_aug.

Local Abbreviation inv :=
  (batch_inv X_aug X' (batch_of Xv cont n) (source_of Xv cont) s0).

Lemma spunge_row_inv (bound : Z) (i : nat) (s s' : state G) (u : unit) :
  inv s -> spunge_row X' X_aug bound i s = (Ok u, s') -> inv s'.
Proof.
  intros HI Hrun. unfold spunge_row in Hrun.
  apply bind_ok in Hrun as (Xc & s1 & H1 & Hrun).
  destruct (batch_inv_source _ _ _ _ _ _ _ _ HI H1) as [[Hcols Hsrc] ->].
  clear H1.
  apply bind_ok in Hrun as (row & s1 & H1 & Hrun).
  apply lift_ok in H1 as [Hrow ->].
  assert (Hrowd : rectangular Xv -> row_drawn_from Xv cont row).
  { intros Hrect. destruct (Hsrc Hrect) as [Hrc Hd].
    exact (iloc_row_drawn Xv Xc cont _ row Hnd Hcols Hrc Hd Hrow). }
  apply bind_ok in Hrun as (r & s1 & H1 & Hrun).
  apply (batch_inv_quiet _ _ _ _ _ _ _ _ _ (rng_only_draw_below _) H1) in HI.
  apply bind_ok in Hrun as (picked & s2 & H2 & Hrun).
  apply (batch_inv_quiet _ _ _ _ _ _ _ _ _ (rng_only_choice_columns _ _) H2) in HI.
  apply bind_ok in Hrun as (row' & s3 & H3 & Hrun).
  assert (HJ : inv s3 /\ (rectangular Xv -> row_drawn_from Xv cont row')).
  { refine (fold_m_ok
              (fun b st => inv st
                           /\ (rectangular Xv -> row_drawn_from Xv cont b))
              _ _ _ _ _ _ _ (conj HI Hrowd) H3).
    intros b0 feature sa b1 sb _ [Ha Hb0] Hbody.
    apply bind_ok in Hbody as (fd & sc & Hc & Hbody).
    apply lift_ok in Hc as [Hfd ->].
    apply bind_ok in Hbody as (v & sc & Hc & Hbody).
    inversion Hbody. subst b1 sc. clear Hbody. split.
    - exact (batch_inv_quiet _ _ _ _ _ _ _ _ _ (rng_only_sample_one _) Hc Ha).
    - intros Hrect. apply row_set_drawn; [exact (Hb0 Hrect)|].
      intros p Hp Hm. destruct (Hsrc Hrect) as [Hrc Hd].
      exact (get_column_drawn Xv Xc cont feature fd p v Hnd Hcols Hrc Hd Hfd
               (sample_one_ok _ _ _ _ Hc) Hp Hm). }
  destruct HJ as [HI3 Hrow'].
  refine (batch_inv_update _ _ _ _ _ _ _ _ _ Hne _ Hrun HI3).
  intros F F' HF Hset. exact (set_row_batch F F' i row' HF Hrow' Hset).
Qed.

Lemma spunge_noise_inv (fp noise : Q) (feature : string) (s s' : state G)
    (u : unit) :
  inv s -> spunge_noise X' X_aug cont n fp noise feature s = (Ok u, s') ->
  inv s'.
Proof.
  intros HI Hrun. unfold spunge_noise in Hrun.
  destruct (mem_string feature cont) eqn:Hmem.
  2:{ inversion Hrun. subst. exact HI. }
  apply bind_ok in Hrun as (Xc & s1 & H1 & Hrun).
  apply get_frame_ok in H1 as [HX ->].
  apply bind_ok in Hrun as (fd & s1 & H1 & Hrun).
  apply lift_ok in H1 as [Hfd ->].
  apply bind_ok in Hrun as (Xa & s1 & H1 & Hrun).
  destruct (batch_inv_batch _ _ _ _ _ _ _ _ HI H1) as [[HshA _] ->]. clear H1.
  apply bind_ok in Hrun as (aug & s1 & H1 & Hrun).
  apply lift_ok in H1 as [Haug ->].
  apply bind_ok in Hrun as (obs & s1 & H1 & Hrun).
  apply lift_ok in H1 as [Hobs ->].
  assert (Hlen : length aug = n).
  { rewrite (get_column_length Xa feature aug Haug). exact (proj1 HshA). }
  apply bind_ok in Hrun as (nv & s1 & H1 & Hrun).
  pose proof (normal_vector_length _ _ _ _ _ H1) as Hnv.
  apply (batch_inv_quiet _ _ _ _ _ _ _ _ _ (rng_only_normal_vector _ _) H1) in HI.
  apply bind_ok in Hrun as (mk & s2 & H2 & Hrun).
  pose proof (binomial_vector_length _ _ _ _ _ _ H2) as Hmk.
  apply (batch_inv_quiet _ _ _ _ _ _ _ _ _ (rng_only_binomial_vector _ _ _) H2) in HI.
  apply bind_ok in Hrun as (an & s3 & H3 & Hrun).
  apply lift_ok in H3 as [Han ->].
  refine (batch_inv_update _ _ _ _ _ _ _ _ _ Hne _ Hrun HI).
  intros F F' HF Hset.
  refine (set_column_batch F F' feature Float64 _ HF _ Hmem Hset).
  rewrite add_noise_length, (cells_num_length _ _ Han), Hlen, Hnv, Hmk. lia.
Qed.

Lemma munge_row_inv (neigh_ind : list nat) (p sc : Q) (i : nat)
    (s s' : state G) (u : unit) :
  inv s -> munge_row X' X_aug neigh_ind cont p sc i s = (Ok u, s') -> inv s'.
Proof.
  intros HI Hrun. unfold munge_row in Hrun.
  apply bind_ok in Hrun as (Xc & s1 & H1 & Hrun).
  destruct (batch_inv_source _ _ _ _ _ _ _ _ HI H1) as [[Hcols Hsrc] ->].
  clear H1.
  apply bind_ok in Hrun as (row & s1 & H1 & Hrun).
  apply lift_ok in H1 as [Hrow ->].
  apply bind_ok in Hrun as (j & s1 & H1 & Hrun).
  apply lift_ok in H1 as [Hj ->].
  apply bind_ok in Hrun as (nb & s1 & H1 & Hrun).
  apply lift_ok in H1 as [Hnb ->].
  assert (Hrowd : rectangular Xv -> row_drawn_from Xv cont row).
  { intros Hrect. destruct (Hsrc Hrect) as [Hrc Hd].
    exact (iloc_row_drawn Xv Xc cont _ row Hnd Hcols Hrc Hd Hrow). }
  assert (Hnbd : rectangular Xv -> row_drawn_from Xv cont nb).
  { intros Hrect. destruct (Hsrc Hrect) as [Hrc Hd].
    exact (iloc_row_drawn Xv Xc cont _ nb Hnd Hcols Hrc Hd Hnb). }
  apply bind_ok in Hrun as (u1 & s1 & H1 & Hrun).
  apply (batch_inv_quiet _ _ _ _ _ _ _ _ _ (rng_only_check_prob _) H1) in HI.
  apply bind_ok in Hrun as (k & s2 & H2 & Hrun).
  apply (batch_inv_quiet _ _ _ _ _ _ _ _ _ (rng_only_draw_binomial _ _) H2) in HI.
  apply bind_ok in Hrun as (picked & s3 & H3 & Hrun).
  apply (batch_inv_quiet _ _ _ _ _ _ _ _ _ (rng_only_choice_columns _ _) H3) in HI.
  apply bind_ok in Hrun as (row' & s4 & H4 & Hrun).
  assert (HJ : inv s4 /\ (rectangular Xv -> row_drawn_from Xv cont row')).
  { refine (fold_m_ok
              (fun b st => inv st
                           /\ (rectangular Xv -> row_drawn_from Xv cont b))
              _ _ _ _ _ _ _ (conj HI Hrowd) H4).
    intros b0 col sa b1 sb _ [Ha Hb0] Hbody.
    apply bind_ok in Hbody as (new_val & sc0 & Hc & Hbody).
    apply lift_ok in Hc as [Hnew ->].
    apply bind_ok in Hbody as (new_val' & sc0 & Hc & Hbody).
    inversion Hbody. subst b1 sc0. clear Hbody. split.
    - refine (batch_inv_quiet _ _ _ _ _ _ _ _ _ _ Hc Ha).
      destruct (mem_string col cont); [|apply rng_only_ret].
      apply rng_only_bind; [apply rng_only_lift|]. intros base.
      apply rng_only_munge_noise.
    - intros Hrect. apply row_set_drawn; [exact (Hb0 Hrect)|].
      intros q Hq Hm. rewrite Hm in Hc. inversion Hc. subst new_val'.
      destruct (Hnbd Hrect q col Hq Hm) as (v & Hv & Hobs).
      assert (v = new_val) by congruence. subst v. exact Hobs. }
  destruct HJ as [HI4 Hrow'].
  refine (batch_inv_update _ _ _ _ _ _ _ _ _ Hne _ Hrun HI4).
  intros F F' HF Hset. exact (set_row_batch F F' i row' HF Hrow' Hset).
Qed.

Lemma cast_continuous_inv (col : string) (s s' : state G) (u : unit) :
  mem_string col cont = true ->
  inv s -> cast_continuous X_aug X' col s = (Ok u, s') -> inv s'.
Proof.
  intros Hmem HI Hrun. unfold cast_continuous in Hrun.
  apply bind_ok in Hrun as (u1 & s1 & H1 & Hrun).
  assert (HI1 : inv s1).
  { refine (batch_inv_update _ _ _ _ _ _ _ _ _ Hne _ H1 HI).
    intros F F' HF Hcast.
    destruct (get_column F col) as [vals|] eqn:Hvals; [|discriminate].
    destruct (astype_float vals) as [vals'|] eqn:Hast; [|discriminate].
    refine (set_column_batch F F' col Float64 vals' HF _ Hmem Hcast).
    rewrite (astype_float_length _ _ Hast), (get_column_length _ _ _ Hvals).
    exact (proj1 (proj1 HF)). }
  refine (batch_inv_update_source _ _ _ _ _ _ _ _ _ Hne _ Hrun HI1).
  intros F F' HF Hcast.
  destruct (get_column F col) as [vals|] eqn:Hvals; [|discriminate].
  destruct (astype_float vals) as [vals'|] eqn:Hast; [|discriminate].
  exact (set_column_source F F' col Float64 vals' HF Hmem Hcast).
Qed.

End Steps.

(** The fast sampler, when it returns. *)
Lemma spunge_ok (X r : nat) (Xv : DataFrame)
    (ftm : gmap string (list string)) (v : argval) (x : pyfloat) (noise : Q)
    (s s' : state G) :
  frames s !! X = Some Xv -> List.NoDup (columns Xv) ->
  spunge_augment X ftm v x noise s = (Ok r, s') ->
  exists k F,
    v = AInt k /\ (0 < k)%Z
    /\ frames s !! r = None
    /\ frames s' !! r = Some F
    /\ batch_of Xv (continuous_features ftm) (Z.to_nat k) F
    /\ (forall r', r' <> r -> frames s' !! r' = frames s !! r')
    /\ dicts s' = dicts s
    /\ trace s' = trace s ++ [EvLog 20].
Proof.
  intros HX Hnd Hrun.
  pose proof (keeps_spunge X Xv X ftm v x noise s HX) as [Hkept _].
  rewrite Hrun in Hkept. cbn [snd] in Hkept.
  unfold spunge_augment in Hrun.
  destruct x as [fp|]; [|discriminate].
  destruct (Qgtb fp 1); [discriminate|].
  apply bind_ok in Hrun as (u & s1 & H1 & Hrun).
  rewrite log_run in H1. inversion H1. subst u s1. clear H1.
  apply bind_ok in Hrun as (Xv' & s1 & H1 & Hrun).
  apply get_frame_ok in H1 as [HX' ->]. cbn [logged frames] in HX'.
  assert (Xv' = Xv) by congruence. subst Xv'.
  apply bind_ok in Hrun as (X_aug & s1 & H1 & Hrun).
  set (cont := continuous_features ftm) in *.
  destruct (new_batch_ok X X_aug Xv cont v (logged s [EvLog 20]) s1 HX' Hnd H1)
    as (k & B & -> & Hk & Hfresh & -> & HB).
  cbn [logged frames dicts rng trace] in *.
  assert (Hne : X <> X_aug) by (intros ->; congruence).
  set (s1 := mkState (<[X_aug := B]> (frames s)) (dicts s) (rng s)
                     (trace s ++ [EvLog 20])) in *.
  set (n := Z.to_nat k) in *.
  assert (HI : batch_inv X_aug X (batch_of Xv cont n) (source_of Xv cont) s1 s1).
  { apply (batch_inv_start _ _ _ _ _ B Xv);
      [apply lookup_insert_eq|exact HB| |apply source_of_self].
    unfold s1. cbn [frames]. rewrite lookup_insert_ne by congruence. exact HX. }
  apply bind_ok in Hrun as (u2 & s2 & H2 & Hrun).
  assert (HI2 : batch_inv X_aug X (batch_of Xv cont n) (source_of Xv cont) s1 s2).
  { refine (for_each_ok _ _ _ _ _ _ _ HI H2).
    intros i sa ua sb _ Ha Hb.
    exact (spunge_row_inv Xv cont n Hnd X_aug X s1 Hne _ _ _ _ _ Ha Hb). }
  apply bind_ok in Hrun as (u3 & s3 & H3 & Hrun).
  assert (HI3 : batch_inv X_aug X (batch_of Xv cont n) (source_of Xv cont) s1 s3).
  { refine (for_each_ok _ _ _ _ _ _ _ HI2 H3).
    intros f sa ua sb _ Ha Hb. simpl sample_range in Hb.
    unfold py_range in Hb. rewrite length_seq in Hb.
    exact (spunge_noise_inv Xv cont n X_aug X s1 Hne _ _ _ _ _ _ Ha Hb). }
  inversion Hrun. subst r s'. clear Hrun.
  destruct HI3 as (Hd & Ht & Hothers & (F & HF & HPF) & _).
  exists k, F. split; [reflexivity|]. split; [exact Hk|].
  split; [exact Hfresh|]. split; [exact HF|]. split; [exact HPF|].
  split; [|split; [exact Hd|exact Ht]].
  intros r' Hr'. destruct (decide (r' = X)) as [->|Hr'X].
  - rewrite Hkept, HX. reflexivity.
  - rewrite (Hothers r' Hr' Hr'X). unfold s1. cbn [frames].
    apply lookup_insert_ne. congruence.
Qed.

(** The neighbour sampler, when it returns. *)
Lemma munge_ok (X r : nat) (Xv : DataFrame)
    (ftm : gmap string (list string)) (v : argval) (x : pyfloat) (sc : Q)
    (s s' : state G) :
  frames s !! X = Some Xv -> List.NoDup (columns Xv) ->
  munge_augment X ftm v x sc s = (Ok r, s') ->
  exists k F V,
    v = AInt k /\ (0 < k)%Z
    /\ vectorize Xv = Ok V
    /\ frames s !! r = None
    /\ frames s' !! r = Some F
    /\ batch_of Xv (continuous_features ftm) (Z.to_nat k) F
    /\ (forall r' Y, frames s !! r' = Some Y -> frames s' !! r' = Some Y)
    /\ dicts s' = dicts s
    /\ trace s' = trace s ++ [EvVectorize (len Xv);
                              EvKneighbors 2 (length V); EvLog 20].
Proof.
  intros HX Hnd Hrun. unfold munge_augment in Hrun.
  apply bind_ok in Hrun as (Xv' & s1 & H1 & Hrun).
  apply get_frame_ok in H1 as [HX' ->].
  assert (Xv' = Xv) by congruence. subst Xv'.
  apply bind_ok in Hrun as (u & s1 & H1 & Hrun).
  rewrite emit_run in H1. inversion H1. subst u s1. clear H1.
  apply bind_ok in Hrun as (V & s1 & H1 & Hrun).
  apply lift_ok in H1 as [HVec ->].
  apply bind_ok in Hrun as (u & s1 & H1 & Hrun).
  rewrite emit_run, logged_logged in H1. inversion H1. subst u s1. clear H1.
  apply bind_ok in Hrun as (N & s1 & H1 & Hrun).
  apply lift_ok in H1 as [HK ->].
  apply bind_ok in Hrun as (js & s1 & H1 & Hrun).
  apply lift_ok in H1 as [HC ->].
  destruct x as [p|]; [|discriminate].
  destruct (Qgtb p 1); [discriminate|].
  apply bind_ok in Hrun as (u & s1 & H1 & Hrun).
  rewrite log_run, logged_logged in H1. inversion H1. subst u s1. clear H1.
  simpl app in Hrun.
  apply bind_ok in Hrun as (X' & s1 & H1 & Hrun).
  unfold alloc_frame in H1. inversion H1. subst X' s1. clear H1.
  cbn [logged frames dicts rng trace] in Hrun.
  set (X' := fresh (dom (frames s))) in *.
  assert (HX'fresh : frames s !! X' = None).
  { apply not_elem_of_dom. apply is_fresh. }
  set (sa := mkState (<[X' := Xv]> (frames s)) (dicts s) (rng s)
                     (trace s ++ [EvVectorize (len Xv);
                                  EvKneighbors 2 (length V); EvLog 20])) in *.
  apply bind_ok in Hrun as (X_aug & s1 & H1 & Hrun).
  assert (HXa : frames sa !! X' = Some Xv) by apply lookup_insert_eq.
  set (cont := continuous_features ftm) in *.
  destruct (new_batch_ok X' X_aug Xv cont v sa s1 HXa Hnd H1)
    as (k & B & -> & Hk & Hfresh & -> & HB).
  cbn [frames dicts rng trace] in *.
  assert (Hne : X' <> X_aug).
  { intros Heq. rewrite <- Heq in Hfresh. unfold sa in Hfresh.
    cbn [frames] in Hfresh. rewrite lookup_insert_eq in Hfresh. discriminate. }
  set (s1 := mkState (<[X_aug := B]> (frames sa)) (dicts sa) (rng sa)
                     (trace sa)) in *.
  set (n := Z.to_nat k) in *.
  assert (HI : batch_inv X_aug X' (batch_of Xv cont n) (source_of Xv cont) s1 s1).
  { apply (batch_inv_start _ _ _ _ _ B Xv);
      [apply lookup_insert_eq|exact HB| |apply source_of_self].
    unfold s1. cbn [frames]. rewrite lookup_insert_ne by congruence. exact HXa. }
  apply bind_ok in Hrun as (u2 & s2 & H2 & Hrun).
  assert (HI2 : batch_inv X_aug X' (batch_of Xv cont n) (source_of Xv cont) s1 s2).
  { refine (for_each_ok _ _ _ _ _ _ _ HI H2).
    intros c sb ub sc' Hin Hb Hc.
    exact (cast_continuous_inv Xv cont n X_aug X' s1 Hne c _ _ _
             (mem_string_In c cont Hin) Hb Hc). }
  apply bind_ok in Hrun as (u3 & s3 & H3 & Hrun).
  assert (HI3 : batch_inv X_aug X' (batch_of Xv cont n) (source_of Xv cont) s1 s3).
  { refine (for_each_ok _ _ _ _ _ _ _ HI2 H3).
    intros i sb ub sc' _ Hb Hc.
    exact (munge_row_inv Xv cont n Hnd X_aug X' s1 Hne _ _ _ _ _ _ _ Hb Hc). }
  inversion Hrun. subst r s'. clear Hrun.
  destruct HI3 as (Hd & Ht & Hothers & (F & HF & HPF) & _).
  exists k, F, V. split; [reflexivity|]. split; [exact Hk|].
  split; [exact HVec|]. split.
  { unfold sa in Hfresh. cbn [frames] in Hfresh.
    rewrite lookup_insert_ne in Hfresh by exact Hne. exact Hfresh. }
  split; [exact HF|]. split; [exact HPF|].
  split; [|split; [exact Hd|exact Ht]].
  intros r' Y HY.
  assert (Hr1 : r' <> X') by (intros ->; congruence).
  assert (Hr2 : r' <> X_aug).
  { intros ->. unfold sa in Hfresh. cbn [frames] in Hfresh.
    rewrite lookup_insert_ne in Hfresh by exact Hne. congruence. }
  rewrite (Hothers r' Hr2 Hr1). unfold s1, sa. cbn [frames].
  rewrite lookup_insert_ne by congruence.
  rewrite lookup_insert_ne by congruence. exact HY.
Qed.

End Samplers.

(* --------------------------------------------------------------------- *)
(** *** The dispatcher when it returns                                     *)
(* --------------------------------------------------------------------- *)

Section EndToEnd.

Context {G : Type}.
Context `{HR : RandomState G} `{HV : Vectorizer} `{HN : NeighborSearch}
        `{HS : Numeric}.

(** Lines 53-59 on two frames of the store. *)
Lemma postprocess_run (s : state G) (X_aug X : nat) (Xa Xv : DataFrame) :
  frames s !! X = Some Xv ->
  frames s !! X_aug = Some Xa ->
  exists (r : nat) (Yv : DataFrame),
    postprocess_augmented X_aug X s
    = (Ok r, mkState (<[r := Yv]> (frames s)) (dicts s) (rng s)
                     (trace s ++ [EvLog 15]))
    /\ frames s !! r = None
    /\ len Yv = len Xa
    /\ index Yv = range_index 0 (len Xa)
    /\ (List.NoDup (columns Xv) -> columns Xa = columns Xv ->
        columns Yv = columns Xv)
    /\ (forall cont,
          List.NoDup (columns Xv) -> columns Xa = columns Xv ->
          Forall (fun r : Z * list cell =>
                    length (snd r) = length (columns Xv)) (df_rows Xa) ->
          drawn_from Xv cont Xa -> drawn_from Xv cont Yv).
Proof.
  intros HX HXa.
  destruct (concat_two Xv Xa) as (schema & Hschema & Hcat).
  unfold postprocess_augmented, bind, get_frame, lift, log, emit, alloc_frame.
  rewrite HX, HXa, Hcat. cbn [ret frames dicts rng trace].
  set (cat := {| df_columns := schema;
                 df_rows := map (reindex_row Xv schema) (df_rows Xv)
                            ++ map (reindex_row Xa schema) (df_rows Xa) |}).
  set (tail := df_tail (Z.of_nat (len cat) - Z.of_nat (len Xv)) cat).
  assert (Htail : df_rows tail = map (reindex_row Xa schema) (df_rows Xa)).
  { unfold tail, cat, len. simpl df_rows at 2.
    rewrite <- (length_map (reindex_row Xv schema) (df_rows Xv)).
    apply tail_of_concat. }
  assert (Hlen : len tail = len Xa).
  { unfold len. rewrite Htail. apply length_map. }
  exists (fresh (dom (frames s))), (reset_index tail).
  split; [reflexivity|]. split.
  { apply not_elem_of_dom. apply is_fresh. }
  split; [rewrite reset_index_len; exact Hlen|].
  split; [rewrite reset_index_index, Hlen; reflexivity|].
  split.
  - intros Hnd Hsame. unfold columns at 1. simpl. rewrite Hschema.
    rewrite schema_names. apply concat_columns_same; assumption.
  - intros cont Hnd Hsame Hw Hd. apply reset_index_drawn.
    refine (reindex_rows_drawn Xv Xa tail cont schema Hnd Hsame _ Hw Hd Htail).
    rewrite Hschema, schema_names. apply concat_columns_same; assumption.
Qed.

(** The sampler call of line 45 or 47, when it returns. *)
Lemma sampler_call_ok (s1 s2 : state G) (X a X_aug : nat) (Xv : DataFrame)
    (ftm : gmap string (list string)) (m : string)
    (d : gmap string argval) (v : argval) :
  frames s1 !! X = Some Xv -> List.NoDup (columns Xv) ->
  dicts s1 !! a = Some d -> d !! "num_augmented_samples" = Some v ->
  (if String.eqb m "spunge" then call_spunge X ftm a
   else if String.eqb m "munge" then call_munge X ftm a
   else raise (ValueError ("unknown augment_method: " ++ m))) s1
  = (Ok X_aug, s2) ->
  (m = "spunge" \/ m = "munge")
  /\ exists k F,
       v = AInt k /\ (0 < k)%Z
       /\ frames s1 !! X_aug = None
       /\ frames s2 !! X_aug = Some F
       /\ batch_of Xv (continuous_features ftm) (Z.to_nat k) F
       /\ frames s2 !! X = Some Xv
       /\ dicts s2 = dicts s1.
Proof.
  intros HX Hnd Hd Hv Hrun.
  destruct (String.eqb m "spunge") eqn:E1.
  - apply String.eqb_eq in E1. split; [left; exact E1|].
    unfold call_spunge in Hrun.
    apply bind_ok in Hrun as (args & s & H & Hrun).
    unfold get_dict in H. rewrite Hd in H. inversion H. subst args s. clear H.
    apply bind_ok in Hrun as (u & s & H & Hrun).
    apply lift_ok in H as [_ ->].
    apply bind_ok in Hrun as (noise & s & H & Hrun).
    apply lift_ok in H as [_ ->].
    rewrite Hv in Hrun. simpl default in Hrun.
    destruct (spunge_ok X X_aug Xv ftm v _ noise s1 s2 HX Hnd Hrun)
      as (k & F & -> & Hk & Hfresh & HF & Hsh & Hothers & Hdicts & _).
    exists k, F.
    split; [reflexivity|]. split; [exact Hk|]. split; [exact Hfresh|].
    split; [exact HF|]. split; [exact Hsh|]. split; [|exact Hdicts].
    rewrite Hothers by congruence. exact HX.
  - destruct (String.eqb m "munge") eqn:E2; [|discriminate].
    apply String.eqb_eq in E2. split; [right; exact E2|].
    unfold call_munge in Hrun.
    apply bind_ok in Hrun as (args & s & H & Hrun).
    unfold get_dict in H. rewrite Hd in H. inversion H. subst args s. clear H.
    apply bind_ok in Hrun as (u & s & H & Hrun).
    apply lift_ok in H as [_ ->].
    apply bind_ok in Hrun as (sc & s & H & Hrun).
    apply lift_ok in H as [_ ->].
    rewrite Hv in Hrun. simpl default in Hrun.
    destruct (munge_ok X X_aug Xv ftm v _ sc s1 s2 HX Hnd Hrun)
      as (k & F & V & -> & Hk & _ & Hfresh & HF & Hsh & Hkept & Hdicts & _).
    exists k, F.
    split; [reflexivity|]. split; [exact Hk|]. split; [exact Hfresh|].
    split; [exact HF|]. split; [exact Hsh|]. split; [|exact Hdicts].
    exact (Hkept X Xv HX).
Qed.

(** X13. Whenever [augment_data], called without [augmentation_data] on a
    frame with unique column labels and with a dictionary that holds no
    infinite [continuous_feature_noise] or [s], returns, the method was
    ['spunge'] or ['munge'], and the frame it returns is a new object with
    exactly [num_augmented_samples] rows, that being the positive count
    the dictionary [augment_args] holds after the call; its index is 0, 1,
    ... and its columns are those of [X_train], which is left as it
    was. *)
Theorem augment_data_row_count (s s' : state G) (X a r : nat) (Xv : DataFrame)
    (ftm : gmap string (list string)) (m : string)
    (d0 : gmap string argval) :
  frames s !! X = Some Xv -> List.NoDup (columns Xv) ->
  dicts s !! a = Some d0 -> finite_noise d0 ->
  augment_data X ftm None m a s = (Ok r, s') ->
  (m = "spunge" \/ m = "munge")
  /\ exists d k F,
       dicts s' !! a = Some d
       /\ d !! "num_augmented_samples" = Some (AInt k)
       /\ (0 < k)%Z
       /\ frames s' !! r = Some F
       /\ len F = Z.to_nat k
       /\ index F = range_index 0 (Z.to_nat k)
       /\ columns F = columns Xv
       /\ frames s !! r = None
       /\ frames s' !! X = Some Xv.
Proof.
  intros HX Hnd _ _ Hrun. unfold augment_data in Hrun.
  apply bind_ok in Hrun as (X_aug & s2 & Hinner & Hpost).
  apply bind_ok in Hinner as (u & s1 & Hder & Hcall).
  destruct (derive_ok s s1 X a u Hder) as (d & v & Hd & Hv).
  destruct (dict_only_derive X a s) as (Hf & _ & _).
  rewrite Hder in Hf. simpl in Hf.
  assert (HX1 : frames s1 !! X = Some Xv) by (rewrite Hf; exact HX).
  destruct (sampler_call_ok s1 s2 X a X_aug Xv ftm m d v HX1 Hnd Hd Hv Hcall)
    as (Hm & k & F & -> & Hk & Hfresh & HF & Hsh & HX2 & Hdicts).
  split; [exact Hm|].
  destruct (postprocess_run s2 X_aug X F Xv HX2 HF)
    as (r0 & Yv & Hrun & Hr0 & Hlen & Hidx & Hcols & _).
  rewrite Hrun in Hpost. inversion Hpost. subst r0 s'. clear Hpost.
  destruct Hsh as ((HlenF & HcolsF & _ & _) & _).
  exists d, k, Yv. cbn [frames dicts].
  split; [rewrite Hdicts; exact Hd|]. split; [exact Hv|]. split; [exact Hk|].
  split; [apply lookup_insert_eq|].
  split; [rewrite Hlen; exact HlenF|].
  split; [rewrite Hidx, HlenF; reflexivity|].
  split; [exact (Hcols Hnd HcolsF)|].
  split.
  - destruct (frames s !! r) as [Y|] eqn:HY; [|reflexivity]. exfalso.
    rewrite <- Hf in HY.
    assert (Hne : r <> X_aug) by (intros ->; congruence).
    destruct Hm as [->| ->].
    + unfold call_spunge in Hcall.
      apply bind_ok in Hcall as (args & sx & H & Hcall).
      unfold get_dict in H. rewrite Hd in H. inversion H. subst args sx.
      apply bind_ok in Hcall as (u1 & sx & H1 & Hcall).
      apply lift_ok in H1 as [_ ->].
      apply bind_ok in Hcall as (noise & sx & H1 & Hcall).
      apply lift_ok in H1 as [_ ->].
      destruct (spunge_ok X X_aug Xv ftm _ _ noise s1 s2 HX1 Hnd Hcall)
        as (k' & F' & _ & _ & _ & _ & _ & Hothers & _ & _).
      rewrite <- (Hothers r Hne) in HY. congruence.
    + unfold call_munge in Hcall.
      apply bind_ok in Hcall as (args & sx & H & Hcall).
      unfold get_dict in H. rewrite Hd in H. inversion H. subst args sx.
      apply bind_ok in Hcall as (u1 & sx & H1 & Hcall).
      apply lift_ok in H1 as [_ ->].
      apply bind_ok in Hcall as (sc & sx & H1 & Hcall).
      apply lift_ok in H1 as [_ ->].
      destruct (munge_ok X X_aug Xv ftm _ _ sc s1 s2 HX1 Hnd Hcall)
        as (k' & F' & V & _ & _ & _ & _ & _ & _ & Hkept & _ & _).
      rewrite (Hkept r Y HY) in Hr0. discriminate.
  - rewrite lookup_insert_ne by congruence. exact HX2.
Qed.

(** X21. Take a frame with unique column labels, one cell per column in
    every row and no integer beyond [2^53] in magnitude, and a dictionary
    that holds no infinite [continuous_feature_noise] or [s].  Whenever
    [augment_data], called without [augmentation_data], returns, every
    value the returned frame holds in a column that is not continuous is a
    value of that same column of [X_train], as it is or as the equal
    float: outside the continuous columns the augmented rows are made of
    observed values only. *)
Theorem augment_data_values_observed (s s' : state G) (X a r : nat)
    (Xv : DataFrame) (ftm : gmap string (list string)) (m : string)
    (d0 : gmap string argval) :
  frames s !! X = Some Xv -> List.NoDup (columns Xv) -> rectangular Xv ->
  exact_ints Xv ->
  dicts s !! a = Some d0 -> finite_noise d0 ->
  augment_data X ftm None m a s = (Ok r, s') ->
  exists F,
    frames s' !! r = Some F
    /\ drawn_from Xv (continuous_features ftm) F.
Proof.
  intros HX Hnd Hrect _ _ _ Hrun. unfold augment_data in Hrun.
  apply bind_ok in Hrun as (X_aug & s2 & Hinner & Hpost).
  apply bind_ok in Hinner as (u & s1 & Hder & Hcall).
  destruct (derive_ok s s1 X a u Hder) as (d & v & Hd & Hv).
  destruct (dict_only_derive X a s) as (Hf & _ & _).
  rewrite Hder in Hf. simpl in Hf.
  assert (HX1 : frames s1 !! X = Some Xv) by (rewrite Hf; exact HX).
  destruct (sampler_call_ok s1 s2 X a X_aug Xv ftm m d v HX1 Hnd Hd Hv Hcall)
    as (_ & k & F & -> & Hk & Hfresh & HF & Hbatch & HX2 & Hdicts).
  destruct (postprocess_run s2 X_aug X F Xv HX2 HF)
    as (r0 & Yv & Hrun & _ & _ & _ & _ & Hvals).
  rewrite Hrun in Hpost. inversion Hpost. subst r0 s'. clear Hpost.
  destruct Hbatch as ((_ & HcolsF & _ & Hw) & Hdrawn).
  exists Yv. cbn [frames]. split; [apply lookup_insert_eq|].
  exact (Hvals (continuous_features ftm) Hnd HcolsF Hw (Hdrawn Hrect)).
Qed.

End EndToEnd.

(* --------------------------------------------------------------------- *)
(** *** Edges of the samplers                                              *)
(* --------------------------------------------------------------------- *)

Lemma col_pos_None (cols : list string) (c : string) :
  ~ In c cols -> col_pos cols c = None.
Proof.
  induction cols as [|c0 cols IH]; intros Hnot; simpl; [reflexivity|].
  destruct (String.eqb c0 c) eqn:E.
  - apply String.eqb_eq in E. exfalso. apply Hnot. left. exact E.
  - rewrite IH; [reflexivity|]. intros Hin. apply Hnot. right. exact Hin.
Qed.

Section Edges.

Context {G : Type}.
Context `{HR : RandomState G} `{HV : Vectorizer} `{HN : NeighborSearch}
        `{HS : Numeric}.

Lemma bind_ext {A B} (c : M G A) (k k' : A -> M G B) (s : state G) :
  (forall a s1, k a s1 = k' a s1) -> bind c k s = bind c k' s.
Proof.
  intros Hk. unfold bind. destruct (c s) as [[a|e] s1]; [apply Hk|reflexivity].
Qed.

Lemma fold_m_ext {A B} (f g : B -> A -> M G B) (xs : list A) (acc : B)
    (s : state G) :
  (forall b x s1, In x xs -> f b x s1 = g b x s1) ->
  fold_m f xs acc s = fold_m g xs acc s.
Proof.
  revert acc s. induction xs as [|x xs IH]; intros acc s Hfg; simpl;
    [reflexivity|].
  rewrite !bind_run, (Hfg acc x s (or_introl eq_refl)).
  destruct (g acc x s) as [[b|e] s1]; [|reflexivity].
  apply IH. intros b0 x0 s2 Hin. apply Hfg. right. exact Hin.
Qed.

Lemma new_batch_empty (X : nat) (Xv : DataFrame) (v : argval) (s : state G) :
  frames s !! X = Some Xv -> df_rows Xv = [] ->
  new_batch X v s
  = (Raise (IndexError "positional indexers are out-of-bounds"), s).
Proof.
  intros HX Hrows. unfold new_batch.
  rewrite bind_run, get_frame_run, HX.
  rewrite bind_run, lift_run. unfold iloc_first. rewrite Hrows. reflexivity.
Qed.

Lemma new_batch_run (X : nat) (Xv : DataFrame) (k : Z) (s : state G) :
  frames s !! X = Some Xv -> df_rows Xv <> [] -> (0 < k)%Z ->
  List.NoDup (columns Xv) ->
  exists B,
    new_batch X (AInt k) s
    = (Ok (fresh (dom (frames s))),
       mkState (<[fresh (dom (frames s)) := B]> (frames s)) (dicts s) (rng s)
               (trace s))
    /\ shaped (Z.to_nat k) (columns Xv) B.
Proof.
  intros HX Hrows Hk Hnd.
  destruct (iloc_first Xv) as [first|e] eqn:Hfirst.
  2:{ unfold iloc_first in Hfirst. destruct (df_rows Xv); [congruence|discriminate]. }
  destruct (pd_concat (repeat first (Z.to_nat k))) as [cat|e] eqn:Hcat.
  2:{ unfold pd_concat in Hcat. destruct (Z.to_nat k) eqn:E; [lia|discriminate]. }
  exists (reset_index cat). split.
  - unfold new_batch. rewrite bind_run, get_frame_run, HX.
    rewrite bind_run, lift_run, Hfirst.
    rewrite bind_run, lift_run, Hcat.
    unfold bind, alloc_frame, put_frame, ret. cbn [frames dicts rng trace].
    rewrite insert_insert_eq. reflexivity.
  - apply (repeated_first_shaped Xv first cat); try assumption. lia.
Qed.

(** [munge_augment] from line 139 on, once lines 115-137 went through. *)
Lemma munge_after_search (X : nat) (Xv : DataFrame)
    (ftm : gmap string (list string)) (v : argval) (p sc : Q)
    (V : list (list Q)) (N : list (list nat)) (js : list nat) (s : state G) :
  frames s !! X = Some Xv -> vectorize Xv = Ok V ->
  kneighbors 2 V V = Ok N -> second_column N = Ok js -> p <= 1 ->
  munge_augment X ftm v (Fin p) sc s
  = (let* X_aug := new_batch (fresh (dom (frames s))) v in
     for_each (continuous_features ftm)
              (cast_continuous X_aug (fresh (dom (frames s)))) ;;
     for_each (sample_range v)
              (munge_row (fresh (dom (frames s))) X_aug js
                 (continuous_features ftm) p sc) ;;
     ret X_aug) (after_search s Xv V).
Proof.
  intros HX HVec HK HC Hp. apply Qgtb_false in Hp. unfold munge_augment.
  rewrite bind_run, get_frame_run, HX.
  rewrite bind_run, emit_run, bind_run, lift_run, HVec.
  rewrite bind_run, emit_run, logged_logged, bind_run, lift_run, HK.
  rewrite bind_run, lift_run, HC. rewrite Hp.
  rewrite bind_run, log_run, logged_logged.
  rewrite bind_run. unfold alloc_frame at 1. cbv beta iota.
  reflexivity.
Qed.

(** X14. On a training frame without rows no batch is produced.  The fast
    sampler, for [0 <= frac_perturb <= 1] and every sample count, fails
    with the [IndexError] of [X.iloc[[0]]] right after its log record.
    The neighbour sampler does not get that far: with a vectoriser that
    yields one vector per row and a search that refuses more neighbours
    than samples, it fails with the vectoriser's error or with the
    search's [ValueError], before anything is logged or allocated. *)
Theorem empty_frame_rejected (s : state G) (X : nat) (Xv : DataFrame)
    (ftm : gmap string (list string)) (v : argval) (x : pyfloat)
    (q noise sc : Q) :
  frames s !! X = Some Xv -> df_rows Xv = [] -> 0 <= q -> q <= 1 ->
  spunge_augment X ftm v (Fin q) noise s
  = (Raise (IndexError "positional indexers are out-of-bounds"),
     logged s [EvLog 20])
  /\ (one_vector_per_row HV -> rejects_too_few_samples HN ->
      (exists e,
         vectorize Xv = Raise e
         /\ munge_augment X ftm v x sc s
            = (Raise e, logged s [EvVectorize 0]))
      \/ (exists V msg,
            vectorize Xv = Ok V
            /\ kneighbors 2 V V = Raise (ValueError msg)
            /\ munge_augment X ftm v x sc s
               = (Raise (ValueError msg),
                  logged s [EvVectorize 0; EvKneighbors 2 0]))).
Proof.
  intros HX Hrows _ Hq. split.
  - unfold spunge_augment. pose proof Hq as Hq'. apply Qgtb_false in Hq'.
    rewrite Hq'.
    rewrite bind_run, log_run, bind_run, get_frame_logged, HX.
    rewrite bind_run.
    rewrite (new_batch_empty X Xv v (logged s [EvLog 20]) HX Hrows).
    reflexivity.
  - intros Hone Hfew.
    assert (Hlen : len Xv = 0%nat) by (unfold len; rewrite Hrows; reflexivity).
    assert (Hlt : (len Xv < 2)%nat) by lia.
    destruct (munge_too_few_rows s X Xv ftm v x sc Hone Hfew HX Hlt)
      as [(e & HVec & Hrun)|(V & msg & HVec & _ & HK & Hrun)];
      rewrite Hlen in Hrun.
    + left. exists e. split; assumption.
    + right. exists V, msg. repeat (split; [assumption|]). exact Hrun.
Qed.

(** X15. When the first continuous feature name of
    [feature_types_metadata] is not a column of [X], the neighbour sampler
    fails with [KeyError] on that name (line 148), after the neighbour
    search and before any row is sampled. *)
Theorem munge_unknown_continuous_column (s : state G) (X : nat)
    (Xv : DataFrame) (ftm : gmap string (list string)) (k : Z) (p sc : Q)
    (V : list (list Q)) (N : list (list nat)) (js : list nat)
    (c : string) (rest : list string) :
  frames s !! X = Some Xv -> List.NoDup (columns Xv) -> df_rows Xv <> [] ->
  vectorize Xv = Ok V -> kneighbors 2 V V = Ok N -> second_column N = Ok js ->
  p <= 1 -> (0 < k)%Z ->
  continuous_features ftm = c :: rest -> ~ In c (columns Xv) ->
  fst (munge_augment X ftm (AInt k) (Fin p) sc s) = Raise (KeyError c).
Proof.
  intros HX Hnd Hrows HVec HK HC Hp Hk Hcont Hc.
  rewrite (munge_after_search X Xv ftm (AInt k) p sc V N js s HX HVec HK HC Hp).
  rewrite bind_run.
  assert (HX' : frames (after_search s Xv V) !! fresh (dom (frames s)) = Some Xv).
  { unfold after_search. cbn [frames]. apply lookup_insert_eq. }
  destruct (new_batch_run (fresh (dom (frames s))) Xv k (after_search s Xv V)
              HX' Hrows Hk Hnd) as (B & Hrun & Hsh).
  rewrite Hrun, Hcont. rewrite bind_run.
  unfold for_each at 1. simpl fold_m. rewrite bind_run.
  unfold cast_continuous at 1. rewrite bind_run.
  unfold update_frame at 1. rewrite bind_run, get_frame_run.
  cbn [frames]. rewrite lookup_insert_eq.
  rewrite bind_run, lift_run.
  unfold get_column. rewrite (proj1 (proj2 Hsh)), (col_pos_None _ _ Hc).
  reflexivity.
Qed.

(** X16. The fast sampler looks continuous feature names up among the
    columns of [X] only: two [feature_types_metadata] that agree on which
    columns of [X] are continuous give the same run, so names that are no
    column of [X] are ignored (where the neighbour sampler raises). *)
Theorem spunge_ignores_unknown_names (s : state G) (X : nat) (Xv : DataFrame)
    (ftm ftm' : gmap string (list string)) (v : argval) (x : pyfloat)
    (noise : Q) :
  frames s !! X = Some Xv ->
  (forall c, In c (columns Xv) ->
     mem_string c (continuous_features ftm)
     = mem_string c (continuous_features ftm')) ->
  spunge_augment X ftm v x noise s = spunge_augment X ftm' v x noise s.
Proof.
  intros HX Hsame. unfold spunge_augment.
  destruct x as [fp|]; [|reflexivity].
  destruct (Qgtb fp 1); [reflexivity|].
  rewrite !(bind_run (log 20)), log_run.
  rewrite !(bind_run (get_frame X)), get_frame_logged, HX.
  apply bind_ext. intros X_aug s1.
  apply bind_ext. intros u s2.
  rewrite !(bind_run (for_each (columns Xv) _)).
  replace (for_each (columns Xv)
             (spunge_noise X X_aug (continuous_features ftm)
                (length (sample_range v)) fp noise) s2)
    with (for_each (columns Xv)
            (spunge_noise X X_aug (continuous_features ftm')
               (length (sample_range v)) fp noise) s2); [reflexivity|].
  unfold for_each. apply fold_m_ext. intros b f s3 Hin.
  unfold spunge_noise. rewrite (Hsame f Hin). reflexivity.
Qed.

(** X11. Whenever [spunge_augment] returns, on a frame with unique column
    labels, the count was a positive integer, and the batch is a new frame
    object with exactly that many rows, the columns of [X] and the index
    0, 1, ...; every other frame object and the dictionaries are as
    before, and the only trace is the level-20 log record. *)
Theorem spunge_batch_shape (s s' : state G) (X r : nat) (Xv : DataFrame)
    (ftm : gmap string (list string)) (v : argval) (x : pyfloat) (noise : Q) :
  frames s !! X = Some Xv -> List.NoDup (columns Xv) ->
  spunge_augment X ftm v x noise s = (Ok r, s') ->
  exists k F,
    v = AInt k /\ (0 < k)%Z
    /\ frames s !! r = None
    /\ frames s' !! r = Some F
    /\ len F = Z.to_nat k
    /\ columns F = columns Xv
    /\ index F = range_index 0 (Z.to_nat k)
    /\ (forall r', r' <> r -> frames s' !! r' = frames s !! r')
    /\ dicts s' = dicts s
    /\ trace s' = trace s ++ [EvLog 20].
Proof.
  intros HX Hnd Hrun.
  destruct (spunge_ok X r Xv ftm v x noise s s' HX Hnd Hrun)
    as (k & F & Hv & Hk & Hfresh & HF & ((Hlen & Hcols & Hidx & _) & _)
        & Hrest).
  exists k, F. repeat (split; [assumption|]). exact Hrest.
Qed.

(** X12. Whenever [munge_augment] returns, on a frame with unique column
    labels, the count was a positive integer, and the batch is a new frame
    object with exactly that many rows, the columns of [X] and the index
    0, 1, ...; every frame object that existed before holds what it held,
    the dictionaries are as before, and the trace gained one vectoriser
    call, one 2-neighbour query and the level-20 log record, in that
    order. *)
Theorem munge_batch_shape (s s' : state G) (X r : nat) (Xv : DataFrame)
    (ftm : gmap string (list string)) (v : argval) (x : pyfloat) (sc : Q) :
  frames s !! X = Some Xv -> List.NoDup (columns Xv) ->
  munge_augment X ftm v x sc s = (Ok r, s') ->
  exists k F V,
    v = AInt k /\ (0 < k)%Z
    /\ vectorize Xv = Ok V
    /\ frames s !! r = None
    /\ frames s' !! r = Some F
    /\ len F = Z.to_nat k
    /\ columns F = columns Xv
    /\ index F = range_index 0 (Z.to_nat k)
    /\ (forall r' Y, frames s !! r' = Some Y -> frames s' !! r' = Some Y)
    /\ dicts s' = dicts s
    /\ trace s' = trace s ++ [EvVectorize (len Xv);
                              EvKneighbors 2 (length V); EvLog 20].
Proof.
  intros HX Hnd Hrun.
  destruct (munge_ok X r Xv ftm v x sc s s' HX Hnd Hrun)
    as (k & F & V & Hv & Hk & HVec & Hfresh & HF
        & ((Hlen & Hcols & Hidx & _) & _) & Hrest).
  exists k, F, V. repeat (split; [assumption|]). exact Hrest.
Qed.

(** X17. When the vectoriser (the tabular-NN preprocessing of lines
    115-122) fails on [X], [munge_augment] fails with that error: the
    neighbour search is not run, no frame is created and no random number
    drawn, whatever [perturb_prob] is. *)
Theorem munge_vectorizer_failure_propagates (s : state G) (X : nat)
    (Xv : DataFrame) (ftm : gmap string (list string)) (v : argval)
    (x : pyfloat) (sc : Q) (e : exn) :
  frames s !! X = Some Xv ->
  vectorize Xv = Raise e ->
  munge_augment X ftm v x sc s = (Raise e, logged s [EvVectorize (len Xv)]).
Proof.
  intros HX HVec. unfold munge_augment.
  rewrite bind_run, get_frame_run, HX.
  rewrite bind_run, emit_run, bind_run, lift_run, HVec. reflexivity.
Qed.

(** X19. Whenever [spunge_augment] returns, on a frame with unique column
    labels, one cell per column in every row and no integer beyond [2^53]
    in magnitude, every value the batch holds in a column that is not
    continuous is a value of that same column of [X], as it is or as the
    equal float: the hot-deck loop (lines 85-92) invents no value, and the
    noise of lines 95-101 touches continuous columns only. *)
Theorem spunge_values_observed (s s' : state G) (X r : nat) (Xv : DataFrame)
    (ftm : gmap string (list string)) (v : argval) (x : pyfloat) (noise : Q) :
  frames s !! X = Some Xv -> List.NoDup (columns Xv) -> rectangular Xv ->
  exact_ints Xv ->
  spunge_augment X ftm v x noise s = (Ok r, s') ->
  exists F,
    frames s' !! r = Some F
    /\ drawn_from Xv (continuous_features ftm) F.
Proof.
  intros HX Hnd Hrect _ Hrun.
  destruct (spunge_ok X r Xv ftm v x noise s s' HX Hnd Hrun)
    as (k & F & _ & _ & _ & HF & (_ & Hdrawn) & _).
  exists F. split; [exact HF|exact (Hdrawn Hrect)].
Qed.

(** X20. Whenever [munge_augment] returns, on a frame with unique column
    labels, one cell per column in every row and no integer beyond [2^53]
    in magnitude, every value the batch holds in a column that is not
    continuous is a value of that same column of [X], as it is or as the
    equal float: outside the continuous columns a row of the batch mixes
    the values of a row of [X] and of its nearest neighbour, and nothing
    else. *)
Theorem munge_values_observed (s s' : state G) (X r : nat) (Xv : DataFrame)
    (ftm : gmap string (list string)) (v : argval) (x : pyfloat) (sc : Q) :
  frames s !! X = Some Xv -> List.NoDup (columns Xv) -> rectangular Xv ->
  exact_ints Xv ->
  munge_augment X ftm v x sc s = (Ok r, s') ->
  exists F,
    frames s' !! r = Some F
    /\ drawn_from Xv (continuous_features ftm) F.
Proof.
  intros HX Hnd Hrect _ Hrun.
  destruct (munge_ok X r Xv ftm v x sc s s' HX Hnd Hrun)
    as (k & F & V & _ & _ & _ & _ & HF & (_ & Hdrawn) & _).
  exists F. split; [exact HF|exact (Hdrawn Hrect)].
Qed.

End Edges.

(* --------------------------------------------------------------------- *)
(** *** The further properties on the sample data                          *)
(* --------------------------------------------------------------------- *)

Ltac distinct_columns :=
  cbv; repeat (apply List.NoDup_cons; [simpl; intuition discriminate|]);
  apply List.NoDup_nil.

Ltac small_ints :=
  unfold exact_ints; simpl; repeat constructor; vm_compute; discriminate.

Ltac no_infinite_noise := split; vm_compute; discriminate.

Lemma derived_count_default_witness :
  derive_num_augmented_samples 0%nat 1%nat
    (Reference.store [Cases.X10] Cases.float_args)
  = (Ok tt,
     with_dict (Reference.store [Cases.X10] Cases.float_args) 1%nat
       (<["num_augmented_samples" := AInt (py_int 3)]>
          (<["max_size" := AFloat PInf]> Cases.float_args))).
Proof.
  refine (proj1 (derived_count_default
                   (Reference.store [Cases.X10] Cases.float_args)
                   0%nat 1%nat Cases.float_args Cases.X10
                   (AFloat (Fin (3 # 10))) _ _ _ _ _) 3 _);
    reflexivity.
Defined.

Lemma derived_count_capped_witness :
  exists n : Z,
    derive_num_augmented_samples 0%nat 1%nat
      (Reference.store [Reference.X4] Cases.capped_args)
    = (Ok tt,
       with_dict (Reference.store [Reference.X4] Cases.capped_args) 1%nat
         (<["num_augmented_samples" := AInt n]> Cases.capped_args))
    /\ (0 <= n)%Z
    /\ inject_Z n <= inject_Z 5
    /\ inject_Z n <= inject_Z 10 * inject_Z (Z.of_nat (len Reference.X4))
    /\ (inject_Z 5 < inject_Z n + 1
        \/ inject_Z 10 * inject_Z (Z.of_nat (len Reference.X4))
           < inject_Z n + 1).
Proof.
  apply (derived_count_capped
           (Reference.store [Reference.X4] Cases.capped_args)
           0%nat 1%nat Cases.capped_args Reference.X4 (AInt 5) (AInt 10)
           (inject_Z 5) (inject_Z 10 * inject_Z (Z.of_nat (len Reference.X4))));
    try reflexivity; unfold Qle; simpl; lia.
Defined.

Lemma derived_count_is_kept_witness :
  derive_num_augmented_samples 1%nat 1%nat
    (snd (derive_num_augmented_samples 0%nat 1%nat
            (Reference.store [Reference.X4; Reference.X2] Reference.caller_args)))
  = (Ok tt,
     snd (derive_num_augmented_samples 0%nat 1%nat
            (Reference.store [Reference.X4; Reference.X2] Reference.caller_args)))
  /\ exists d v,
       dicts (snd (derive_num_augmented_samples 0%nat 1%nat
                     (Reference.store [Reference.X4; Reference.X2]
                        Reference.caller_args))) !! 1%nat = Some d
       /\ d !! "num_augmented_samples" = Some v.
Proof.
  apply (derived_count_is_kept
           (Reference.store [Reference.X4; Reference.X2] Reference.caller_args)
           _ 0%nat 1%nat 1%nat).
  vm_compute. reflexivity.
Defined.

Lemma missing_size_factor_witness :
  Reference.augment_data 0%nat Reference.metadata None "munge" 1%nat
    (Reference.store [Reference.X4] ∅)
  = (Raise (KeyError "size_factor"),
     with_dict (Reference.store [Reference.X4] ∅) 1%nat
       (<["max_size" := AFloat PInf]> ∅)).
Proof.
  exact (missing_size_factor
           (HR := Reference.counter_random) (HV := Reference.plain_vectorizer)
           (HN := Reference.brute_force_neighbors) (HS := Reference.spread)
           (Reference.store [Reference.X4] ∅) 0%nat 1%nat Reference.metadata
           "munge" ∅ eq_refl eq_refl eq_refl).
Defined.

Lemma spunge_batch_shape_witness :
  exists k F,
    AInt 3 = AInt k /\ (0 < k)%Z
    /\ frames (Reference.store [Reference.X4] ∅) !! 1%nat = None
    /\ frames (snd (Reference.spunge_augment 0%nat Reference.metadata (AInt 3)
                      (Fin (1 # 2)) (1 # 10) (Reference.store [Reference.X4] ∅)))
       !! 1%nat = Some F
    /\ len F = Z.to_nat k
    /\ columns F = columns Reference.X4
    /\ index F = range_index 0 (Z.to_nat k)
    /\ (forall r', r' <> 1%nat ->
          frames (snd (Reference.spunge_augment 0%nat Reference.metadata
                         (AInt 3) (Fin (1 # 2)) (1 # 10)
                         (Reference.store [Reference.X4] ∅))) !! r'
          = frames (Reference.store [Reference.X4] ∅) !! r')
    /\ dicts (snd (Reference.spunge_augment 0%nat Reference.metadata (AInt 3)
                     (Fin (1 # 2)) (1 # 10) (Reference.store [Reference.X4] ∅)))
       = dicts (Reference.store [Reference.X4] ∅)
    /\ trace (snd (Reference.spunge_augment 0%nat Reference.metadata (AInt 3)
                     (Fin (1 # 2)) (1 # 10) (Reference.store [Reference.X4] ∅)))
       = trace (Reference.store [Reference.X4] ∅) ++ [EvLog 20].
Proof.
  apply (spunge_batch_shape
           (HR := Reference.counter_random) (HS := Reference.spread)
           (Reference.store [Reference.X4] ∅) _ 0%nat 1%nat Reference.X4
           Reference.metadata (AInt 3) (Fin (1 # 2)) (1 # 10)).
  - reflexivity.
  - distinct_columns.
  - vm_compute. reflexivity.
Defined.

Lemma munge_batch_shape_witness :
  exists k F V,
    AInt 3 = AInt k /\ (0 < k)%Z
    /\ vectorize (Vectorizer := Reference.plain_vectorizer) Reference.X4 = Ok V
    /\ frames (Reference.store [Reference.X4] ∅) !! 2%nat = None
    /\ frames (snd (Reference.munge_augment 0%nat Reference.metadata (AInt 3)
                      (Fin (1 # 2)) 1 (Reference.store [Reference.X4] ∅)))
       !! 2%nat = Some F
    /\ len F = Z.to_nat k
    /\ columns F = columns Reference.X4
    /\ index F = range_index 0 (Z.to_nat k)
    /\ (forall r' Y,
          frames (Reference.store [Reference.X4] ∅) !! r' = Some Y ->
          frames (snd (Reference.munge_augment 0%nat Reference.metadata
                         (AInt 3) (Fin (1 # 2)) 1
                         (Reference.store [Reference.X4] ∅))) !! r' = Some Y)
    /\ dicts (snd (Reference.munge_augment 0%nat Reference.metadata (AInt 3)
                     (Fin (1 # 2)) 1 (Reference.store [Reference.X4] ∅)))
       = dicts (Reference.store [Reference.X4] ∅)
    /\ trace (snd (Reference.munge_augment 0%nat Reference.metadata (AInt 3)
                     (Fin (1 # 2)) 1 (Reference.store [Reference.X4] ∅)))
       = trace (Reference.store [Reference.X4] ∅)
         ++ [EvVectorize (len Reference.X4); EvKneighbors 2 (length V);
             EvLog 20].
Proof.
  apply (munge_batch_shape
           (HR := Reference.counter_random) (HV := Reference.plain_vectorizer)
           (HN := Reference.brute_force_neighbors)
           (Reference.store [Reference.X4] ∅) _ 0%nat 2%nat Reference.X4
           Reference.metadata (AInt 3) (Fin (1 # 2)) 1).
  - reflexivity.
  - distinct_columns.
  - vm_compute. reflexivity.
Defined.

Lemma augment_data_row_count_witness :
  ("spunge" = "spunge" \/ "spunge" = "munge")
  /\ exists d k F,
       dicts (snd Reference.first_call) !! 1%nat = Some d
       /\ d !! "num_augmented_samples" = Some (AInt k)
       /\ (0 < k)%Z
       /\ frames (snd Reference.first_call) !! 3%nat = Some F
       /\ len F = Z.to_nat k
       /\ index F = range_index 0 (Z.to_nat k)
       /\ columns F = columns Reference.X4
       /\ frames (Reference.store [Reference.X4; Reference.X2]
                    Reference.caller_args) !! 3%nat = None
       /\ frames (snd Reference.first_call) !! 0%nat = Some Reference.X4.
Proof.
  apply (augment_data_row_count
           (HR := Reference.counter_random) (HV := Reference.plain_vectorizer)
           (HN := Reference.brute_force_neighbors) (HS := Reference.spread)
           (Reference.store [Reference.X4; Reference.X2] Reference.caller_args)
           (snd Reference.first_call) 0%nat 1%nat 3%nat Reference.X4
           Reference.metadata "spunge" Reference.caller_args).
  - reflexivity.
  - distinct_columns.
  - reflexivity.
  - no_infinite_noise.
  - vm_compute. reflexivity.
Defined.

Lemma empty_frame_rejected_witness :
  Reference.spunge_augment 0%nat Reference.metadata (AInt 3) (Fin (1 # 2))
    (1 # 10) (Reference.store [Cases.X0] ∅)
  = (Raise (IndexError "positional indexers are out-of-bounds"),
     logged (Reference.store [Cases.X0] ∅) [EvLog 20])
  /\ ((exists e,
         vectorize (Vectorizer := Reference.plain_vectorizer) Cases.X0
         = Raise e
         /\ Reference.munge_augment 0%nat Reference.metadata (AInt 3)
              (Fin (1 # 2)) 1 (Reference.store [Cases.X0] ∅)
            = (Raise e, logged (Reference.store [Cases.X0] ∅) [EvVectorize 0]))
      \/ (exists V msg,
            vectorize (Vectorizer := Reference.plain_vectorizer) Cases.X0
            = Ok V
            /\ kneighbors (NeighborSearch := Reference.brute_force_neighbors)
                 2 V V = Raise (ValueError msg)
            /\ Reference.munge_augment 0%nat Reference.metadata (AInt 3)
                 (Fin (1 # 2)) 1 (Reference.store [Cases.X0] ∅)
               = (Raise (ValueError msg),
                  logged (Reference.store [Cases.X0] ∅)
                         [EvVectorize 0; EvKneighbors 2 0]))).
Proof.
  destruct (empty_frame_rejected
              (HR := Reference.counter_random)
              (HV := Reference.plain_vectorizer)
              (HN := Reference.brute_force_neighbors) (HS := Reference.spread)
              (Reference.store [Cases.X0] ∅) 0%nat Cases.X0 Reference.metadata
              (AInt 3) (Fin (1 # 2)) (1 # 2) (1 # 10) 1 eq_refl eq_refl)
    as [Hs Hm].
  - unfold Qle. simpl. lia.
  - unfold Qle. simpl. lia.
  - split; [exact Hs|].
    exact (Hm plain_vectorizer_one_per_row brute_force_rejects_too_few).
Defined.

Lemma munge_unknown_continuous_column_witness :
  fst (Reference.munge_augment 0%nat Cases.metadata_weight (AInt 3)
         (Fin (1 # 2)) 1 (Reference.store [Reference.X4] ∅))
  = Raise (KeyError "weight").
Proof.
  eapply (munge_unknown_continuous_column
            (HR := Reference.counter_random) (HV := Reference.plain_vectorizer)
            (HN := Reference.brute_force_neighbors)
            (Reference.store [Reference.X4] ∅) 0%nat Reference.X4
            Cases.metadata_weight 3 (1 # 2) 1).
  - reflexivity.
  - distinct_columns.
  - discriminate.
  - vm_compute. reflexivity.
  - vm_compute. reflexivity.
  - vm_compute. reflexivity.
  - unfold Qle. simpl. lia.
  - lia.
  - vm_compute. reflexivity.
  - cbv. intuition discriminate.
Defined.

Lemma spunge_ignores_unknown_names_witness :
  Reference.spunge_augment 0%nat Reference.metadata (AInt 3) (Fin (1 # 2))
    (1 # 10) (Reference.store [Reference.X4] ∅)
  = Reference.spunge_augment 0%nat Cases.metadata_extra (AInt 3) (Fin (1 # 2))
      (1 # 10) (Reference.store [Reference.X4] ∅).
Proof.
  apply (spunge_ignores_unknown_names
           (HR := Reference.counter_random) (HS := Reference.spread)
           (Reference.store [Reference.X4] ∅) 0%nat Reference.X4
           Reference.metadata Cases.metadata_extra (AInt 3) (Fin (1 # 2))
           (1 # 10)).
  - reflexivity.
  - intros c [<-|[<-|[<-|[]]]]; vm_compute; reflexivity.
Defined.

Lemma munge_vectorizer_failure_propagates_witness :
  munge_augment (HR := Reference.counter_random)
    (HV := Cases.failing_vectorizer) (HN := Reference.brute_force_neighbors)
    0%nat Reference.metadata (AInt 3) (Fin (1 # 2)) 1
    (Reference.store [Reference.X4] ∅)
  = (Raise (ValueError "cannot vectorize"),
     logged (Reference.store [Reference.X4] ∅) [EvVectorize (len Reference.X4)]).
Proof.
  apply (munge_vectorizer_failure_propagates
           (HR := Reference.counter_random) (HV := Cases.failing_vectorizer)
           (HN := Reference.brute_force_neighbors)
           (Reference.store [Reference.X4] ∅) 0%nat Reference.X4
           Reference.metadata (AInt 3) (Fin (1 # 2)) 1
           (ValueError "cannot vectorize")).
  - reflexivity.
  - reflexivity.
Defined.

Lemma postprocess_returns_batch_witness :
  postprocess_augmented 1%nat 0%nat
    (Reference.store [Reference.X4; Reference.X2] ∅)
  = (Ok (fresh (dom (frames (Reference.store [Reference.X4; Reference.X2] ∅)))),
     mkState
       (<[fresh (dom (frames (Reference.store [Reference.X4; Reference.X2] ∅)))
          := reset_index Reference.X2]>
          (frames (Reference.store [Reference.X4; Reference.X2] ∅)))
       (dicts (Reference.store [Reference.X4; Reference.X2] ∅))
       (rng (Reference.store [Reference.X4; Reference.X2] ∅))
       (trace (Reference.store [Reference.X4; Reference.X2] ∅) ++ [EvLog 15])).
Proof.
  apply (postprocess_returns_batch
           (Reference.store [Reference.X4; Reference.X2] ∅) 1%nat 0%nat
           Reference.X2 Reference.X4).
  - reflexivity.
  - reflexivity.
  - distinct_columns.
  - reflexivity.
  - unfold well_typed, fits. simpl. repeat constructor.
Defined.

Lemma spunge_values_observed_witness :
  exists F,
    frames (snd (Reference.spunge_augment 0%nat Reference.metadata (AInt 3)
                   (Fin (1 # 2)) (1 # 10) (Reference.store [Reference.X4] ∅)))
    !! 1%nat = Some F
    /\ drawn_from Reference.X4 (continuous_features Reference.metadata) F.
Proof.
  apply (spunge_values_observed
           (HR := Reference.counter_random) (HS := Reference.spread)
           (Reference.store [Reference.X4] ∅) _ 0%nat 1%nat Reference.X4
           Reference.metadata (AInt 3) (Fin (1 # 2)) (1 # 10)).
  - reflexivity.
  - distinct_columns.
  - unfold rectangular. simpl. repeat constructor.
  - small_ints.
  - vm_compute. reflexivity.
Defined.

Lemma munge_values_observed_witness :
  exists F,
    frames (snd (Reference.munge_augment 0%nat Reference.metadata (AInt 3)
                   (Fin (1 # 2)) 1 (Reference.store [Reference.X4] ∅)))
    !! 2%nat = Some F
    /\ drawn_from Reference.X4 (continuous_features Reference.metadata) F.
Proof.
  apply (munge_values_observed
           (HR := Reference.counter_random) (HV := Reference.plain_vectorizer)
           (HN := Reference.brute_force_neighbors)
           (Reference.store [Reference.X4] ∅) _ 0%nat 2%nat Reference.X4
           Reference.metadata (AInt 3) (Fin (1 # 2)) 1).
  - reflexivity.
  - distinct_columns.
  - unfold rectangular. simpl. repeat constructor.
  - small_ints.
  - vm_compute. reflexivity.
Defined.

Lemma augment_data_values_observed_witness :
  exists F,
    frames (snd Reference.first_call) !! 3%nat = Some F
    /\ drawn_from Reference.X4 (continuous_features Reference.metadata) F.
Proof.
  apply (augment_data_values_observed
           (HR := Reference.counter_random) (HV := Reference.plain_vectorizer)
           (HN := Reference.brute_force_neighbors) (HS := Reference.spread)
           (Reference.store [Reference.X4; Reference.X2] Reference.caller_args)
           (snd Reference.first_call) 0%nat 1%nat 3%nat Reference.X4
           Reference.metadata "spunge" Reference.caller_args).
  - reflexivity.
  - distinct_columns.
  - unfold rectangular. simpl. repeat constructor.
  - small_ints.
  - reflexivity.
  - no_infinite_noise.
  - vm_compute. reflexivity.
Defined.
